(** * Overnight-holding stock screen: a shallow embedding of [main.py]

    The program screens a list of A-share symbols through nine ordered
    tests.  Everything it knows about the market comes from the external
    [akshare] package ([ak.*] calls); here that package is a record of
    oracle functions, which also holds the one indicator the program takes
    from the [ta] package.  Numbers read from the float columns of pandas
    frames are [numpy.float64] scalars, that is IEEE-754 binary64 values,
    so they are modelled with Rocq's primitive floats: arithmetic never
    raises, a division by zero yields an infinity or a NaN, and every
    ordered comparison with a NaN is false.  The program never converts the
    price column of the minute frame, so that column may also come with
    dtype [object] and hold Python floats, whose division by a zero raises
    [ZeroDivisionError].  Console output ([print]) is not modelled. *)

From Stdlib Require Import Floats ZArith.
From stdpp Require Import gmap strings list.

Set Default Proof Using "Type".
Set Warnings "-inexact-float".
Local Open Scope float_scope.

(** ** Data frames *)

(** One row of the daily frame after the column renaming of
    [get_daily_data]. *)
Record DailyBar := {
  date : Z;
  open : float;
  close : float;
  high : float;
  low : float;
  volume : float
}.

(** One row of the minute frame after the renaming of [get_intraday_data];
    [time] is the time of day in seconds since midnight. *)
Record Tick := {
  time : Z;
  price : float
}.

(** The dtype of a column of numbers: [float64], whose cells are read as
    [numpy.float64] scalars, or [object], whose cells are Python floats. *)
Inductive Dtype := float64 | object.

(** The minute frame of [ak.stock_zh_a_minute]: whether it has a '时间'
    column, the dtype of its '成交' column when it has one, and its rows.
    A frame can lack a column whatever its rows are; the frame
    [pd.DataFrame()] has no column and no row. *)
Record MinuteFrame := {
  time_column : bool;
  price_column : option Dtype;
  ticks : list Tick
}.

(** The indicator frame of [ak.stock_a_indicator_lg]: whether it is empty,
    and its [total_mv] column when the frame has one. *)
Record IndicatorFrame := {
  ind_empty : bool;
  ind_total_mv : option (list float)
}.

(** One row of the spot table: the columns '代码' and '最新价'. *)
Record SpotRow := {
  code : string;
  latest_price : float
}.

(** The index frame: its '收盘' column when the frame has one (the rows of
    the frame are the rows of that column). *)
Record IndexFrame := {
  idx_close : option (list float)
}.

(** Python exceptions, by class name; all are subclasses of [Exception]. *)
Inductive exn :=
| ProviderError (msg : string)
| KeyError (key : string)
| IndexError
| TypeError
| ZeroDivisionError.

(** The external data provider.  A call either raises or returns a frame;
    a daily frame on which the renaming or the date conversion of
    [get_daily_data] would fail, and a minute frame whose '时间' column
    cannot be converted to times, count as a call that raises.  The daily,
    indicator, spot and index frames are taken with the columns recorded
    above, as float64 columns.  The provider answers the same question
    the same way throughout a run.

    The last field is not a data call: it is the one value the program
    takes from the [ta] package, the last entry of
    [BollingerBands(close, window=20, window_dev=2).bollinger_hband()] as a
    function of the close column.  [ta] computes it with pandas' rolling
    mean and standard deviation, which are not part of the program, so
    nothing is assumed about it. *)
Record Provider := {
  stock_zh_a_hist : string → exn + list DailyBar;
  stock_a_indicator_lg : string → exn + IndicatorFrame;
  stock_zh_a_spot_em : exn + list SpotRow;
  stock_zh_a_minute : string → exn + MinuteFrame;
  index_zh_a_hist : string → exn + IndexFrame;
  stock_zh_index_daily : string → exn + IndexFrame;
  bollinger_hband : list float → float
}.

(** The provider calls a run makes, in order. *)
Inductive call :=
| Call_stock_zh_a_hist (symbol : string)
| Call_stock_a_indicator_lg (symbol : string)
| Call_stock_zh_a_spot_em
| Call_stock_zh_a_minute (symbol : string)
| Call_index_zh_a_hist (symbol : string)
| Call_stock_zh_index_daily (symbol : string).

(** ** Numeric helpers (numpy and pandas)

    numpy adds the entries of a float64 array of fewer than eight entries
    from left to right, which is all the five-session windows of the
    program need; longer arrays are added pairwise ([pairwise_sum]
    below).  Whether a sum that is zero comes out as +0 or -0 depends on
    the numpy version; the program only compares and divides by its sums,
    so it cannot tell. *)

Definition of_nat (n : nat) : float := of_uint63 (Uint63.of_Z (Z.of_nat n)).

Definition fsum (l : list float) : float := fold_left add l 0.

(** numpy's sum of a float64 array (the [pairwise_sum] of its add loop).
    Eight entries or more, up to 128: eight running sums, entry i going
    to sum i mod 8 as long as a full block of eight is left; the eight
    sums are then added as a balanced tree, and the entries left over are
    added to the result one by one. *)
Fixpoint unrolled_sum (r0 r1 r2 r3 r4 r5 r6 r7 : float) (a : list float)
  : float :=
  match a with
  | a0 :: a1 :: a2 :: a3 :: a4 :: a5 :: a6 :: a7 :: a' =>
      unrolled_sum (r0 + a0) (r1 + a1) (r2 + a2) (r3 + a3)
                   (r4 + a4) (r5 + a5) (r6 + a6) (r7 + a7) a'
  | _ =>
      fold_left add a (((r0 + r1) + (r2 + r3)) + ((r4 + r5) + (r6 + r7)))
  end.

(** Up to 128 entries: from left to right below eight, unrolled from
    eight on. *)
Definition block_sum (a : list float) : float :=
  match a with
  | a0 :: a1 :: a2 :: a3 :: a4 :: a5 :: a6 :: a7 :: a' =>
      unrolled_sum a0 a1 a2 a3 a4 a5 a6 a7 a'
  | _ => fold_left add a 0
  end.

(** More than 128 entries: the array is cut at half its length rounded
    down to a multiple of eight and the sums of the two parts are added.
    Each part is shorter than the array, so a recursion depth equal to the
    length is never used up ([pairwise_sum_unfold]). *)
Fixpoint pairwise_sum_rec (depth : nat) (a : list float) : float :=
  match depth with
  | S depth' =>
      if (128 <? length a)%nat then
        let n2 := (length a / 2 - (length a / 2) mod 8)%nat in
        pairwise_sum_rec depth' (take n2 a) + pairwise_sum_rec depth' (drop n2 a)
      else block_sum a
  | O => block_sum a
  end.

Definition pairwise_sum (a : list float) : float :=
  pairwise_sum_rec (length a) a.

(** [Series.mean] on a float64 column ([nanops.nanmean]): the NaN entries
    are replaced by 0 in place, the array is summed by numpy, starting
    from the identity of the addition, and the sum is divided by the
    number of entries that are not NaN; with no such entry the result is
    NaN. *)
Definition nanmean (values : list float) : float :=
  let count := length (filter (fun x => is_nan x = false) values) in
  let the_sum :=
    0 + pairwise_sum (map (fun x => if is_nan x then 0 else x) values) in
  if (0 <? count)%nat then the_sum / of_nat count else nan.

(** [np.mean]: the sum over the length (NaN on the empty array). *)
Definition np_mean (l : list float) : float := fsum l / of_nat (length l).

(** [np.std] with its default [ddof=0]: the root of the mean squared
    deviation from the mean. *)
Definition np_std (l : list float) : float :=
  let m := np_mean l in
  sqrt (np_mean (map (fun x => (x - m) * (x - m)) l)).

(** [Series.mean] on fewer than eight entries, or on a column of dtype
    [object], where the entries are added from left to right whatever
    their number: pandas leaves NaN entries out of the sum and of the
    count; with no entry left the result is NaN. *)
Definition series_mean (l : list float) : float :=
  let kept := filter (fun x => is_nan x = false) l in
  fsum kept / of_nat (length kept).

(** [s.iloc[-k]] for k ≥ 1: the k-th element from the end, [IndexError]
    when the series is shorter. *)
Definition iloc_neg {A} (k : nat) (l : list A) : exn + A :=
  if decide (1 ≤ k ≤ length l)%nat then
    match l !! (length l - k)%nat with
    | Some x => inr x
    | None => inl IndexError
    end
  else inl IndexError.

(** [s.iloc[0]]. *)
Definition iloc_0 {A} (l : list A) : exn + A :=
  match l with
  | x :: _ => inr x
  | [] => inl IndexError
  end.

(** [s.iloc[-a:-b]] for 0 < b ≤ a and [s.iloc[-a:]]: slices never raise. *)
Definition iloc_slice_neg {A} (a b : nat) (l : list A) : list A :=
  drop (length l - a) (take (length l - b) l).

Definition iloc_tail {A} (a : nat) (l : list A) : list A :=
  drop (length l - a) l.

(** [Series.pct_change().iloc[-1]] on a column without missing values:
    pandas computes x[t] / x[t-1] - 1, and NaN for the first row; the
    [iloc[-1]] raises on a frame without rows. *)
Definition pct_change_last (l : list float) : exn + float :=
  match iloc_neg 1 l with
  | inl e => inl e
  | inr x =>
      match iloc_neg 2 l with
      | inr p => inr (x / p - 1)
      | inl _ => inr nan
      end
  end.

(** ** Program state and control flow *)

(** The locals of [filter_stocks] that the loop updates, and the log of
    provider calls made so far. *)
Record State := {
  selected : list string;
  rejected : gmap string nat;
  processed_count : nat;
  calls : list call
}.

(** How a statement ends: normally with a value, by [continue], or by a
    raised exception. *)
Inductive Flow (A : Type) :=
| Val (a : A)
| Continue
| Raise (e : exn).
Arguments Val {A} a.
Arguments Continue {A}.
Arguments Raise {A} e.

Definition M (A : Type) : Type := State → Flow A * State.

Definition m_ret {A} (a : A) : M A := fun st => (Val a, st).

Definition m_bind {A B} (f : A → M B) (m : M A) : M B :=
  fun st =>
    match m st with
    | (Val a, st') => f a st'
    | (Continue, st') => (Continue, st')
    | (Raise e, st') => (Raise e, st')
    end.

#[global] Instance M_ret : MRet M := @m_ret.
#[global] Instance M_bind : MBind M := @m_bind.

Definition raise {A} (e : exn) : M A := fun st => (Raise e, st).

Definition continue {A} : M A := fun st => (Continue, st).

(** A value that may be an exception, raised on the spot. *)
Definition lift {A} (r : exn + A) : M A :=
  match r with
  | inl e => raise e
  | inr a => mret a
  end.

(** A call to the provider: logged, then it returns or raises. *)
Definition ak {A} (c : call) (r : exn + A) : M A :=
  fun st =>
    let st' := {| selected := selected st; rejected := rejected st;
                  processed_count := processed_count st;
                  calls := calls st ++ [c] |} in
    match r with
    | inl e => (Raise e, st')
    | inr a => (Val a, st')
    end.

(** [try: body except: handler]. *)
Definition try_except {A} (body : M A) (handler : exn → M A) : M A :=
  fun st =>
    match body st with
    | (Raise e, st') => handler e st'
    | r => r
    end.

(** [rejected[key] += 1]: a [KeyError] when the key is missing. *)
Definition bump (key : string) : M unit :=
  fun st =>
    match rejected st !! key with
    | Some n =>
        (Val tt, {| selected := selected st;
                    rejected := <[key := S n]> (rejected st);
                    processed_count := processed_count st;
                    calls := calls st |})
    | None => (Raise (KeyError key), st)
    end.

(** [rejected[key] += 1; continue]. *)
Definition reject {A} (key : string) : M A := bump key ;; continue.

(** [selected.append(symbol)]. *)
Definition select (symbol : string) : M unit :=
  fun st =>
    (Val tt, {| selected := selected st ++ [symbol];
                rejected := rejected st;
                processed_count := processed_count st;
                calls := calls st |}).

(** [processed_count += 1]. *)
Definition count_processed : M unit :=
  fun st =>
    (Val tt, {| selected := selected st;
                rejected := rejected st;
                processed_count := S (processed_count st);
                calls := calls st |}).

(** The loop of [for symbol in symbol_list]: an iteration that ends normally
    or by [continue] is followed by the next one; an exception that leaves
    the body leaves the loop. *)
Fixpoint for_loop (body : string → M unit) (l : list string) : M unit :=
  match l with
  | [] => mret tt
  | x :: l' =>
      fun st =>
        match body x st with
        | (Raise e, st') => (Raise e, st')
        | (_, st') => for_loop body l' st'
        end
  end.

(** Python truth value of an optional number: [None] and zero are false,
    every other number (NaN too) is true. *)
Definition truthy (x : option float) : bool :=
  match x with
  | Some v => negb (v =? 0)
  | None => false
  end.

(** A value used in arithmetic: [None] there is a [TypeError]. *)
Definition number (x : option float) : exn + float :=
  match x with
  | Some v => inr v
  | None => inl TypeError
  end.

(** [return selected]. *)
Definition return_selected : M (list string) :=
  fun st => (Val (selected st), st).

(** ** The indicators of the filter chain *)

Definition pct_change (today prev_day : DailyBar) : float :=
  (close today - close prev_day) / close prev_day * 100.

Definition avg_volume_5d (daily_df : list DailyBar) : float :=
  series_mean (iloc_slice_neg 6 1 (map volume daily_df)).

Definition volume_ratio (today : DailyBar) (daily_df : list DailyBar) : float :=
  if negb (avg_volume_5d daily_df =? 0)
  then volume today / avg_volume_5d daily_df
  else 0.

Definition turnover_value (today : DailyBar) : float :=
  volume today * close today.

Definition est_turnover_rate (today : DailyBar) (total_mv : float) : float :=
  turnover_value today / total_mv * 100.

Definition est_float_mv (total_mv : float) : float := total_mv * 0.7.

Definition volumes (daily_df : list DailyBar) : list float :=
  iloc_tail 5 (map volume daily_df).

Definition cv (daily_df : list DailyBar) : float :=
  if negb (np_mean (volumes daily_df) =? 0)
  then np_std (volumes daily_df) / np_mean (volumes daily_df)
  else 0.

(** [upper.iloc[-1]] is the band value [ta] returns for the close
    column. *)
Definition resistance_distance (akshare : Provider) (today : DailyBar)
    (daily_df : list DailyBar) : float :=
  (bollinger_hband akshare (map close daily_df) - close today)
  / close today * 100.

(** [intraday_df['price']]: the column with its dtype, a [KeyError] when
    the frame has no such column. *)
Definition price_series (intraday_df : MinuteFrame)
  : exn + Dtype * list float :=
  match price_column intraday_df with
  | Some dtype => inr (dtype, map price (ticks intraday_df))
  | None => inl (KeyError "price")
  end.

(** [Series.mean], by the dtype of the column. *)
Definition mean (dtype : Dtype) (values : list float) : float :=
  match dtype with
  | float64 => nanmean values
  | object => series_mean values
  end.

(** [x / y] on two cells of a column: numpy divides as IEEE-754 does,
    Python raises on a zero divisor. *)
Definition truediv (dtype : Dtype) (x y : float) : exn + float :=
  match dtype with
  | float64 => inr (x / y)
  | object => if y =? 0 then inl ZeroDivisionError else inr (x / y)
  end.

Definition vwap (intraday_df : MinuteFrame) : exn + float :=
  match price_series intraday_df with
  | inl e => inl e
  | inr (dtype, prices) => inr (mean dtype prices)
  end.

Definition stock_pct (intraday_df : MinuteFrame) : exn + float :=
  match price_series intraday_df with
  | inl e => inl e
  | inr (dtype, prices) =>
      match iloc_neg 1 prices, iloc_0 prices with
      | inr last, inr first =>
          match truediv dtype (last - first) first with
          | inr q => inr (q * 100)
          | inl e => inl e
          end
      | inl e, _ => inl e
      | _, inl e => inl e
      end
  end.

(** The keys of the [rejected] dictionary. *)
Definition InsufficientHistory : string := "数据不足".
Definition NoValuationData : string := "无流通市值数据".
Definition PriceMoveOutOfRange : string := "涨幅不符".
Definition VolumeRatioTooLow : string := "量比不足".
Definition TurnoverOutOfRange : string := "换手率不符".
Definition MarketValueOutOfRange : string := "市值不符".
Definition VolumeUnstable : string := "成交量不稳定".
Definition BandResistance : string := "布林带压力".
Definition WeakIntraday : string := "尾盘表现不佳".
Definition EvaluationError : string := "其他错误".

Definition reasons : list string :=
  [InsufficientHistory; NoValuationData; PriceMoveOutOfRange;
   VolumeRatioTooLow; TurnoverOutOfRange; MarketValueOutOfRange;
   VolumeUnstable; BandResistance; WeakIntraday; EvaluationError].

(** The dictionary literal that initialises [rejected]. *)
Definition rejected_init : gmap string nat :=
  list_to_map (map (fun k => (k, 0%nat)) reasons).

(** ** The program *)

(** Lines 64 to 66 of [get_intraday_data] on the frame the provider
    returned: [df['time']] is a [KeyError] on a frame without a '时间'
    column, with or without rows; otherwise the rows from 14:30:00
    (52200 seconds) on are kept. *)
Definition last_half_hour (df : MinuteFrame) : exn + MinuteFrame :=
  if time_column df
  then inr {| time_column := true;
              price_column := price_column df;
              ticks := filter (fun t => (52200 ≤ time t)%Z) (ticks df) |}
  else inl (KeyError "time").

Section Program.

Context (akshare : Provider).

Definition get_daily_data (symbol : string) : M (list DailyBar) :=
  ak (Call_stock_zh_a_hist symbol) (stock_zh_a_hist akshare symbol).

Definition get_float_share_and_mv (symbol : string)
  : M (option float * option float) :=
  try_except
    (df ← ak (Call_stock_a_indicator_lg symbol)
             (stock_a_indicator_lg akshare symbol);
     if ind_empty df then mret (None, None) else
     price_df ← ak Call_stock_zh_a_spot_em (stock_zh_a_spot_em akshare);
     let price_df := filter (fun r => code r = symbol) price_df in
     let current_price :=
       match price_df with
       | r :: _ => Some (latest_price r)
       | [] => None
       end in
     total_mv ← match ind_total_mv df with
                | Some col => x ← lift (iloc_0 col); mret (Some (x * 1e8))
                | None => mret None
                end;
     let float_share :=
       match total_mv, current_price with
       | Some mv, Some p =>
           if truthy total_mv && truthy current_price && (0 <? p)
           then Some (mv / p * 0.7)
           else None
       | _, _ => None
       end in
     mret (float_share, total_mv))
    (fun _ => mret (None, None)).

Definition get_intraday_data (symbol : string) : M MinuteFrame :=
  df ← ak (Call_stock_zh_a_minute symbol) (stock_zh_a_minute akshare symbol);
  lift (last_half_hour df).

Definition get_index_data (index_symbol : string) : M float :=
  try_except
    (df ← try_except
            (ak (Call_index_zh_a_hist index_symbol)
                (index_zh_a_hist akshare index_symbol))
            (fun _ => ak (Call_stock_zh_index_daily ("sh" +:+ index_symbol))
                         (stock_zh_index_daily akshare ("sh" +:+ index_symbol)));
     col ← match idx_close df with
           | Some col => mret col
           | None => raise (KeyError "收盘")
           end;
     last ← lift (pct_change_last col);
     mret (last * 100))
    (fun _ => mret 0).

(** The body of the [try] statement of the loop. *)
Definition try_block (index_pct : float) (symbol : string) : M unit :=
  daily_df ← get_daily_data symbol;
  if (length daily_df <? 20)%nat then reject InsufficientHistory else
  '(float_share, total_mv) ← get_float_share_and_mv symbol;
  if negb (truthy float_share) || negb (truthy total_mv)
  then reject NoValuationData else
  today ← lift (iloc_neg 1 daily_df);
  prev_day ← lift (iloc_neg 2 daily_df);
  if negb ((3 <=? pct_change today prev_day) && (pct_change today prev_day <=? 5))
  then reject PriceMoveOutOfRange else
  if volume_ratio today daily_df <? 1 then reject VolumeRatioTooLow else
  total_mv ← lift (number total_mv);
  if negb ((5 <=? est_turnover_rate today total_mv)
           && (est_turnover_rate today total_mv <=? 10))
  then reject TurnoverOutOfRange else
  if negb ((50e8 <=? est_float_mv total_mv) && (est_float_mv total_mv <=? 200e8))
  then reject MarketValueOutOfRange else
  if 0.5 <? cv daily_df then reject VolumeUnstable else
  if resistance_distance akshare today daily_df <? 3
  then reject BandResistance else
  intraday_df ← get_intraday_data symbol;
  if bool_decide (ticks intraday_df = []) then reject WeakIntraday else
  vwap ← lift (vwap intraday_df);
  stock_pct ← lift (stock_pct intraday_df);
  if (close today <? vwap) || (stock_pct <? index_pct + 1)
  then reject WeakIntraday else
  select symbol.

(** One iteration of the loop. *)
Definition loop_body (index_pct : float) (symbol : string) : M unit :=
  count_processed;;
  try_except (try_block index_pct symbol) (fun _ => reject EvaluationError).

Definition filter_stocks (symbol_list : list string) : M (list string) :=
  fun st =>
    (index_pct ← get_index_data "000300";
     for_loop (loop_body index_pct) symbol_list;;
     return_selected)
      {| selected := []; rejected := rejected_init;
         processed_count := 0; calls := calls st |}.

End Program.

(** ** The filter chain as a table of tests

    The design document describes the evaluation of one symbol as nine
    tests run in a fixed order, the first one that does not pass ending
    the evaluation.  The definitions below say that in so many words; the
    lemma [loop_body_evaluate] shows that the loop body does just this. *)

Inductive Stage :=
| MinimumHistory
| ValuationAvailability
| DailyPriceMove
| VolumeSurge
| Turnover
| FloatMarketValue
| VolumeStability
| BandHeadroom
| IntradayStrength.

Definition stages : list Stage :=
  [MinimumHistory; ValuationAvailability; DailyPriceMove; VolumeSurge;
   Turnover; FloatMarketValue; VolumeStability; BandHeadroom;
   IntradayStrength].

Definition stage_index (k : Stage) : nat :=
  match k with
  | MinimumHistory => 1
  | ValuationAvailability => 2
  | DailyPriceMove => 3
  | VolumeSurge => 4
  | Turnover => 5
  | FloatMarketValue => 6
  | VolumeStability => 7
  | BandHeadroom => 8
  | IntradayStrength => 9
  end.

Definition reason (k : Stage) : string :=
  match k with
  | MinimumHistory => InsufficientHistory
  | ValuationAvailability => NoValuationData
  | DailyPriceMove => PriceMoveOutOfRange
  | VolumeSurge => VolumeRatioTooLow
  | Turnover => TurnoverOutOfRange
  | FloatMarketValue => MarketValueOutOfRange
  | VolumeStability => VolumeUnstable
  | BandHeadroom => BandResistance
  | IntradayStrength => WeakIntraday
  end.

(** What one test says: it passes, it fails, or computing it raises. *)
Inductive Check := Pass | Fail | Error.

Definition fail_if (b : bool) : Check := if b then Fail else Pass.

Inductive Verdict :=
| Passed
| Rejected (key : string).

(** States reached from a state by the statements of the loop. *)
Definition add_calls (cs : list call) (st : State) : State :=
  {| selected := selected st; rejected := rejected st;
     processed_count := processed_count st; calls := calls st ++ cs |}.

Definition bump_state (key : string) (st : State) : State :=
  match rejected st !! key with
  | Some n =>
      {| selected := selected st; rejected := <[key := S n]> (rejected st);
         processed_count := processed_count st; calls := calls st |}
  | None => st
  end.

Definition select_state (symbol : string) (st : State) : State :=
  {| selected := selected st ++ [symbol]; rejected := rejected st;
     processed_count := processed_count st; calls := calls st |}.

Definition count_state (st : State) : State :=
  {| selected := selected st; rejected := rejected st;
     processed_count := S (processed_count st); calls := calls st |}.

Definition record (symbol : string) (v : Verdict) (st : State) : State :=
  match v with
  | Passed => select_state symbol st
  | Rejected key => bump_state key st
  end.

Definition flow_of (v : Verdict) : Flow unit :=
  match v with
  | Passed => Val tt
  | Rejected _ => Continue
  end.

(** The empty state, and the state in which [filter_stocks] enters its
    loop when no call has been made before. *)
Definition st_nil : State :=
  {| selected := []; rejected := ∅; processed_count := 0; calls := [] |}.

(** Every key the loop increments is in the dictionary. *)
Definition has_reasons (m : gmap string nat) : Prop :=
  Forall (fun k => is_Some (m !! k)) reasons.

(** [sum(rejected.values())]. *)
Definition total_rejected (m : gmap string nat) : nat :=
  map_fold (fun _ n acc => (n + acc)%nat) 0%nat m.

(** The count under one key, 0 for a key that is not there. *)
Definition count_of (key : string) (st : State) : nat :=
  default 0%nat (rejected st !! key).

Section Chain.

Context (akshare : Provider).

(** What [get_float_share_and_mv] returns and the calls it makes; neither
    depends on the state it starts from ([get_float_share_and_mv_run]). *)
Definition valuation (symbol : string) : option float * option float :=
  match (get_float_share_and_mv akshare symbol st_nil).1 with
  | Val v => v
  | _ => (None, None)
  end.

Definition valuation_calls (symbol : string) : list call :=
  calls (get_float_share_and_mv akshare symbol st_nil).2.

(** Likewise for [get_index_data]. *)
Definition benchmark (index_symbol : string) : float :=
  match (get_index_data akshare index_symbol st_nil).1 with
  | Val v => v
  | _ => 0
  end.

Definition index_calls (index_symbol : string) : list call :=
  calls (get_index_data akshare index_symbol st_nil).2.

(** The index frame [get_index_data] works on: the one of the first call,
    or of the second call when the first one raises. *)
Definition index_frame (index_symbol : string) : exn + IndexFrame :=
  match index_zh_a_hist akshare index_symbol with
  | inr df => inr df
  | inl _ => stock_zh_index_daily akshare ("sh" +:+ index_symbol)
  end.

(** What [get_intraday_data] returns or raises for a symbol. *)
Definition intraday (symbol : string) : exn + MinuteFrame :=
  match stock_zh_a_minute akshare symbol with
  | inl e => inl e
  | inr df => last_half_hour df
  end.

(** A test on the daily frame and its last two rows. *)
Definition on_bars (symbol : string)
    (test : list DailyBar → DailyBar → DailyBar → Check) : Check :=
  match stock_zh_a_hist akshare symbol with
  | inl _ => Error
  | inr daily_df =>
      match iloc_neg 1 daily_df, iloc_neg 2 daily_df with
      | inr today, inr prev_day => test daily_df today prev_day
      | _, _ => Error
      end
  end.

(** A test that needs the total market value as a number. *)
Definition on_total_mv (symbol : string) (test : float → Check) : Check :=
  match number (valuation symbol).2 with
  | inl _ => Error
  | inr total_mv => test total_mv
  end.

(** The nine tests, each on its own. *)
Definition check (index_pct : float) (symbol : string) (k : Stage) : Check :=
  match k with
  | MinimumHistory =>
      match stock_zh_a_hist akshare symbol with
      | inl _ => Error
      | inr daily_df => fail_if (length daily_df <? 20)%nat
      end
  | ValuationAvailability =>
      fail_if (negb (truthy (valuation symbol).1)
               || negb (truthy (valuation symbol).2))
  | DailyPriceMove =>
      on_bars symbol (fun _ today prev_day =>
        fail_if (negb ((3 <=? pct_change today prev_day)
                       && (pct_change today prev_day <=? 5))))
  | VolumeSurge =>
      on_bars symbol (fun daily_df today _ =>
        fail_if (volume_ratio today daily_df <? 1))
  | Turnover =>
      on_bars symbol (fun _ today _ =>
        on_total_mv symbol (fun total_mv =>
          fail_if (negb ((5 <=? est_turnover_rate today total_mv)
                         && (est_turnover_rate today total_mv <=? 10)))))
  | FloatMarketValue =>
      on_total_mv symbol (fun total_mv =>
        fail_if (negb ((50e8 <=? est_float_mv total_mv)
                       && (est_float_mv total_mv <=? 200e8))))
  | VolumeStability =>
      on_bars symbol (fun daily_df _ _ => fail_if (0.5 <? cv daily_df))
  | BandHeadroom =>
      on_bars symbol (fun daily_df today _ =>
        fail_if (resistance_distance akshare today daily_df <? 3))
  | IntradayStrength =>
      on_bars symbol (fun _ today _ =>
        match intraday symbol with
        | inl _ => Error
        | inr intraday_df =>
            if bool_decide (ticks intraday_df = []) then Fail else
            match vwap intraday_df, stock_pct intraday_df with
            | inr vwap, inr stock_pct =>
                fail_if ((close today <? vwap)
                         || (stock_pct <? index_pct + 1))
            | _, _ => Error
            end
        end)
  end.

(** The first test of a list that does not pass, with what it says. *)
Fixpoint first_stop (test : Stage → Check) (l : list Stage)
  : option (Stage * Check) :=
  match l with
  | [] => None
  | k :: l' =>
      match test k with
      | Pass => first_stop test l'
      | c => Some (k, c)
      end
  end.

(** The verdict on one symbol: the reason of the first failing test, the
    catch-all reason when a test raises first, a pass otherwise. *)
Definition evaluate (index_pct : float) (symbol : string) : Verdict :=
  match first_stop (check index_pct symbol) stages with
  | None => Passed
  | Some (k, Fail) => Rejected (reason k)
  | Some (_, _) => Rejected EvaluationError
  end.

(** The provider calls made when the evaluation goes as far as a stage. *)
Definition calls_through (symbol : string) (k : Stage) : list call :=
  match k with
  | MinimumHistory => [Call_stock_zh_a_hist symbol]
  | IntradayStrength =>
      Call_stock_zh_a_hist symbol :: valuation_calls symbol
        ++ [Call_stock_zh_a_minute symbol]
  | _ => Call_stock_zh_a_hist symbol :: valuation_calls symbol
  end.

(** The provider calls of one evaluation. *)
Definition fetches (index_pct : float) (symbol : string) : list call :=
  match first_stop (check index_pct symbol) stages with
  | None => calls_through symbol IntradayStrength
  | Some (k, _) => calls_through symbol k
  end.

End Chain.

#[global] Instance Stage_eq_dec : EqDecision Stage.
Proof. solve_decision. Defined.

#[global] Instance Check_eq_dec : EqDecision Check.
Proof. solve_decision. Defined.

#[global] Instance Verdict_eq_dec : EqDecision Verdict.
Proof. solve_decision. Defined.

(** ** The run as a fold *)

Section Fold.

Context (akshare : Provider).

(** The state after one iteration of the loop. *)
Definition step (index_pct : float) (st : State) (symbol : string) : State :=
  record symbol (evaluate akshare index_pct symbol)
    (add_calls (fetches akshare index_pct symbol) (count_state st)).

(** The state in which [filter_stocks] enters its loop. *)
Definition entry_state (st : State) : State :=
  add_calls (index_calls akshare "000300")
    {| selected := []; rejected := rejected_init;
       processed_count := 0; calls := calls st |}.

(** The state in which it leaves it. *)
Definition final_state (symbol_list : list string) (st : State) : State :=
  fold_left (step (benchmark akshare "000300")) symbol_list (entry_state st).

(** The symbols of a list with a given verdict, in the order of the list. *)
Definition with_verdict (v : Verdict) (symbol_list : list string)
  : list string :=
  filter (fun s => evaluate akshare (benchmark akshare "000300") s = v)
    symbol_list.

End Fold.

(** ** Scenarios

    Concrete providers on which the definitions above are run. *)

Definition bar (d : Z) (c v : float) : DailyBar :=
  {| date := d; open := c; close := c; high := c; low := c; volume := v |}.

Definition tick (t : Z) (p : float) : Tick := {| time := t; price := p |}.

(** Twenty-four sessions: closes swinging between 80 and 120, then two
    sessions at 100; ten million shares traded each day. *)
Definition history (v : float) : list DailyBar :=
  flat_map (fun i => [bar (2 * Z.of_nat i) 80 v;
                      bar (2 * Z.of_nat i + 1) 120 v]) (seq 0 11)
  ++ [bar 22 100 v; bar 23 100 v].

(** The same with a last session that closes at [c] on volume [v]. *)
Definition bars (c v : float) : list DailyBar :=
  history 1e7 ++ [bar 24 c v].

Definition indicator (total_mv : float) : IndicatorFrame :=
  {| ind_empty := false; ind_total_mv := Some [total_mv] |}.

(** A minute frame with both columns, the prices in a float64 column. *)
Definition minute_frame (l : list Tick) : MinuteFrame :=
  {| time_column := true; price_column := Some float64; ticks := l |}.

(** The band of the scenarios is the textbook one: the mean of the last
    20 closes plus two population standard deviations, added from left to
    right.  The figure [ta] returns can differ from it in the last digits;
    the scenarios that use it stay well away from the stage-8 threshold. *)
Definition textbook_hband (closes : list float) : float :=
  let w := iloc_tail 20 closes in
  np_mean w + 2 * np_std w.

Definition scenario (daily_df : exn + list DailyBar)
    (ind : exn + IndicatorFrame) (minute : exn + list Tick)
    (index : exn + IndexFrame) : Provider :=
  {| stock_zh_a_hist := fun _ => daily_df;
     stock_a_indicator_lg := fun _ => ind;
     stock_zh_a_spot_em := inr [ {| code := "000001"; latest_price := 12 |};
                                 {| code := "600000"; latest_price := 104 |} ];
     stock_zh_a_minute := fun _ =>
       match minute with
       | inl e => inl e
       | inr l => inr (minute_frame l)
       end;
     index_zh_a_hist := fun _ => index;
     stock_zh_index_daily := fun _ => inl (ProviderError "no such index");
     bollinger_hband := textbook_hband |}.

(** A provider with another answer to the minute call, or another band. *)
Definition with_minute (akshare : Provider) (minute : exn + MinuteFrame)
  : Provider :=
  {| stock_zh_a_hist := stock_zh_a_hist akshare;
     stock_a_indicator_lg := stock_a_indicator_lg akshare;
     stock_zh_a_spot_em := stock_zh_a_spot_em akshare;
     stock_zh_a_minute := fun _ => minute;
     index_zh_a_hist := index_zh_a_hist akshare;
     stock_zh_index_daily := stock_zh_index_daily akshare;
     bollinger_hband := bollinger_hband akshare |}.

Definition with_band (akshare : Provider) (band : list float → float)
  : Provider :=
  {| stock_zh_a_hist := stock_zh_a_hist akshare;
     stock_a_indicator_lg := stock_a_indicator_lg akshare;
     stock_zh_a_spot_em := stock_zh_a_spot_em akshare;
     stock_zh_a_minute := stock_zh_a_minute akshare;
     index_zh_a_hist := index_zh_a_hist akshare;
     stock_zh_index_daily := stock_zh_index_daily akshare;
     bollinger_hband := band |}.

Definition ticks_A : list Tick :=
  [tick 50400 90; tick 52200 100; tick 53100 102; tick 54000 104].

Definition index_A : IndexFrame := {| idx_close := Some [4000; 4020] |}.

(** A symbol that passes every test: up 4 % on 1.2 times the usual volume,
    a market value of 200e8, a last half hour from 100 to 104 while the
    index gains half a percent. *)
Definition env_A : Provider :=
  scenario (inr (bars 104 1.2e7)) (inr (indicator 200)) (inr ticks_A)
    (inr index_A).

(** The same symbol up 6 %, up 2 %, up 3 %, up 5 %. *)
Definition env_B : Provider :=
  scenario (inr (bars 106 1.2e7)) (inr (indicator 200)) (inr ticks_A)
    (inr index_A).

(** Up 6 % again, with a minute call that raises when it is made. *)
Definition env_B_trap : Provider :=
  scenario (inr (bars 106 1.2e7)) (inr (indicator 200))
    (inl (ProviderError "stage 9 was reached")) (inr index_A).

(** An indicator frame without a [total_mv] column. *)
Definition env_C : Provider :=
  scenario (inr (bars 104 1.2e7))
    (inr {| ind_empty := false; ind_total_mv := None |}) (inr ticks_A)
    (inr index_A).

Definition env_up2 : Provider :=
  scenario (inr (bars 102 1.2e7)) (inr (indicator 200)) (inr ticks_A)
    (inr index_A).

Definition env_up3 : Provider :=
  scenario (inr (bars 103 1.2e7)) (inr (indicator 200)) (inr ticks_A)
    (inr index_A).

Definition env_up5 : Provider :=
  scenario (inr (bars 105 1.2e7)) (inr (indicator 200)) (inr ticks_A)
    (inr index_A).

(** Fifteen sessions of history only. *)
Definition env_D : Provider :=
  scenario (inr (take 15 (bars 104 1.2e7))) (inr (indicator 200))
    (inr ticks_A) (inr index_A).

(** No tick after 14:30. *)
Definition env_E : Provider :=
  scenario (inr (bars 104 1.2e7)) (inr (indicator 200))
    (inr [tick 50400 90; tick 52199 100]) (inr index_A).

(** No trade at all in the five sessions before the last one. *)
Definition bars_idle : list DailyBar :=
  take 19 (history 1e7)
  ++ [bar 19 120 0; bar 20 80 0; bar 21 120 0; bar 22 100 0; bar 23 100 0;
      bar 24 104 1.2e7].

Definition env_idle : Provider :=
  scenario (inr bars_idle) (inr (indicator 200)) (inr ticks_A) (inr index_A).

(** The indicator frame holds a missing value (NaN), or a negative one. *)
Definition env_nan_mv : Provider :=
  scenario (inr (bars 104 1.2e7)) (inr (indicator nan)) (inr ticks_A)
    (inr index_A).

Definition env_negative_mv : Provider :=
  scenario (inr (bars 104 1.2e7)) (inr (indicator (-200))) (inr ticks_A)
    (inr index_A).

(** The indicator call fails; the daily call fails; the minute call
    fails. *)
Definition env_no_indicator : Provider :=
  scenario (inr (bars 104 1.2e7)) (inl (ProviderError "timeout"))
    (inr ticks_A) (inr index_A).

Definition env_no_daily : Provider :=
  scenario (inl (ProviderError "timeout")) (inr (indicator 200))
    (inr ticks_A) (inr index_A).

Definition env_no_minute : Provider :=
  scenario (inr (bars 104 1.2e7)) (inr (indicator 200))
    (inl (ProviderError "timeout")) (inr index_A).

(** The first tick of the last half hour is priced 0: in a float64
    column, and in a column of dtype [object]. *)
Definition ticks_zero : list Tick :=
  [tick 50400 90; tick 52200 0; tick 54000 104].

Definition env_zero_tick : Provider :=
  scenario (inr (bars 104 1.2e7)) (inr (indicator 200)) (inr ticks_zero)
    (inr index_A).

Definition env_zero_tick_object : Provider :=
  with_minute env_A
    (inr {| time_column := true; price_column := Some object;
            ticks := ticks_zero |}).

(** The ticks of [env_A] in a column of dtype [object]. *)
Definition env_object : Provider :=
  with_minute env_A
    (inr {| time_column := true; price_column := Some object;
            ticks := ticks_A |}).

(** The minute call answers [pd.DataFrame()]: no row and no column. *)
Definition env_no_columns : Provider :=
  with_minute env_A
    (inr {| time_column := false; price_column := None; ticks := [] |}).

(** Rows, a '时间' column and no '成交' column. *)
Definition env_no_price_column : Provider :=
  with_minute env_A
    (inr {| time_column := true; price_column := None; ticks := ticks_A |}).

(** A last half hour that rises from 104 to 108, so that the close of the
    day, 104, is below its mean; and one that creeps from 100 to 100.5
    while the index gains half a percent. *)
Definition env_above_close : Provider :=
  scenario (inr (bars 104 1.2e7)) (inr (indicator 200))
    (inr [tick 52200 104; tick 53100 106; tick 54000 108]) (inr index_A).

Definition env_creeping : Provider :=
  scenario (inr (bars 104 1.2e7)) (inr (indicator 200))
    (inr [tick 52200 100; tick 54000 100.5]) (inr index_A).

(** Eight ticks at the close of the day, 103.08, while the index loses
    one and a half percent. *)
Definition ticks_eight : list Tick :=
  map (fun i => tick (52200 + 240 * Z.of_nat i) 103.08) (seq 0 8).

Definition env_eight_ticks : Provider :=
  scenario (inr (bars 103.08 1.2e7)) (inr (indicator 200)) (inr ticks_eight)
    (inr {| idx_close := Some [4000; 3940] |}).

(** An index frame of a single row. *)
Definition env_one_row_index : Provider :=
  scenario (inr (bars 104 1.2e7)) (inr (indicator 200)) (inr ticks_A)
    (inr {| idx_close := Some [4000] |}).

(** No index at all. *)
Definition env_no_index : Provider :=
  scenario (inr (bars 104 1.2e7)) (inr (indicator 200)) (inr ticks_A)
    (inl (ProviderError "timeout")).

(** What a run leaves behind, for reading off the scenarios: the returned
    value, the keys with a count above zero, and the number processed. *)
Definition outcome (akshare : Provider) (symbol_list : list string)
  : Flow (list string) * list (string * nat) * nat :=
  let r := filter_stocks akshare symbol_list st_nil in
  (r.1,
   filter (fun kv => kv.2 ≠ 0%nat)
     (map (fun k => (k, default 0%nat (rejected r.2 !! k))) reasons),
   processed_count r.2).

(** ** The entry point *)

(** The [__main__] block: the universe is the code column of the spot
    table, fetched outside any [try], and it is screened as a whole. *)
Definition main (akshare : Provider) : M (list string) :=
  spot ← ak Call_stock_zh_a_spot_em (stock_zh_a_spot_em akshare);
  filter_stocks akshare (map code spot).

(** ** What a pass means *)

(** Every condition the loop body has checked by the time it appends a
    symbol to [selected], on the frames and figures it has then in hand. *)
Definition meets_every_test (akshare : Provider) (index_pct : float)
    (symbol : string) (daily_df : list DailyBar) (today prev_day : DailyBar)
    (float_share total_mv : float) (intraday_df : MinuteFrame)
    (mean_price session_return : float) : Prop :=
  stock_zh_a_hist akshare symbol = inr daily_df
  ∧ (20 ≤ length daily_df)%nat
  ∧ iloc_neg 1 daily_df = inr today
  ∧ iloc_neg 2 daily_df = inr prev_day
  ∧ valuation akshare symbol = (Some float_share, Some total_mv)
  ∧ (float_share =? 0) = false
  ∧ (total_mv =? 0) = false
  ∧ (3 <=? pct_change today prev_day) = true
  ∧ (pct_change today prev_day <=? 5) = true
  ∧ (volume_ratio today daily_df <? 1) = false
  ∧ (5 <=? est_turnover_rate today total_mv) = true
  ∧ (est_turnover_rate today total_mv <=? 10) = true
  ∧ (50e8 <=? est_float_mv total_mv) = true
  ∧ (est_float_mv total_mv <=? 200e8) = true
  ∧ (0.5 <? cv daily_df) = false
  ∧ (resistance_distance akshare today daily_df <? 3) = false
  ∧ intraday akshare symbol = inr intraday_df
  ∧ ticks intraday_df ≠ []
  ∧ vwap intraday_df = inr mean_price
  ∧ stock_pct intraday_df = inr session_return
  ∧ (close today <? mean_price) = false
  ∧ (session_return <? index_pct + 1) = false.

(** ** More scenarios *)

(** The five sessions before the last one have no volume on record. *)
Definition bars_nan_volume : list DailyBar :=
  take 19 (history 1e7)
  ++ [bar 19 120 nan; bar 20 80 nan; bar 21 120 nan; bar 22 100 nan;
      bar 23 100 nan; bar 24 104 1.2e7].

Definition env_nan_volume : Provider :=
  scenario (inr bars_nan_volume) (inr (indicator 200)) (inr ticks_A)
    (inr index_A).

(** Exactly twenty sessions, nineteen, and none. *)
Definition env_20_sessions : Provider :=
  scenario (inr (drop 5 (bars 104 1.2e7))) (inr (indicator 200))
    (inr ticks_A) (inr index_A).

Definition env_19_sessions : Provider :=
  scenario (inr (drop 6 (bars 104 1.2e7))) (inr (indicator 200))
    (inr ticks_A) (inr index_A).

Definition env_no_session : Provider :=
  scenario (inr []) (inr (indicator 200)) (inr ticks_A) (inr index_A).

(** Figures that sit on a threshold: a volume ratio of 1, a turnover of 5
    and of 10, a float market value of 50e8 and of 200e8, a dispersion of
    0.5 (volumes 3, 3, 3, 3, 8 million), a band distance of 3 (a close of
    100 under an upper band of 103). *)
Definition env_ratio_1 : Provider :=
  scenario (inr (bars 104 1e7)) (inr (indicator 200)) (inr ticks_A)
    (inr index_A).

Definition env_turnover_5 : Provider :=
  scenario (inr (bars 104 1.2e7)) (inr (indicator 249.6)) (inr ticks_A)
    (inr index_A).

Definition env_turnover_10 : Provider :=
  scenario (inr (bars 104 1.2e7)) (inr (indicator 124.8)) (inr ticks_A)
    (inr index_A).

Definition env_float_mv_50e8 : Provider :=
  scenario (inr (history 4e6 ++ [bar 24 104 5e6]))
    (inr (indicator 71.428571428571431)) (inr ticks_A) (inr index_A).

Definition env_float_mv_200e8 : Provider :=
  scenario (inr (bars 104 2e7)) (inr (indicator 285.71428571428572))
    (inr ticks_A) (inr index_A).

Definition bars_cv_edge : list DailyBar :=
  take 20 (history 1e7)
  ++ [bar 20 80 3e6; bar 21 120 3e6; bar 22 100 3e6; bar 23 100 3e6;
      bar 24 104 8e6].

Definition env_cv_edge : Provider :=
  scenario (inr bars_cv_edge) (inr (indicator 100)) (inr ticks_A)
    (inr index_A).

Definition bars_band_edge : list DailyBar :=
  take 23 (history 1e7) ++ [bar 23 96 1e7; bar 24 100 1.2e7].

Definition env_band_edge : Provider :=
  with_band
    (scenario (inr bars_band_edge) (inr (indicator 200))
       (inr [tick 52200 96; tick 53100 98; tick 54000 100]) (inr index_A))
    (fun _ => 103).

(** One close of the band window is missing. *)
Definition bars_nan_band : list DailyBar :=
  take 10 (history 1e7) ++ [bar 10 nan 1e7] ++ drop 11 (bars 104 1.2e7).

Definition env_nan_band : Provider :=
  scenario (inr bars_nan_band) (inr (indicator 200)) (inr ticks_A)
    (inr index_A).

(** The last close is missing. *)
Definition env_nan_close : Provider :=
  scenario (inr (bars nan 1.2e7)) (inr (indicator 200)) (inr ticks_A)
    (inr index_A).

(** The spot table quotes the symbol at 0. *)
Definition env_zero_price : Provider :=
  {| stock_zh_a_hist := fun _ => inr (bars 104 1.2e7);
     stock_a_indicator_lg := fun _ => inr (indicator 200);
     stock_zh_a_spot_em := inr [ {| code := "600000"; latest_price := 0 |} ];
     stock_zh_a_minute := fun _ => inr (minute_frame ticks_A);
     index_zh_a_hist := fun _ => inr index_A;
     stock_zh_index_daily := fun _ => inl (ProviderError "no such index");
     bollinger_hband := textbook_hband |}.

(** The spot table cannot be fetched. *)
Definition env_no_spot : Provider :=
  {| stock_zh_a_hist := fun _ => inr (bars 104 1.2e7);
     stock_a_indicator_lg := fun _ => inr (indicator 200);
     stock_zh_a_spot_em := inl (ProviderError "timeout");
     stock_zh_a_minute := fun _ => inr (minute_frame ticks_A);
     index_zh_a_hist := fun _ => inr index_A;
     stock_zh_index_daily := fun _ => inl (ProviderError "no such index");
     bollinger_hband := textbook_hband |}.

(** The first index call fails and the second one answers. *)
Definition env_index_fallback : Provider :=
  {| stock_zh_a_hist := fun _ => inr (bars 104 1.2e7);
     stock_a_indicator_lg := fun _ => inr (indicator 200);
     stock_zh_a_spot_em := inr [ {| code := "600000"; latest_price := 104 |} ];
     stock_zh_a_minute := fun _ => inr (minute_frame ticks_A);
     index_zh_a_hist := fun _ => inl (ProviderError "timeout");
     stock_zh_index_daily := fun _ => inr {| idx_close := Some [3000; 3030] |};
     bollinger_hband := textbook_hband |}.

(** The first index call answers with a frame that has no '收盘' column;
    the second one would answer with a good frame. *)
Definition env_index_no_column : Provider :=
  {| stock_zh_a_hist := fun _ => inr (bars 104 1.2e7);
     stock_a_indicator_lg := fun _ => inr (indicator 200);
     stock_zh_a_spot_em := inr [ {| code := "600000"; latest_price := 104 |} ];
     stock_zh_a_minute := fun _ => inr (minute_frame ticks_A);
     index_zh_a_hist := fun _ => inr {| idx_close := None |};
     stock_zh_index_daily := fun _ => inr {| idx_close := Some [3000; 3030] |};
     bollinger_hband := textbook_hband |}.

(** A one-row index frame, and a last half hour that falls from 104
    to 100. *)
Definition ticks_falling : list Tick :=
  [tick 52200 104; tick 53100 102; tick 54000 100].

Definition env_nan_index_falling : Provider :=
  scenario (inr (bars 104 1.2e7)) (inr (indicator 200)) (inr ticks_falling)
    (inr {| idx_close := Some [4000] |}).

(** * Proofs *)

(** ** Comparisons of binary64 numbers *)

Lemma SFcompare_Lt_flip x y :
  SFcompare x y = Some Lt → SFcompare y x = Some Gt.
Proof.
  destruct x as [[]|[]| |[] mx ex], y as [[]|[]| |[] my ey]; simpl; try done.
  all: assert (Pos.compare_cont Eq mx my
               = CompOpp (Pos.compare_cont Eq my mx)) as ->
         by (by rewrite Pos.compare_cont_antisym);
    rewrite (Z.compare_antisym ey ex);
    destruct (ey ?= ex)%Z; simpl; try done;
    destruct (Pos.compare_cont Eq my mx); simpl; done.
Qed.

(** A number strictly below another is not above or equal to it. *)
Lemma ltb_leb_flip (x y : float) : (x <? y) = true → (y <=? x) = false.
Proof.
  rewrite ltb_spec, leb_spec. unfold SFltb, SFleb.
  destruct (SFcompare (Prim2SF x) (Prim2SF y)) as [[]|] eqn:Hc; try done.
  intros _. by rewrite (SFcompare_Lt_flip _ _ Hc).
Qed.

Lemma nan_not_zero : nan ≠ 0.
Proof.
  intros H. assert (is_nan nan = is_nan 0) as E by by rewrite H.
  vm_compute in E. discriminate.
Qed.

(** ** Indexing *)

Lemma iloc_neg_inr {A} (k : nat) (l : list A) :
  (1 ≤ k ≤ length l)%nat → ∃ x, iloc_neg k l = inr x.
Proof.
  intros Hk. unfold iloc_neg. rewrite decide_True by done.
  destruct (lookup_lt_is_Some_2 l (length l - k)%nat) as [x Hx]; [lia|].
  rewrite Hx. eauto.
Qed.

Lemma iloc_neg_1_snoc {A} (l : list A) x : iloc_neg 1 (l ++ [x]) = inr x.
Proof.
  unfold iloc_neg. rewrite length_app. simpl.
  rewrite decide_True by lia.
  replace (length l + 1 - 1)%nat with (length l + 0)%nat by lia.
  by rewrite lookup_app_r, Nat.add_0_r by lia; rewrite ?Nat.sub_diag.
Qed.

Lemma iloc_neg_2_snoc {A} (l : list A) x y :
  iloc_neg 2 (l ++ [x; y]) = inr x.
Proof.
  unfold iloc_neg. rewrite length_app. simpl.
  rewrite decide_True by lia.
  replace (length l + 2 - 2)%nat with (length l) by lia.
  by rewrite lookup_app_r by lia; rewrite Nat.sub_diag.
Qed.

Lemma iloc_0_map {A B} (f : A → B) (l : list A) x :
  iloc_0 l = inr x → iloc_0 (map f l) = inr (f x).
Proof. destruct l; simpl; [done|]. by intros [= ->]. Qed.

Lemma iloc_neg_map {A B} (f : A → B) (k : nat) (l : list A) x :
  iloc_neg k l = inr x → iloc_neg k (map f l) = inr (f x).
Proof.
  unfold iloc_neg. rewrite length_map.
  destruct (decide (1 ≤ k ≤ length l)%nat); [|done].
  rewrite list_lookup_fmap.
  destruct (l !! (length l - k)%nat); simpl; [|done]. by intros [= ->].
Qed.

(** ** Sums *)

(** The depth given to the pairwise sum is never used up: any depth that
    is at least the length gives the same sum. *)
Lemma pairwise_sum_rec_depth d1 d2 a :
  (length a ≤ d1)%nat → (length a ≤ d2)%nat →
  pairwise_sum_rec d1 a = pairwise_sum_rec d2 a.
Proof.
  revert d2 a. induction d1 as [|d1 IH]; intros d2 a H1 H2.
  - destruct a; [|simpl in H1; lia]. by destruct d2.
  - destruct d2 as [|d2].
    { destruct a; [done|simpl in H2; lia]. }
    cbn [pairwise_sum_rec].
    destruct (128 <? length a)%nat eqn:Hlen; [|done].
    apply Nat.ltb_lt in Hlen.
    pose proof (Nat.div_mod_eq (length a) 2) as Hq.
    pose proof (Nat.mod_upper_bound (length a) 2) as Hr.
    pose proof (Nat.mod_upper_bound (length a / 2) 8) as Hr8.
    f_equal; apply IH; rewrite ?length_take, ?length_drop; lia.
Qed.

(** The recursion of numpy's [pairwise_sum]. *)
Lemma pairwise_sum_unfold a :
  pairwise_sum a
  = if (128 <? length a)%nat then
      let n2 := (length a / 2 - (length a / 2) mod 8)%nat in
      pairwise_sum (take n2 a) + pairwise_sum (drop n2 a)
    else block_sum a.
Proof.
  unfold pairwise_sum at 1. destruct (length a) as [|n] eqn:Hn; [done|].
  cbn [pairwise_sum_rec]. rewrite Hn.
  destruct (128 <? S n)%nat eqn:Hlen; [|done].
  apply Nat.ltb_lt in Hlen.
  pose proof (Nat.div_mod_eq (S n) 2) as Hq.
  pose proof (Nat.mod_upper_bound (S n) 2) as Hr.
  pose proof (Nat.mod_upper_bound (S n / 2) 8) as Hr8.
  cbv zeta. unfold pairwise_sum.
  f_equal; apply pairwise_sum_rec_depth;
    rewrite ?length_take, ?length_drop, ?Hn; lia.
Qed.

(** Fewer than eight entries are added from left to right. *)
Lemma pairwise_sum_short a :
  (length a < 8)%nat → pairwise_sum a = fsum a.
Proof.
  intros Hlen. rewrite pairwise_sum_unfold.
  rewrite (proj2 (Nat.ltb_ge 128 (length a))) by lia.
  do 8 (destruct a as [|? a]; [done|]). simpl in Hlen. lia.
Qed.

(** Eight entries are added as a balanced tree. *)
Lemma pairwise_sum_eight a0 a1 a2 a3 a4 a5 a6 a7 :
  pairwise_sum [a0; a1; a2; a3; a4; a5; a6; a7]
  = ((a0 + a1) + (a2 + a3)) + ((a4 + a5) + (a6 + a7)).
Proof. reflexivity. Qed.

(** The order matters: eight prices of 103.08 have the mean 103.08 when
    they are added pairwise, and a mean just above it when they are added
    from left to right. *)
Example mean_of_eight_equal_prices :
  nanmean (replicate 8 103.08) = 103.08
  ∧ series_mean (replicate 8 103.08) = 103.08000000000001.
Proof. split; by vm_compute. Qed.

(** ** The statements of the loop, run *)

Lemma add_calls_app cs1 cs2 st :
  add_calls cs2 (add_calls cs1 st) = add_calls (cs1 ++ cs2) st.
Proof. unfold add_calls; simpl. by rewrite app_assoc. Qed.

Lemma bind_run {A B} (m : M A) (f : A → M B) st :
  (m ≫= f) st = match m st with
                | (Val a, st') => f a st'
                | (Continue, st') => (Continue, st')
                | (Raise e, st') => (Raise e, st')
                end.
Proof. reflexivity. Qed.

Lemma bind_ak_inl {A B} c (r : exn + A) e (f : A → M B) st :
  r = inl e → (ak c r ≫= f) st = (Raise e, add_calls [c] st).
Proof. by intros ->. Qed.

Lemma bind_ak_inr {A B} c (r : exn + A) a (f : A → M B) st :
  r = inr a → (ak c r ≫= f) st = f a (add_calls [c] st).
Proof. by intros ->. Qed.

Lemma bind_lift_inr {A B} (r : exn + A) a (f : A → M B) st :
  r = inr a → (lift r ≫= f) st = f a st.
Proof. by intros ->. Qed.

Lemma reject_run {A} key st :
  is_Some (rejected st !! key) →
  @reject A key st = (Continue, bump_state key st).
Proof.
  intros [n Hn]. unfold reject, bump, bump_state.
  rewrite bind_run. by rewrite Hn.
Qed.

(** [get_float_share_and_mv] never raises, and what it returns and calls
    does not depend on the state. *)
Lemma get_float_share_and_mv_run akshare symbol st :
  get_float_share_and_mv akshare symbol st
  = (Val (valuation akshare symbol),
     add_calls (valuation_calls akshare symbol) st).
Proof.
  unfold valuation, valuation_calls, get_float_share_and_mv, add_calls.
  cbv [mbind M_bind m_bind mret M_ret m_ret try_except ak lift raise].
  simpl.
  destruct (stock_a_indicator_lg akshare symbol) as [e|df]; simpl; [done|].
  destruct (ind_empty df); simpl; [done|].
  destruct (stock_zh_a_spot_em akshare) as [e|rows]; simpl;
    [by rewrite <- app_assoc|].
  destruct (ind_total_mv df) as [col|]; simpl; [|by rewrite <- app_assoc].
  destruct (iloc_0 col); simpl; by rewrite <- app_assoc.
Qed.

Lemma bind_valuation {B} akshare symbol
    (f : option float * option float → M B) st :
  (get_float_share_and_mv akshare symbol ≫= f) st
  = f (valuation akshare symbol)
      (add_calls (valuation_calls akshare symbol) st).
Proof. by rewrite bind_run, get_float_share_and_mv_run. Qed.

(** The calls of [get_float_share_and_mv]: the indicator frame, and the
    spot table when that frame came back and is not empty. *)
Lemma valuation_calls_cases akshare symbol :
  valuation_calls akshare symbol = [Call_stock_a_indicator_lg symbol]
  ∨ valuation_calls akshare symbol
    = [Call_stock_a_indicator_lg symbol; Call_stock_zh_a_spot_em].
Proof.
  unfold valuation_calls, get_float_share_and_mv.
  cbv [mbind M_bind m_bind mret M_ret m_ret try_except ak lift raise].
  simpl.
  destruct (stock_a_indicator_lg akshare symbol) as [e|df]; simpl; [auto|].
  destruct (ind_empty df); simpl; [auto|].
  destruct (stock_zh_a_spot_em akshare) as [e|rows]; simpl; [auto|].
  destruct (ind_total_mv df) as [col|]; simpl; [|auto].
  destruct (iloc_0 col); simpl; auto.
Qed.

(** A failure of either valuation call ends in the pair (None, None). *)
Lemma valuation_provider_failure akshare symbol :
  (∃ e, stock_a_indicator_lg akshare symbol = inl e)
  ∨ (∃ df e, stock_a_indicator_lg akshare symbol = inr df
             ∧ ind_empty df = false ∧ stock_zh_a_spot_em akshare = inl e) →
  valuation akshare symbol = (None, None).
Proof.
  unfold valuation, get_float_share_and_mv.
  cbv [mbind M_bind m_bind mret M_ret m_ret try_except ak lift raise].
  intros [[e He]|(df & e & Hdf & Hne & He)].
  - by rewrite He.
  - by rewrite Hdf, Hne, He.
Qed.

Lemma bind_intraday {B} akshare symbol (f : MinuteFrame → M B) st :
  (get_intraday_data akshare symbol ≫= f) st
  = match intraday akshare symbol with
    | inl e => (Raise e, add_calls [Call_stock_zh_a_minute symbol] st)
    | inr intraday_df =>
        f intraday_df (add_calls [Call_stock_zh_a_minute symbol] st)
    end.
Proof.
  unfold get_intraday_data, intraday. rewrite !bind_run. unfold ak.
  destruct (stock_zh_a_minute akshare symbol) as [e|df]; [done|].
  by destruct (last_half_hour df).
Qed.

(** [get_index_data] never raises either. *)
Lemma get_index_data_run akshare index_symbol st :
  get_index_data akshare index_symbol st
  = (Val (benchmark akshare index_symbol),
     add_calls (index_calls akshare index_symbol) st).
Proof.
  unfold benchmark, index_calls, get_index_data, add_calls.
  cbv [mbind M_bind m_bind mret M_ret m_ret try_except ak lift raise].
  simpl.
  destruct (index_zh_a_hist akshare index_symbol) as [e|df]; simpl.
  - destruct (stock_zh_index_daily akshare _) as [e'|df]; simpl;
      [by rewrite <- app_assoc|].
    destruct (idx_close df) as [col|]; simpl; [|by rewrite <- app_assoc].
    destruct (pct_change_last col); simpl; by rewrite <- app_assoc.
  - destruct (idx_close df) as [col|]; simpl; [|done].
    destruct (pct_change_last col); simpl; done.
Qed.

(** ** The keys of the dictionary *)

Lemma has_reasons_elem m key :
  has_reasons m → key ∈ reasons → is_Some (m !! key).
Proof. unfold has_reasons. rewrite Forall_forall. auto. Qed.

Lemma reason_in k : reason k ∈ reasons.
Proof. destruct k; unfold reasons; simpl; set_solver. Qed.

Lemma EvaluationError_in : EvaluationError ∈ reasons.
Proof. unfold reasons; set_solver. Qed.

Lemma reasons_NoDup : NoDup reasons.
Proof. apply (bool_decide_unpack (NoDup reasons)). by vm_compute. Qed.

Lemma reason_inj k1 k2 : reason k1 = reason k2 → k1 = k2.
Proof. destruct k1, k2; simpl; intros H; done || by vm_compute in H. Qed.

Lemma reason_not_catch_all k : reason k ≠ EvaluationError.
Proof. destruct k; by vm_compute. Qed.

Lemma has_reasons_init : has_reasons rejected_init.
Proof.
  unfold has_reasons, reasons.
  repeat (apply Forall_cons; split; [by eexists; vm_compute|]).
  apply Forall_nil. done.
Qed.

Lemma has_reasons_insert m key n :
  has_reasons m → has_reasons (<[key := n]> m).
Proof.
  unfold has_reasons. rewrite !Forall_forall. intros H k Hk.
  destruct (decide (key = k)) as [->|Hne].
  - rewrite lookup_insert_eq. eauto.
  - rewrite lookup_insert_ne by done. auto.
Qed.

Lemma has_reasons_bump key st :
  has_reasons (rejected st) → has_reasons (rejected (bump_state key st)).
Proof.
  intros H. unfold bump_state. destruct (rejected st !! key); [|done].
  simpl. by apply has_reasons_insert.
Qed.

(** ** The loop body runs the chain *)

Section Run.

Context (akshare : Provider) (index_pct : float) (symbol : string).

(** The [try] block, by what the first test that does not pass says. *)
Lemma try_block_run st :
  has_reasons (rejected st) →
  match first_stop (check akshare index_pct symbol) stages with
  | None =>
      try_block akshare index_pct symbol st
      = (Val tt, select_state symbol
                   (add_calls (calls_through akshare symbol IntradayStrength) st))
  | Some (k, Fail) =>
      try_block akshare index_pct symbol st
      = (Continue, bump_state (reason k)
                     (add_calls (calls_through akshare symbol k) st))
  | Some (k, _) =>
      ∃ e, try_block akshare index_pct symbol st
           = (Raise e, add_calls (calls_through akshare symbol k) st)
  end.
Proof.
  intros Hst.
  assert (Hrej : ∀ k cs,
            @reject unit (reason k) (add_calls cs st)
            = (Continue, bump_state (reason k) (add_calls cs st))).
  { intros k cs. apply reject_run. simpl.
    apply has_reasons_elem; [done|apply reason_in]. }
  unfold try_block, get_daily_data.
  unfold stages, first_stop, check, on_bars, on_total_mv.
  destruct (stock_zh_a_hist akshare symbol) as [e|daily_df] eqn:Hd.
  { rewrite (bind_ak_inl _ _ e) by done. simpl. eauto. }
  rewrite (bind_ak_inr _ _ daily_df) by done.
  destruct (length daily_df <? 20)%nat eqn:Hlen.
  { simpl. apply (Hrej MinimumHistory). }
  rewrite bind_valuation, add_calls_app.
  destruct (valuation akshare symbol) as [float_share total_mv] eqn:Hv.
  cbn [fst snd fail_if].
  destruct (negb (truthy float_share) || negb (truthy total_mv)) eqn:H2.
  { apply (Hrej ValuationAvailability). }
  apply Nat.ltb_ge in Hlen.
  destruct (iloc_neg_inr 1 daily_df) as [today Ht]; [lia|].
  destruct (iloc_neg_inr 2 daily_df) as [prev_day Hp]; [lia|].
  rewrite Ht, Hp.
  rewrite (bind_lift_inr _ today) by done.
  rewrite (bind_lift_inr _ prev_day) by done.
  cbn [fail_if].
  destruct (negb ((3 <=? pct_change today prev_day)
                  && (pct_change today prev_day <=? 5))) eqn:H3.
  { apply (Hrej DailyPriceMove). }
  destruct (volume_ratio today daily_df <? 1) eqn:H4.
  { apply (Hrej VolumeSurge). }
  cbn [fail_if].
  destruct total_mv as [total_mv|];
    [|by cbn [truthy negb] in H2; rewrite orb_true_r in H2].
  rewrite (bind_lift_inr _ total_mv) by done.
  cbn [number].
  destruct (negb ((5 <=? est_turnover_rate today total_mv)
                  && (est_turnover_rate today total_mv <=? 10))) eqn:H5.
  { apply (Hrej Turnover). }
  cbn [fail_if].
  destruct (negb ((50e8 <=? est_float_mv total_mv)
                  && (est_float_mv total_mv <=? 200e8))) eqn:H6.
  { apply (Hrej FloatMarketValue). }
  cbn [fail_if].
  destruct (0.5 <? cv daily_df) eqn:H7.
  { apply (Hrej VolumeStability). }
  cbn [fail_if].
  destruct (resistance_distance akshare today daily_df <? 3) eqn:H8.
  { apply (Hrej BandHeadroom). }
  cbn [fail_if].
  rewrite bind_intraday, add_calls_app.
  destruct (intraday akshare symbol) as [e|intraday_df] eqn:Hm.
  { eexists. reflexivity. }
  destruct (decide (ticks intraday_df = [])) as [Hnil|Hne].
  { rewrite !bool_decide_eq_true_2 by done. apply (Hrej IntradayStrength). }
  rewrite !bool_decide_eq_false_2 by done.
  destruct (vwap intraday_df) as [e|mean_price] eqn:Hw.
  { rewrite bind_run. cbn. eexists. reflexivity. }
  rewrite (bind_lift_inr _ mean_price) by done.
  destruct (stock_pct intraday_df) as [e|session_return] eqn:Hs.
  { rewrite bind_run. cbn. eexists. reflexivity. }
  rewrite (bind_lift_inr _ session_return) by done.
  destruct ((close today <? mean_price)
            || (session_return <? index_pct + 1)) eqn:H9.
  { apply (Hrej IntradayStrength). }
  reflexivity.
Qed.

(** One iteration of the loop records the verdict of the chain, logs the
    calls of the chain, and never lets an exception out. *)
Lemma loop_body_evaluate st :
  has_reasons (rejected st) →
  loop_body akshare index_pct symbol st
  = (flow_of (evaluate akshare index_pct symbol),
     step akshare index_pct st symbol).
Proof.
  intros Hst.
  pose proof (try_block_run (count_state st) Hst) as Hrun.
  unfold loop_body, step, evaluate, fetches.
  rewrite bind_run. change (count_processed st) with (Val tt, count_state st).
  cbv iota beta. unfold try_except.
  destruct (first_stop _ _) as [[k []]|].
  - destruct Hrun as [e ->]. apply reject_run.
    apply has_reasons_elem; [done|apply EvaluationError_in].
  - by rewrite Hrun.
  - destruct Hrun as [e ->]. apply reject_run.
    apply has_reasons_elem; [done|apply EvaluationError_in].
  - by rewrite Hrun.
Qed.

(** A test that passes is never the one the chain stops at. *)
Lemma first_stop_sound test l k c :
  first_stop test l = Some (k, c) → test k = c ∧ c ≠ Pass ∧ k ∈ l.
Proof.
  induction l as [|j l IH]; simpl; [done|].
  destruct (test j) eqn:Hj.
  - intros H. destruct (IH H) as (? & ? & ?).
    repeat split; [done..|by apply list_elem_of_further].
  - intros [= <- <-]. repeat split; [done..|apply list_elem_of_here].
  - intros [= <- <-]. repeat split; [done..|apply list_elem_of_here].
Qed.

(** The chain stops at a failing test when every earlier test passes. *)
Lemma first_stop_at k c :
  (∀ j, (stage_index j < stage_index k)%nat →
        check akshare index_pct symbol j = Pass) →
  check akshare index_pct symbol k = c → c ≠ Pass →
  first_stop (check akshare index_pct symbol) stages = Some (k, c).
Proof.
  intros Hpass Hk Hc. unfold stages.
  destruct k; cbn [first_stop];
    rewrite ?(Hpass MinimumHistory), ?(Hpass ValuationAvailability),
      ?(Hpass DailyPriceMove), ?(Hpass VolumeSurge), ?(Hpass Turnover),
      ?(Hpass FloatMarketValue), ?(Hpass VolumeStability),
      ?(Hpass BandHeadroom) by (simpl; lia);
    rewrite Hk; by destruct c.
Qed.

Lemma first_stop_none :
  (∀ j, check akshare index_pct symbol j = Pass) →
  first_stop (check akshare index_pct symbol) stages = None.
Proof. intros Hpass. unfold stages. cbn [first_stop]. by rewrite !Hpass. Qed.

Lemma evaluate_fail k :
  (∀ j, (stage_index j < stage_index k)%nat →
        check akshare index_pct symbol j = Pass) →
  check akshare index_pct symbol k = Fail →
  evaluate akshare index_pct symbol = Rejected (reason k)
  ∧ fetches akshare index_pct symbol = calls_through akshare symbol k.
Proof.
  intros Hpass Hk. unfold evaluate, fetches.
  by rewrite (first_stop_at k Fail).
Qed.

Lemma evaluate_error k :
  (∀ j, (stage_index j < stage_index k)%nat →
        check akshare index_pct symbol j = Pass) →
  check akshare index_pct symbol k = Error →
  evaluate akshare index_pct symbol = Rejected EvaluationError
  ∧ fetches akshare index_pct symbol = calls_through akshare symbol k.
Proof.
  intros Hpass Hk. unfold evaluate, fetches.
  by rewrite (first_stop_at k Error).
Qed.

Lemma evaluate_pass :
  (∀ j, check akshare index_pct symbol j = Pass) →
  evaluate akshare index_pct symbol = Passed
  ∧ fetches akshare index_pct symbol
    = calls_through akshare symbol IntradayStrength.
Proof.
  intros Hpass. unfold evaluate, fetches. by rewrite first_stop_none.
Qed.

(** A verdict is a pass or one of the ten keys. *)
Lemma evaluate_key key :
  evaluate akshare index_pct symbol = Rejected key → key ∈ reasons.
Proof.
  unfold evaluate.
  destruct (first_stop _ _) as [[k []]|]; intros [= <-];
    auto using reason_in, EvaluationError_in.
Qed.

(** A symbol is rejected for the reason of a stage only when that stage's
    test fails. *)
Lemma evaluate_reason_fail k :
  evaluate akshare index_pct symbol = Rejected (reason k) →
  check akshare index_pct symbol k = Fail.
Proof.
  unfold evaluate.
  destruct (first_stop _ _) as [[j c]|] eqn:Hs; [|done].
  apply first_stop_sound in Hs as (Hj & Hc & _).
  destruct c; [done| |].
  - intros [= H]. apply reason_inj in H. by subst.
  - intros [= H]. symmetry in H. by apply reason_not_catch_all in H.
Qed.

End Run.

(** ** The dictionary of counts *)

Lemma total_rejected_insert_fresh (m : gmap string nat) key n :
  m !! key = None →
  total_rejected (<[key := n]> m) = (n + total_rejected m)%nat.
Proof.
  intros H. unfold total_rejected.
  rewrite map_fold_insert_L; [done| |done]. intros. lia.
Qed.

Lemma total_rejected_bump (m : gmap string nat) key n :
  m !! key = Some n →
  total_rejected (<[key := S n]> m) = S (total_rejected m).
Proof.
  intros H.
  rewrite <- (insert_delete_id m key n H) at 2.
  rewrite <- (insert_delete_eq m key (S n)).
  rewrite !total_rejected_insert_fresh by apply lookup_delete_eq. lia.
Qed.

Lemma total_rejected_init : total_rejected rejected_init = 0%nat.
Proof. by vm_compute. Qed.

Lemma rejected_init_fst :
  (map (fun k => (k, 0%nat)) reasons).*1 = reasons.
Proof. reflexivity. Qed.

Lemma rejected_init_in key :
  key ∈ reasons → rejected_init !! key = Some 0%nat.
Proof.
  intros Hk. unfold rejected_init. apply elem_of_list_to_map_1.
  - rewrite rejected_init_fst. apply reasons_NoDup.
  - apply list_elem_of_fmap. eauto.
Qed.

Lemma rejected_init_out key :
  key ∉ reasons → rejected_init !! key = None.
Proof.
  intros Hk. unfold rejected_init. apply not_elem_of_list_to_map_1.
  by rewrite rejected_init_fst.
Qed.

(** ** The loop as a fold *)

Section FoldFacts.

Context (akshare : Provider) (index_pct : float).

Lemma has_reasons_step st symbol :
  has_reasons (rejected st) →
  has_reasons (rejected (step akshare index_pct st symbol)).
Proof.
  intros H. unfold step, record.
  destruct (evaluate akshare index_pct symbol); [done|].
  by apply has_reasons_bump.
Qed.

Lemma for_loop_run l st :
  has_reasons (rejected st) →
  for_loop (loop_body akshare index_pct) l st
  = (Val tt, fold_left (step akshare index_pct) l st).
Proof.
  revert st. induction l as [|s l IH]; intros st H; simpl; [done|].
  rewrite loop_body_evaluate by done.
  rewrite <- IH by by apply has_reasons_step.
  by destruct (evaluate akshare index_pct s).
Qed.

(** One iteration: exactly one bucket grows, and by one. *)
Lemma step_one_bucket st symbol :
  has_reasons (rejected st) →
  let st' := step akshare index_pct st symbol in
  processed_count st' = S (processed_count st)
  ∧ calls st' = calls st ++ fetches akshare index_pct symbol
  ∧ ((evaluate akshare index_pct symbol = Passed
      ∧ selected st' = selected st ++ [symbol]
      ∧ rejected st' = rejected st)
     ∨ (∃ key n, evaluate akshare index_pct symbol = Rejected key
          ∧ key ∈ reasons
          ∧ rejected st !! key = Some n
          ∧ selected st' = selected st
          ∧ rejected st' = <[key := S n]> (rejected st))).
Proof.
  intros H. unfold step, record.
  destruct (evaluate akshare index_pct symbol) as [|key] eqn:Hv.
  - simpl. split; [done|]. split; [done|]. by left.
  - destruct (has_reasons_elem _ key H (evaluate_key _ _ _ _ Hv)) as [n Hn].
    unfold bump_state. simpl. rewrite Hn. simpl.
    split; [done|]. split; [done|]. right. exists key, n.
    repeat split; eauto using evaluate_key.
Qed.

Lemma fold_processed l st :
  has_reasons (rejected st) →
  processed_count (fold_left (step akshare index_pct) l st)
  = (processed_count st + length l)%nat.
Proof.
  revert st. induction l as [|s l IH]; intros st H; simpl; [lia|].
  rewrite IH by by apply has_reasons_step.
  destruct (step_one_bucket st s H) as (-> & _). lia.
Qed.

Lemma fold_accounting l st :
  has_reasons (rejected st) →
  let st' := fold_left (step akshare index_pct) l st in
  (length (selected st') + total_rejected (rejected st'))%nat
  = (length (selected st) + total_rejected (rejected st) + length l)%nat.
Proof.
  revert st. induction l as [|s l IH]; intros st H; simpl; [lia|].
  rewrite IH by by apply has_reasons_step.
  destruct (step_one_bucket st s H) as (_ & _ & [(_ & -> & ->)|(key & n & _ & _ & Hn & -> & ->)]).
  - rewrite length_app. simpl. lia.
  - rewrite (total_rejected_bump _ _ _ Hn). lia.
Qed.

Lemma fold_selected l st :
  has_reasons (rejected st) →
  selected (fold_left (step akshare index_pct) l st)
  = selected st ++ filter (fun s => evaluate akshare index_pct s = Passed) l.
Proof.
  revert st. induction l as [|s l IH]; intros st H; simpl.
  { by rewrite app_nil_r. }
  rewrite IH by by apply has_reasons_step.
  destruct (step_one_bucket st s H) as (_ & _ & [(Hv & -> & _)|(key & n & Hv & _ & _ & -> & _)]).
  - rewrite filter_cons_True by done. by rewrite <- app_assoc.
  - rewrite filter_cons_False; [done|]. by rewrite Hv.
Qed.

Lemma fold_count l st key :
  has_reasons (rejected st) →
  rejected (fold_left (step akshare index_pct) l st) !! key
  = (fun n => (n + length (filter (fun s => evaluate akshare index_pct s
                                            = Rejected key) l))%nat)
      <$> rejected st !! key.
Proof.
  revert st. induction l as [|s l IH]; intros st H; simpl.
  { destruct (rejected st !! key); simpl; f_equal; lia. }
  rewrite IH by by apply has_reasons_step.
  destruct (step_one_bucket st s H) as (_ & _ & [(Hv & _ & ->)|(key' & n & Hv & _ & Hn & _ & ->)]).
  - rewrite filter_cons_False; [done|]. by rewrite Hv.
  - destruct (decide (key' = key)) as [->|Hne].
    + rewrite lookup_insert_eq, Hn, filter_cons_True by done. simpl. f_equal. lia.
    + rewrite lookup_insert_ne by done.
      rewrite filter_cons_False; [done|]. rewrite Hv. congruence.
Qed.

Lemma fold_calls l st :
  has_reasons (rejected st) →
  calls (fold_left (step akshare index_pct) l st)
  = calls st ++ concat (map (fetches akshare index_pct) l).
Proof.
  revert st. induction l as [|s l IH]; intros st H; simpl.
  { by rewrite app_nil_r. }
  rewrite IH by by apply has_reasons_step.
  destruct (step_one_bucket st s H) as (_ & -> & _). by rewrite <- app_assoc.
Qed.

End FoldFacts.

Lemma filter_stocks_run akshare symbol_list st :
  filter_stocks akshare symbol_list st
  = (Val (selected (final_state akshare symbol_list st)),
     final_state akshare symbol_list st).
Proof.
  unfold filter_stocks, final_state, entry_state.
  rewrite bind_run, get_index_data_run. cbv iota beta.
  rewrite bind_run, for_loop_run; [done|].
  apply has_reasons_init.
Qed.

(** ** Stage by stage *)

Lemma count_of_record_other symbol v key st :
  v ≠ Rejected key → count_of key (record symbol v st) = count_of key st.
Proof.
  intros Hv. unfold record, count_of.
  destruct v as [|key']; [done|].
  unfold bump_state. destruct (rejected st !! key') eqn:Hk; [|done].
  simpl. rewrite lookup_insert_ne; [done|]. congruence.
Qed.

Section Stagewise.
Context (akshare : Provider) (index_pct : float) (symbol : string).

(** A stage whose test passes leaves its counter alone. *)
Lemma passed_stage_count k st :
  has_reasons (rejected st) →
  check akshare index_pct symbol k ≠ Fail →
  count_of (reason k) (loop_body akshare index_pct symbol st).2
  = count_of (reason k) st.
Proof.
  intros Hst Hk. rewrite loop_body_evaluate by done. cbn [snd]. unfold step.
  rewrite count_of_record_other; [done|].
  intros Hv. by apply evaluate_reason_fail in Hv.
Qed.

Lemma loop_body_fail k st :
  has_reasons (rejected st) →
  (∀ j, (stage_index j < stage_index k)%nat →
        check akshare index_pct symbol j = Pass) →
  check akshare index_pct symbol k = Fail →
  loop_body akshare index_pct symbol st
  = (Continue, bump_state (reason k)
                 (add_calls (calls_through akshare symbol k) (count_state st))).
Proof.
  intros Hst Hpass Hk. rewrite loop_body_evaluate by done. unfold step.
  by destruct (evaluate_fail akshare index_pct symbol k Hpass Hk) as [-> ->].
Qed.

Lemma loop_body_error k st :
  has_reasons (rejected st) →
  (∀ j, (stage_index j < stage_index k)%nat →
        check akshare index_pct symbol j = Pass) →
  check akshare index_pct symbol k = Error →
  loop_body akshare index_pct symbol st
  = (Continue, bump_state EvaluationError
                 (add_calls (calls_through akshare symbol k) (count_state st))).
Proof.
  intros Hst Hpass Hk. rewrite loop_body_evaluate by done. unfold step.
  by destruct (evaluate_error akshare index_pct symbol k Hpass Hk) as [-> ->].
Qed.

Lemma loop_body_pass st :
  has_reasons (rejected st) →
  (∀ j, check akshare index_pct symbol j = Pass) →
  loop_body akshare index_pct symbol st
  = (Val tt, select_state symbol
               (add_calls (calls_through akshare symbol IntradayStrength)
                  (count_state st))).
Proof.
  intros Hst Hpass. rewrite loop_body_evaluate by done. unfold step.
  by destruct (evaluate_pass akshare index_pct symbol Hpass) as [-> ->].
Qed.

Lemma loop_body_no_raise st e :
  has_reasons (rejected st) →
  (loop_body akshare index_pct symbol st).1 ≠ Raise e.
Proof.
  intros Hst. rewrite loop_body_evaluate by done. cbn [fst].
  by destruct (evaluate akshare index_pct symbol).
Qed.

End Stagewise.

(** ** The ninth test *)

Section Stage9.
Context (akshare : Provider) (index_pct : float) (symbol : string).

(** The ninth test once the daily frame is in hand. *)
Lemma stage_9_check daily_df today :
  stock_zh_a_hist akshare symbol = inr daily_df →
  iloc_neg 1 daily_df = inr today →
  (∀ j, (stage_index j < stage_index IntradayStrength)%nat →
        check akshare index_pct symbol j = Pass) →
  check akshare index_pct symbol IntradayStrength
  = match intraday akshare symbol with
    | inl _ => Error
    | inr intraday_df =>
        if bool_decide (ticks intraday_df = []) then Fail else
        match vwap intraday_df, stock_pct intraday_df with
        | inr mean_price, inr session_return =>
            fail_if ((close today <? mean_price)
                     || (session_return <? index_pct + 1))
        | _, _ => Error
        end
    end.
Proof.
  intros Hd Ht Hpass.
  pose proof (Hpass DailyPriceMove ltac:(simpl; lia)) as H3.
  unfold check, on_bars in H3 |- *. rewrite Hd, Ht in H3 |- *.
  by destruct (iloc_neg 2 daily_df).
Qed.

(** After eight passes the ninth test decides how the iteration ends. *)
Lemma loop_body_stage_9 st :
  has_reasons (rejected st) →
  (∀ j, (stage_index j < stage_index IntradayStrength)%nat →
        check akshare index_pct symbol j = Pass) →
  loop_body akshare index_pct symbol st
  = match check akshare index_pct symbol IntradayStrength with
    | Pass =>
        (Val tt,
         select_state symbol
           (add_calls (calls_through akshare symbol IntradayStrength)
              (count_state st)))
    | Fail =>
        (Continue,
         bump_state WeakIntraday
           (add_calls (calls_through akshare symbol IntradayStrength)
              (count_state st)))
    | Error =>
        (Continue,
         bump_state EvaluationError
           (add_calls (calls_through akshare symbol IntradayStrength)
              (count_state st)))
    end.
Proof.
  intros Hst Hpass.
  destruct (check akshare index_pct symbol IntradayStrength) eqn:H9.
  - apply loop_body_pass; [done|]. intros j.
    destruct (decide (j = IntradayStrength)) as [->|Hj]; [done|].
    apply Hpass. destruct j; simpl; try lia; done.
  - by apply (loop_body_fail akshare index_pct symbol IntradayStrength).
  - by apply (loop_body_error akshare index_pct symbol IntradayStrength).
Qed.

End Stage9.

(** ** Division by a zero *)

(** A number that compares equal to 0 is one of the two zeros. *)
Lemma eqb_zero_inv (z : float) :
  (z =? 0) = true → ∃ s, Prim2SF z = S754_zero s.
Proof.
  rewrite FloatAxioms.eqb_spec. change (Prim2SF 0) with (S754_zero false).
  unfold SFeqb. destruct (Prim2SF z) as [s|[]| |[] m e]; simpl; try done.
  eauto.
Qed.

(** Not a finite number: an infinity or a NaN. *)
Lemma not_finite_intro (x : float) :
  Prim2SF x = S754_nan ∨ (∃ s, Prim2SF x = S754_infinity s) →
  is_finite x = false.
Proof.
  unfold is_finite, is_nan, is_infinity.
  rewrite !FloatAxioms.eqb_spec, abs_spec. change (Prim2SF infinity) with (S754_infinity false).
  intros [-> | [s ->]]; [done|]. by destruct s.
Qed.

(** Dividing by a zero and scaling by 100 gives no finite number. *)
Lemma div_zero_times_100 (x z : float) :
  (z =? 0) = true → is_finite (x / z * 100) = false.
Proof.
  intros [s Hz]%eqb_zero_inv. apply not_finite_intro.
  rewrite mul_spec, div_spec, Hz.
  change (Prim2SF 100) with (S754_finite false 7036874417766400 (-46)).
  unfold SF64mul, SF64div.
  destruct (Prim2SF x) as [sx|sx| |sx mx ex]; simpl; eauto.
Qed.

(** ** The benchmark *)

Lemma benchmark_eq akshare index_symbol :
  benchmark akshare index_symbol
  = match index_frame akshare index_symbol with
    | inr df =>
        match idx_close df with
        | Some col =>
            match pct_change_last col with
            | inr x => x * 100
            | inl _ => 0
            end
        | None => 0
        end
    | inl _ => 0
    end.
Proof.
  unfold benchmark, index_frame, get_index_data.
  cbv [mbind M_bind m_bind mret M_ret m_ret try_except ak lift raise].
  simpl.
  destruct (index_zh_a_hist akshare index_symbol) as [e|df]; simpl.
  - destruct (stock_zh_index_daily akshare _) as [e'|df]; simpl; [done|].
    destruct (idx_close df) as [col|]; simpl; [|done].
    by destruct (pct_change_last col).
  - destruct (idx_close df) as [col|]; simpl; [|done].
    by destruct (pct_change_last col).
Qed.

Lemma pct_change_last_two pre previous latest :
  pct_change_last (pre ++ [previous; latest]) = inr (latest / previous - 1).
Proof.
  unfold pct_change_last.
  replace (pre ++ [previous; latest]) with ((pre ++ [previous]) ++ [latest])
    by by rewrite <- app_assoc.
  rewrite iloc_neg_1_snoc. rewrite <- app_assoc. simpl.
  by rewrite iloc_neg_2_snoc.
Qed.

(** Discharges "every stage before this one passes" on a scenario. *)
Ltac earlier_stages_pass :=
  let j := fresh "j" in
  let Hj := fresh "Hj" in
  intros j Hj; destruct j; simpl in Hj; try lia; by vm_compute.

(** ** The scenarios of the design document *)

(** The figures of the passing symbol: price move, volume ratio,
    turnover, float market value, dispersion of volume, distance to the
    upper band, and the mean price and the return of the last half
    hour. *)
Example scenario_A_metrics :
  let daily_df := bars 104 1.2e7 in
  let today := bar 24 104 1.2e7 in
  (pct_change today (bar 23 100 1e7), volume_ratio today daily_df,
   est_turnover_rate today 200e8, est_float_mv 200e8, cv daily_df,
   resistance_distance env_A today daily_df,
   vwap (minute_frame (drop 1 ticks_A)),
   stock_pct (minute_frame (drop 1 ticks_A)))
  = (4, 1.2, 6.2399999999999993, 140e8, 0.076923076923076927,
     32.734089045136784, inr 102, inr 4).
Proof. by vm_compute. Qed.

Example scenario_A : outcome env_A ["600000"] = (Val ["600000"], [], 1%nat).
Proof. by vm_compute. Qed.

Example scenario_B :
  outcome env_B ["600000"] = (Val [], [(PriceMoveOutOfRange, 1%nat)], 1%nat).
Proof. by vm_compute. Qed.

Example scenario_C :
  outcome env_C ["600000"] = (Val [], [(NoValuationData, 1%nat)], 1%nat).
Proof. by vm_compute. Qed.

Example scenario_D :
  outcome env_D ["600000"] = (Val [], [(InsufficientHistory, 1%nat)], 1%nat).
Proof. by vm_compute. Qed.

Example scenario_E :
  outcome env_E ["600000"] = (Val [], [(WeakIntraday, 1%nat)], 1%nat).
Proof. by vm_compute. Qed.

(** A first retained price of 0: in a float64 column the return is
    +infinity and the symbol is selected; in a column of dtype object the
    division raises and the symbol is counted under the catch-all key. *)
Example zero_first_tick_by_dtype :
  stock_pct (minute_frame [tick 52200 0; tick 54000 104]) = inr infinity
  ∧ outcome env_zero_tick ["600000"] = (Val ["600000"], [], 1%nat)
  ∧ outcome env_zero_tick_object ["600000"]
    = (Val [], [(EvaluationError, 1%nat)], 1%nat).
Proof. repeat split; by vm_compute. Qed.

(** A run over several symbols: the spot table has no row for the third
    one, so its float share is [None]. *)
Example scenario_A_three_symbols :
  outcome env_A ["600000"; "000001"; "300750"]
  = (Val ["600000"; "000001"], [(NoValuationData, 1%nat)], 3%nat).
Proof. by vm_compute. Qed.

(** * The claims *)

(** C1.  The accounting of a run is exact.  For every list of symbols and
    every provider, [filter_stocks] ends without an exception in a state
    where the number of symbols processed is the length of the list and
    equals the number of selected symbols plus the sum of all rejection
    counts.  Each symbol sits in exactly one bucket: [selected] holds the
    symbols whose verdict is a pass, in input order; the count under each
    of the ten keys is the number of symbols whose verdict is that key; the
    dictionary has no other key; and a verdict is a pass or one of the ten
    keys. *)
Theorem accounting_is_exact akshare symbol_list st :
  let st' := (filter_stocks akshare symbol_list st).2 in
  (filter_stocks akshare symbol_list st).1 = Val (selected st')
  ∧ processed_count st' = length symbol_list
  ∧ processed_count st'
    = (length (selected st') + total_rejected (rejected st'))%nat
  ∧ selected st' = with_verdict akshare Passed symbol_list
  ∧ (∀ key, key ∈ reasons →
       rejected st' !! key
       = Some (length (with_verdict akshare (Rejected key) symbol_list)))
  ∧ (∀ key, key ∉ reasons → rejected st' !! key = None)
  ∧ (∀ symbol,
       evaluate akshare (benchmark akshare "000300") symbol = Passed
       ∨ ∃ key, key ∈ reasons
           ∧ evaluate akshare (benchmark akshare "000300") symbol
             = Rejected key).
Proof.
  rewrite filter_stocks_run. cbn [fst snd]. unfold final_state.
  assert (has_reasons (rejected (entry_state akshare st))) as H
    by apply has_reasons_init.
  pose proof (fold_accounting akshare (benchmark akshare "000300")
                symbol_list _ H) as Hacc.
  cbn zeta in Hacc. cbn [entry_state add_calls selected rejected length] in Hacc.
  rewrite total_rejected_init in Hacc.
  split; [done|]. split; [by rewrite fold_processed|].
  split; [rewrite fold_processed by done; simpl; lia|].
  split; [by rewrite fold_selected|].
  split; [|split].
  - intros key Hk. rewrite fold_count by done. simpl.
    by rewrite rejected_init_in.
  - intros key Hk. rewrite fold_count by done. simpl.
    by rewrite rejected_init_out.
  - intros symbol.
    destruct (evaluate akshare _ symbol) as [|key] eqn:Hv; [by left|].
    right. exists key. split; [|done]. by eapply evaluate_key.
Qed.

(** C2.  The tests run in the fixed order and the first failing one
    decides.  When every test before stage [k] passes and the test of
    stage [k] fails, the iteration ends by [continue] with exactly the
    counter of stage [k] incremented, nothing selected, and the provider
    calls made are those of the stages up to [k] only: the daily frame
    alone for stage 1, the daily frame and the valuation calls for
    stages 2 to 8, and the minute frame only for stage 9.  The statement
    holds whatever the provider would answer for later stages. *)
Theorem first_failing_stage_decides akshare index_pct symbol st k :
  has_reasons (rejected st) →
  (∀ j, (stage_index j < stage_index k)%nat →
        check akshare index_pct symbol j = Pass) →
  check akshare index_pct symbol k = Fail →
  ∃ n, rejected st !! reason k = Some n
    ∧ loop_body akshare index_pct symbol st
      = (Continue,
         {| selected := selected st;
            rejected := <[reason k := S n]> (rejected st);
            processed_count := S (processed_count st);
            calls := calls st ++ calls_through akshare symbol k |})
    ∧ (∀ c, c ∈ calls_through akshare symbol k →
         c = Call_stock_zh_a_hist symbol
         ∨ ((2 ≤ stage_index k)%nat
            ∧ (c = Call_stock_a_indicator_lg symbol
               ∨ c = Call_stock_zh_a_spot_em))
         ∨ (k = IntradayStrength ∧ c = Call_stock_zh_a_minute symbol)).
Proof.
  intros Hst Hpass Hk.
  destruct (has_reasons_elem _ (reason k) Hst (reason_in k)) as [n Hn].
  exists n. split; [done|]. split.
  - rewrite loop_body_evaluate by done. unfold step.
    destruct (evaluate_fail akshare index_pct symbol k Hpass Hk) as [-> ->].
    unfold record, bump_state, flow_of. simpl. by rewrite Hn.
  - intros c Hc.
    destruct (valuation_calls_cases akshare symbol) as [E|E];
      destruct k; simpl in Hc |- *; rewrite ?E in Hc; simpl in Hc;
      repeat (apply elem_of_cons in Hc as [->|Hc]);
      try (by apply elem_of_nil in Hc);
      solve [ by left
            | right; left; split; [lia|by left]
            | right; left; split; [lia|by right]
            | by right; right ].
Qed.

Lemma first_failing_stage_decides_witness :
  ∃ n, rejected (entry_state env_B_trap st_nil) !! reason DailyPriceMove = Some n
    ∧ loop_body env_B_trap (benchmark env_B_trap "000300") "600000"
        (entry_state env_B_trap st_nil)
      = (Continue,
         {| selected := selected (entry_state env_B_trap st_nil);
            rejected := <[reason DailyPriceMove := S n]>
                          (rejected (entry_state env_B_trap st_nil));
            processed_count := S (processed_count (entry_state env_B_trap st_nil));
            calls := calls (entry_state env_B_trap st_nil)
                     ++ calls_through env_B_trap "600000" DailyPriceMove |})
    ∧ (∀ c, c ∈ calls_through env_B_trap "600000" DailyPriceMove →
         c = Call_stock_zh_a_hist "600000"
         ∨ ((2 ≤ stage_index DailyPriceMove)%nat
            ∧ (c = Call_stock_a_indicator_lg "600000"
               ∨ c = Call_stock_zh_a_spot_em))
         ∨ (DailyPriceMove = IntradayStrength
            ∧ c = Call_stock_zh_a_minute "600000")).
Proof.
  apply (first_failing_stage_decides env_B_trap (benchmark env_B_trap "000300")
           "600000" (entry_state env_B_trap st_nil) DailyPriceMove).
  - apply has_reasons_init.
  - earlier_stages_pass.
  - by vm_compute.
Defined.

(** C3, counterexample.  The value [filter_stocks] returns does not hold
    the rejection counts or the number processed.  With fifteen sessions
    of history for every symbol, the run on the empty list and the run on
    one symbol return the same value, the empty list, while the first
    processed 0 symbols and counted nothing and the second processed 1
    and counted it under the minimum-history key.  So nothing can read
    the number processed off the returned value. *)
Lemma returned_value_omits_the_counts :
  (filter_stocks env_D [] st_nil).1 = Val []
  ∧ (filter_stocks env_D ["600000"] st_nil).1 = Val []
  ∧ processed_count (filter_stocks env_D [] st_nil).2 = 0%nat
  ∧ processed_count (filter_stocks env_D ["600000"] st_nil).2 = 1%nat
  ∧ rejected (filter_stocks env_D [] st_nil).2 !! InsufficientHistory
    = Some 0%nat
  ∧ rejected (filter_stocks env_D ["600000"] st_nil).2 !! InsufficientHistory
    = Some 1%nat
  ∧ ¬ (∃ read : Flow (list string) → nat,
         ∀ symbol_list,
           read (filter_stocks env_D symbol_list st_nil).1
           = processed_count (filter_stocks env_D symbol_list st_nil).2).
Proof.
  repeat (split; [by vm_compute|]).
  intros [read Hread].
  pose proof (Hread []) as H0. pose proof (Hread ["600000"]) as H1.
  assert ((filter_stocks env_D [] st_nil).1
          = (filter_stocks env_D ["600000"] st_nil).1) as E by by vm_compute.
  rewrite E, H1 in H0. by vm_compute in H0.
Qed.

(** C3, amended.  [filter_stocks] returns the list [selected] and nothing
    else: the symbols whose verdict is a pass, in the order of the input
    list.  The rejection counts and the number processed stay in the
    locals of the function. *)
Theorem filter_stocks_returns_selected akshare symbol_list st :
  (filter_stocks akshare symbol_list st).1
  = Val (with_verdict akshare Passed symbol_list)
  ∧ selected (filter_stocks akshare symbol_list st).2
    = with_verdict akshare Passed symbol_list.
Proof.
  rewrite filter_stocks_run. cbn [fst snd]. unfold final_state.
  rewrite fold_selected by apply has_reasons_init. done.
Qed.

(** C4, counterexample.  Stage 2 does not ask for positive numbers: its
    test, [not float_share or not total_mv], lets through every number
    other than 0.  A total market value that is missing in the indicator
    frame (NaN) gives a NaN pair, a negative one gives a negative pair; in
    both runs stage 2 passes and the symbol is counted under the turnover
    key further down. *)
Lemma unusable_valuation_passes_stage_2 :
  (∃ x y, valuation env_nan_mv "600000" = (Some x, Some y)
          ∧ is_nan x = true ∧ is_nan y = true)
  ∧ check env_nan_mv (benchmark env_nan_mv "000300") "600000"
      ValuationAvailability = Pass
  ∧ outcome env_nan_mv ["600000"] = (Val [], [(TurnoverOutOfRange, 1%nat)], 1%nat)
  ∧ (∃ x y, valuation env_negative_mv "600000" = (Some x, Some y)
            ∧ (x <? 0) = true ∧ (y <? 0) = true)
  ∧ check env_negative_mv (benchmark env_negative_mv "000300") "600000"
      ValuationAvailability = Pass
  ∧ outcome env_negative_mv ["600000"]
    = (Val [], [(TurnoverOutOfRange, 1%nat)], 1%nat).
Proof.
  split; [|split; [|split; [|split; [|split]]]]; try by vm_compute.
  - eexists _, _. split; [by vm_compute|]. by vm_compute.
  - eexists _, _. split; [by vm_compute|]. by vm_compute.
Qed.

(** C4, amended.  For a symbol with enough history, stage 2 passes exactly
    when [get_float_share_and_mv] returns two numbers that both compare
    unequal to 0 (a negative number or a NaN passes); then the counter of
    the valuation key is left alone.  In every other case, a [None] in
    either place or a zero, the symbol is rejected under the valuation
    key after the valuation calls and nothing else is fetched; a [None]
    never reaches the arithmetic of the later stages. *)
Theorem valuation_gate akshare index_pct symbol st :
  has_reasons (rejected st) →
  check akshare index_pct symbol MinimumHistory = Pass →
  let usable :=
    ∃ x y, valuation akshare symbol = (Some x, Some y)
           ∧ (x =? 0) = false ∧ (y =? 0) = false in
  (usable →
     check akshare index_pct symbol ValuationAvailability = Pass
     ∧ count_of NoValuationData (loop_body akshare index_pct symbol st).2
       = count_of NoValuationData st)
  ∧ (¬ usable →
     loop_body akshare index_pct symbol st
     = (Continue,
        bump_state NoValuationData
          (add_calls (calls_through akshare symbol ValuationAvailability)
             (count_state st)))).
Proof.
  intros Hst H1 usable.
  assert (check akshare index_pct symbol ValuationAvailability = Pass
          ↔ usable) as H2.
  { unfold usable. cbn [check].
    destruct (valuation akshare symbol) as [[x|] [y|]];
      cbn [fst snd truthy negb]; rewrite ?orb_true_r; cbn [orb fail_if];
      try (split; [done|by intros (? & ? & ? & _)]).
    destruct (x =? 0) eqn:Hx; cbn [negb orb fail_if].
    { split; [done|intros (? & ? & [= <- <-] & ? & ?); congruence]. }
    destruct (y =? 0) eqn:Hy; cbn [negb orb fail_if].
    { split; [done|intros (? & ? & [= <- <-] & ? & ?); congruence]. }
    split; [intros _; by exists x, y|done]. }
  split.
  - intros Hu. apply H2 in Hu. split; [done|].
    apply (passed_stage_count akshare index_pct symbol ValuationAvailability);
      [done|by rewrite Hu].
  - intros Hu.
    apply (loop_body_fail akshare index_pct symbol ValuationAvailability);
      [done| |].
    + intros j Hj. destruct j; simpl in Hj; try lia; done.
    + destruct (check akshare index_pct symbol ValuationAvailability) eqn:Hc;
        [by destruct Hu; apply H2|done|].
      cbn [check] in Hc. by destruct (_ || _).
Qed.

Lemma valuation_gate_witness :
  (check env_A (benchmark env_A "000300") "600000" ValuationAvailability = Pass
   ∧ count_of NoValuationData
       (loop_body env_A (benchmark env_A "000300") "600000"
          (entry_state env_A st_nil)).2
     = count_of NoValuationData (entry_state env_A st_nil))
  ∧ loop_body env_no_indicator (benchmark env_no_indicator "000300") "600000"
      (entry_state env_no_indicator st_nil)
    = (Continue,
       bump_state NoValuationData
         (add_calls
            (calls_through env_no_indicator "600000" ValuationAvailability)
            (count_state (entry_state env_no_indicator st_nil)))).
Proof.
  split.
  - apply (valuation_gate env_A (benchmark env_A "000300") "600000"
             (entry_state env_A st_nil)).
    + apply has_reasons_init.
    + by vm_compute.
    + eexists _, _. split; [by vm_compute|]. by vm_compute.
  - apply (valuation_gate env_no_indicator
             (benchmark env_no_indicator "000300") "600000"
             (entry_state env_no_indicator st_nil)).
    + apply has_reasons_init.
    + by vm_compute.
    + intros (x & y & H & _). by vm_compute in H.
Defined.

(** C5.  The bounds of stage 3 are inclusive.  For a symbol that reaches
    stage 3, a computed price move of exactly 3 or exactly 5 passes the
    stage (its counter is left alone), and a move strictly below 3 or
    strictly above 5 ends the iteration with the price-move counter
    incremented. *)
Theorem price_move_bounds_are_inclusive
    akshare index_pct symbol st daily_df today prev_day :
  has_reasons (rejected st) →
  stock_zh_a_hist akshare symbol = inr daily_df →
  iloc_neg 1 daily_df = inr today →
  iloc_neg 2 daily_df = inr prev_day →
  check akshare index_pct symbol MinimumHistory = Pass →
  check akshare index_pct symbol ValuationAvailability = Pass →
  ((pct_change today prev_day = 3 ∨ pct_change today prev_day = 5) →
     check akshare index_pct symbol DailyPriceMove = Pass
     ∧ count_of PriceMoveOutOfRange (loop_body akshare index_pct symbol st).2
       = count_of PriceMoveOutOfRange st)
  ∧ (((pct_change today prev_day <? 3) = true
      ∨ (5 <? pct_change today prev_day) = true) →
     loop_body akshare index_pct symbol st
     = (Continue,
        bump_state PriceMoveOutOfRange
          (add_calls (calls_through akshare symbol DailyPriceMove)
             (count_state st)))).
Proof.
  intros Hst Hd Ht Hp H1 H2.
  assert (check akshare index_pct symbol DailyPriceMove
          = fail_if (negb ((3 <=? pct_change today prev_day)
                           && (pct_change today prev_day <=? 5)))) as H3.
  { unfold check, on_bars. by rewrite Hd, Ht, Hp. }
  split.
  - intros Hpct.
    assert (check akshare index_pct symbol DailyPriceMove = Pass) as Hpass.
    { rewrite H3. by destruct Hpct as [-> | ->]. }
    split; [done|].
    apply (passed_stage_count akshare index_pct symbol DailyPriceMove);
      [done|by rewrite Hpass].
  - intros Hpct.
    apply (loop_body_fail akshare index_pct symbol DailyPriceMove); [done| |].
    + intros j Hj. destruct j; simpl in Hj; try lia; done.
    + rewrite H3. destruct Hpct as [Hlo|Hhi].
      * by rewrite (ltb_leb_flip _ _ Hlo).
      * by rewrite (ltb_leb_flip _ _ Hhi), andb_false_r.
Qed.

Lemma price_move_bounds_are_inclusive_witness :
  (check env_up3 (benchmark env_up3 "000300") "600000" DailyPriceMove = Pass
   ∧ count_of PriceMoveOutOfRange
       (loop_body env_up3 (benchmark env_up3 "000300") "600000"
          (entry_state env_up3 st_nil)).2
     = count_of PriceMoveOutOfRange (entry_state env_up3 st_nil))
  ∧ (check env_up5 (benchmark env_up5 "000300") "600000" DailyPriceMove = Pass
     ∧ count_of PriceMoveOutOfRange
         (loop_body env_up5 (benchmark env_up5 "000300") "600000"
            (entry_state env_up5 st_nil)).2
       = count_of PriceMoveOutOfRange (entry_state env_up5 st_nil))
  ∧ loop_body env_up2 (benchmark env_up2 "000300") "600000"
      (entry_state env_up2 st_nil)
    = (Continue,
       bump_state PriceMoveOutOfRange
         (add_calls (calls_through env_up2 "600000" DailyPriceMove)
            (count_state (entry_state env_up2 st_nil))))
  ∧ loop_body env_B (benchmark env_B "000300") "600000"
      (entry_state env_B st_nil)
    = (Continue,
       bump_state PriceMoveOutOfRange
         (add_calls (calls_through env_B "600000" DailyPriceMove)
            (count_state (entry_state env_B st_nil)))).
Proof.
  split; [|split; [|split]].
  - apply (price_move_bounds_are_inclusive env_up3
             (benchmark env_up3 "000300") "600000"
             (entry_state env_up3 st_nil) (bars 103 1.2e7)
             (bar 24 103 1.2e7) (bar 23 100 1e7));
      [apply has_reasons_init|by vm_compute..|left; by vm_compute].
  - apply (price_move_bounds_are_inclusive env_up5
             (benchmark env_up5 "000300") "600000"
             (entry_state env_up5 st_nil) (bars 105 1.2e7)
             (bar 24 105 1.2e7) (bar 23 100 1e7));
      [apply has_reasons_init|by vm_compute..|right; by vm_compute].
  - apply (price_move_bounds_are_inclusive env_up2
             (benchmark env_up2 "000300") "600000"
             (entry_state env_up2 st_nil) (bars 102 1.2e7)
             (bar 24 102 1.2e7) (bar 23 100 1e7));
      [apply has_reasons_init|by vm_compute..|left; by vm_compute].
  - apply (price_move_bounds_are_inclusive env_B
             (benchmark env_B "000300") "600000"
             (entry_state env_B st_nil) (bars 106 1.2e7)
             (bar 24 106 1.2e7) (bar 23 100 1e7));
      [apply has_reasons_init|by vm_compute..|right; by vm_compute].
Defined.

(** C6.  The two ratios are defined when their divisor is zero.  When the
    mean of the five volumes before the last session compares equal to 0,
    [volume_ratio] is 0, and a symbol that reaches stage 4 is then
    rejected under the volume-ratio key, with no exception.  When the mean
    of the last five volumes compares equal to 0, [cv] is 0. *)
Theorem zero_mean_is_guarded :
  (∀ today daily_df,
     (avg_volume_5d daily_df =? 0) = true →
     volume_ratio today daily_df = 0)
  ∧ (∀ daily_df,
       (np_mean (volumes daily_df) =? 0) = true → cv daily_df = 0)
  ∧ (∀ akshare index_pct symbol st daily_df,
       has_reasons (rejected st) →
       stock_zh_a_hist akshare symbol = inr daily_df →
       (∀ j, (stage_index j < stage_index VolumeSurge)%nat →
             check akshare index_pct symbol j = Pass) →
       (avg_volume_5d daily_df =? 0) = true →
       loop_body akshare index_pct symbol st
       = (Continue,
          bump_state VolumeRatioTooLow
            (add_calls (calls_through akshare symbol VolumeSurge)
               (count_state st)))).
Proof.
  split; [|split].
  - intros today daily_df H. unfold volume_ratio. by rewrite H.
  - intros daily_df H. unfold cv. by rewrite H.
  - intros akshare index_pct symbol st daily_df Hst Hd Hpass Hz.
    apply (loop_body_fail akshare index_pct symbol VolumeSurge); [done..|].
    pose proof (Hpass DailyPriceMove ltac:(simpl; lia)) as H3.
    unfold check, on_bars in H3 |- *. rewrite Hd in H3 |- *.
    destruct (iloc_neg 1 daily_df) as [|today]; [done|].
    destruct (iloc_neg 2 daily_df) as [|prev_day]; [done|].
    unfold volume_ratio. by rewrite Hz.
Qed.

Lemma zero_mean_is_guarded_witness :
  volume_ratio (bar 24 104 1.2e7) bars_idle = 0
  ∧ cv (take 24 bars_idle ++ [bar 24 104 0]) = 0
  ∧ loop_body env_idle (benchmark env_idle "000300") "600000"
      (entry_state env_idle st_nil)
    = (Continue,
       bump_state VolumeRatioTooLow
         (add_calls (calls_through env_idle "600000" VolumeSurge)
            (count_state (entry_state env_idle st_nil)))).
Proof.
  destruct zero_mean_is_guarded as (Hratio & Hcv & Hrun).
  split; [|split].
  - apply Hratio. by vm_compute.
  - apply Hcv. by vm_compute.
  - apply (Hrun env_idle _ "600000" _ bars_idle).
    + apply has_reasons_init.
    + reflexivity.
    + intros j Hj. destruct j; simpl in Hj; try lia; by vm_compute.
    + by vm_compute.
Defined.

(** C7, counterexample.  The minute call answers with the frame
    [pd.DataFrame()], which has no row: the intraday sequence is empty.
    The symbol passes stages 1 to 8, yet it is not counted under the
    intraday key: [df['time']] raises a [KeyError] in
    [get_intraday_data], before the test for an empty frame, and the
    symbol is counted under the catch-all key. *)
Lemma column_less_empty_frame_is_an_error :
  stock_zh_a_minute env_no_columns "600000"
  = inr {| time_column := false; price_column := None; ticks := [] |}
  ∧ (∀ j, (stage_index j < stage_index IntradayStrength)%nat →
          check env_no_columns (benchmark env_no_columns "000300")
            "600000" j = Pass)
  ∧ outcome env_no_columns ["600000"]
    = (Val [], [(EvaluationError, 1%nat)], 1%nat)
  ∧ rejected (filter_stocks env_no_columns ["600000"] st_nil).2
      !! WeakIntraday = Some 0%nat.
Proof.
  split; [reflexivity|]. split; [earlier_stages_pass|].
  split; by vm_compute.
Qed.

(** C7, amended.  What stage 9 does with the frame of the minute call, for
    a symbol that passes stages 1 to 8.  A frame without a '时间' column,
    empty or not, is counted under the catch-all key.  With that column,
    a frame with no tick from 14:30 on is counted under the intraday key,
    and one with such ticks and no '成交' column under the catch-all key.
    Otherwise the iteration ends under the intraday key exactly when the
    close of the day is below the mean of the retained prices (pandas'
    mean of the column: NaN entries left out, a float64 column added
    pairwise) or the return from the first to the last retained price,
    (last - first) / first * 100, is below the index return plus 1, and
    the symbol is selected exactly when neither holds; only on a column
    of dtype object whose first retained price is zero does the division
    raise, and the symbol is then counted under the catch-all key. *)
Theorem weak_intraday_exactly
    akshare index_pct symbol st daily_df today df :
  has_reasons (rejected st) →
  stock_zh_a_hist akshare symbol = inr daily_df →
  iloc_neg 1 daily_df = inr today →
  stock_zh_a_minute akshare symbol = inr df →
  (∀ j, (stage_index j < stage_index IntradayStrength)%nat →
        check akshare index_pct symbol j = Pass) →
  let kept := filter (fun t => (52200 ≤ time t)%Z) (ticks df) in
  let after :=
    add_calls (calls_through akshare symbol IntradayStrength)
      (count_state st) in
  let counted_under key :=
    loop_body akshare index_pct symbol st
    = (Continue, bump_state key after) in
  let chosen :=
    loop_body akshare index_pct symbol st
    = (Val tt, select_state symbol after) in
  (time_column df = false → counted_under EvaluationError)
  ∧ (time_column df = true → kept = [] → counted_under WeakIntraday)
  ∧ (time_column df = true → kept ≠ [] → price_column df = None →
     counted_under EvaluationError)
  ∧ (∀ dtype first last,
       time_column df = true →
       price_column df = Some dtype →
       iloc_0 kept = inr first →
       iloc_neg 1 kept = inr last →
       let mean_price :=
         match dtype with
         | float64 => nanmean (map price kept)
         | object => series_mean (map price kept)
         end in
       let session_return :=
         (price last - price first) / price first * 100 in
       let weak :=
         (close today <? mean_price) = true
         ∨ (session_return <? index_pct + 1) = true in
       match dtype, price first =? 0 with
       | object, true => counted_under EvaluationError
       | _, _ =>
           (weak ↔ counted_under WeakIntraday) ∧ (¬ weak ↔ chosen)
       end).
Proof.
  intros Hst Hd Ht Hm Hpass. cbv zeta.
  pose proof (loop_body_stage_9 akshare index_pct symbol st Hst Hpass)
    as Hrun.
  pose proof (stage_9_check akshare index_pct symbol daily_df today
                Hd Ht Hpass) as H9.
  unfold intraday in H9. rewrite Hm in H9. unfold last_half_hour in H9.
  set (kept := filter (fun t => (52200 ≤ time t)%Z) (ticks df)) in *.
  set (after := add_calls (calls_through akshare symbol IntradayStrength)
                  (count_state st)) in *.
  clearbody kept after.
  split; [|split; [|split]].
  - intros Hcol. rewrite Hcol in H9. by rewrite Hrun, H9.
  - intros Hcol Hnil. rewrite Hcol in H9. cbn [ticks] in H9.
    rewrite bool_decide_eq_true_2 in H9 by done. by rewrite Hrun, H9.
  - intros Hcol Hne Hprice. rewrite Hcol in H9. cbn [ticks] in H9.
    rewrite bool_decide_eq_false_2 in H9 by done.
    unfold vwap, price_series in H9. cbn [price_column] in H9.
    rewrite Hprice in H9. by rewrite Hrun, H9.
  - intros dtype first last Hcol Hprice Hf Hl.
    set (mean_price := match dtype with
                       | float64 => nanmean (map price kept)
                       | object => series_mean (map price kept)
                       end).
    set (session_return := (price last - price first) / price first * 100).
    set (weak := (close today <? mean_price) = true
                 ∨ (session_return <? index_pct + 1) = true).
    rewrite Hcol in H9. cbn [ticks] in H9.
    assert (kept ≠ []) as Hne by (by destruct kept).
    rewrite bool_decide_eq_false_2 in H9 by done.
    apply (iloc_0_map price) in Hf. apply (iloc_neg_map price) in Hl.
    unfold vwap, stock_pct, price_series in H9.
    cbn [price_column ticks] in H9. rewrite Hprice, Hf, Hl in H9.
    assert (∀ b : bool,
              check akshare index_pct symbol IntradayStrength = fail_if b →
              (b = true ↔ loop_body akshare index_pct symbol st
                          = (Continue, bump_state WeakIntraday after))
              ∧ (b ≠ true ↔ loop_body akshare index_pct symbol st
                            = (Val tt, select_state symbol after)))
      as Hboth.
    { intros b Hb. rewrite Hrun, Hb. by destruct b. }
    assert (weak ↔ (close today <? mean_price)
                   || (session_return <? index_pct + 1) = true) as Hweak.
    { unfold weak. rewrite orb_true_iff. tauto. }
    destruct dtype; cbn [truediv mean] in H9.
    + fold session_return mean_price in H9.
      rewrite Hweak. destruct (price first =? 0); by apply Hboth.
    + destruct (price first =? 0) eqn:Hz.
      * by rewrite Hrun, H9.
      * fold session_return mean_price in H9.
        rewrite Hweak. by apply Hboth.
Qed.

Lemma weak_intraday_exactly_witness :
  let counted_under akshare key :=
    loop_body akshare (benchmark akshare "000300") "600000"
      (entry_state akshare st_nil)
    = (Continue,
       bump_state key
         (add_calls (calls_through akshare "600000" IntradayStrength)
            (count_state (entry_state akshare st_nil)))) in
  let chosen akshare :=
    loop_body akshare (benchmark akshare "000300") "600000"
      (entry_state akshare st_nil)
    = (Val tt,
       select_state "600000"
         (add_calls (calls_through akshare "600000" IntradayStrength)
            (count_state (entry_state akshare st_nil)))) in
  counted_under env_no_columns EvaluationError
  ∧ counted_under env_E WeakIntraday
  ∧ counted_under env_no_price_column EvaluationError
  ∧ counted_under env_above_close WeakIntraday
  ∧ counted_under env_creeping WeakIntraday
  ∧ chosen env_A
  ∧ chosen env_eight_ticks
  ∧ chosen env_object
  ∧ counted_under env_zero_tick_object EvaluationError.
Proof.
  intros counted_under chosen. unfold counted_under, chosen.
  split; [|split; [|split; [|split; [|split; [|split; [|split; [|split]]]]]]].
  - edestruct (weak_intraday_exactly env_no_columns
                 (benchmark env_no_columns "000300") "600000"
                 (entry_state env_no_columns st_nil)
                 (bars 104 1.2e7) (bar 24 104 1.2e7))
      as (H & _);
      [apply has_reasons_init | reflexivity | by vm_compute | reflexivity
      | earlier_stages_pass |].
    by apply H.
  - edestruct (weak_intraday_exactly env_E (benchmark env_E "000300")
                 "600000" (entry_state env_E st_nil)
                 (bars 104 1.2e7) (bar 24 104 1.2e7))
      as (_ & H & _);
      [apply has_reasons_init | reflexivity | by vm_compute | reflexivity
      | earlier_stages_pass |].
    by apply H.
  - edestruct (weak_intraday_exactly env_no_price_column
                 (benchmark env_no_price_column "000300") "600000"
                 (entry_state env_no_price_column st_nil)
                 (bars 104 1.2e7) (bar 24 104 1.2e7))
      as (_ & _ & H & _);
      [apply has_reasons_init | reflexivity | by vm_compute | reflexivity
      | earlier_stages_pass |].
    by apply H.
  - edestruct (weak_intraday_exactly env_above_close
                 (benchmark env_above_close "000300") "600000"
                 (entry_state env_above_close st_nil)
                 (bars 104 1.2e7) (bar 24 104 1.2e7))
      as (_ & _ & _ & H);
      [apply has_reasons_init | reflexivity | by vm_compute | reflexivity
      | earlier_stages_pass |].
    apply (H float64 (tick 52200 104) (tick 54000 108)); try reflexivity.
    left. by vm_compute.
  - edestruct (weak_intraday_exactly env_creeping
                 (benchmark env_creeping "000300") "600000"
                 (entry_state env_creeping st_nil)
                 (bars 104 1.2e7) (bar 24 104 1.2e7))
      as (_ & _ & _ & H);
      [apply has_reasons_init | reflexivity | by vm_compute | reflexivity
      | earlier_stages_pass |].
    apply (H float64 (tick 52200 100) (tick 54000 100.5)); try reflexivity.
    right. by vm_compute.
  - edestruct (weak_intraday_exactly env_A (benchmark env_A "000300")
                 "600000" (entry_state env_A st_nil)
                 (bars 104 1.2e7) (bar 24 104 1.2e7))
      as (_ & _ & _ & H);
      [apply has_reasons_init | reflexivity | by vm_compute | reflexivity
      | earlier_stages_pass |].
    apply (H float64 (tick 52200 100) (tick 54000 104)); try reflexivity.
    intros [Hw|Hw]; by vm_compute in Hw.
  - edestruct (weak_intraday_exactly env_eight_ticks
                 (benchmark env_eight_ticks "000300") "600000"
                 (entry_state env_eight_ticks st_nil)
                 (bars 103.08 1.2e7) (bar 24 103.08 1.2e7))
      as (_ & _ & _ & H);
      [apply has_reasons_init | reflexivity | by vm_compute | reflexivity
      | earlier_stages_pass |].
    apply (H float64 (tick 52200 103.08) (tick 53880 103.08));
      try reflexivity.
    intros [Hw|Hw]; by vm_compute in Hw.
  - edestruct (weak_intraday_exactly env_object
                 (benchmark env_object "000300") "600000"
                 (entry_state env_object st_nil)
                 (bars 104 1.2e7) (bar 24 104 1.2e7))
      as (_ & _ & _ & H);
      [apply has_reasons_init | reflexivity | by vm_compute | reflexivity
      | earlier_stages_pass |].
    apply (H object (tick 52200 100) (tick 54000 104)); try reflexivity.
    intros [Hw|Hw]; by vm_compute in Hw.
  - edestruct (weak_intraday_exactly env_zero_tick_object
                 (benchmark env_zero_tick_object "000300") "600000"
                 (entry_state env_zero_tick_object st_nil)
                 (bars 104 1.2e7) (bar 24 104 1.2e7))
      as (_ & _ & _ & H);
      [apply has_reasons_init | reflexivity | by vm_compute | reflexivity
      | earlier_stages_pass |].
    by apply (H object (tick 52200 0) (tick 54000 104)).
Defined.

(** C8, counterexample.  On an index frame of a single row there is no
    previous close: pandas' [pct_change] is NaN on the first row, and
    [get_index_data] returns that NaN, which is neither a percentage
    change of two closes nor the fallback 0. *)
Lemma one_row_index_is_neither :
  index_frame env_one_row_index "000300" = inr {| idx_close := Some [4000] |}
  ∧ get_index_data env_one_row_index "000300" st_nil
    = (Val nan, add_calls [Call_index_zh_a_hist "000300"] st_nil)
  ∧ nan ≠ 0.
Proof. split; [by vm_compute|]. split; [by vm_compute|]. apply nan_not_zero. Qed.

(** C8, amended.  [get_index_data] never raises.  It works on the frame of
    the first provider call, or of the second call when the first raises.
    From a frame whose '收盘' column has at least two rows it returns
    (latest / previous - 1) * 100, which is how pandas computes the
    change; from a one-row frame it returns NaN; and when both calls
    raise, or the frame has no such column or no row, it returns 0.  So
    the run goes on and processes every symbol of the list. *)
Theorem get_index_data_never_raises akshare index_symbol st :
  get_index_data akshare index_symbol st
  = (Val (benchmark akshare index_symbol),
     add_calls (index_calls akshare index_symbol) st)
  ∧ (∀ df pre previous latest,
       index_frame akshare index_symbol = inr df →
       idx_close df = Some (pre ++ [previous; latest]) →
       benchmark akshare index_symbol = (latest / previous - 1) * 100)
  ∧ (∀ df only,
       index_frame akshare index_symbol = inr df →
       idx_close df = Some [only] →
       benchmark akshare index_symbol = nan)
  ∧ ((∃ e, index_frame akshare index_symbol = inl e)
     ∨ (∃ df, index_frame akshare index_symbol = inr df
              ∧ (idx_close df = None ∨ idx_close df = Some [])) →
     benchmark akshare index_symbol = 0)
  ∧ (∀ symbol_list,
       ∃ st', filter_stocks akshare symbol_list st = (Val (selected st'), st')
              ∧ processed_count st' = length symbol_list).
Proof.
  split; [apply get_index_data_run|].
  rewrite benchmark_eq.
  split; [|split; [|split]].
  - intros df pre previous latest -> ->. by rewrite pct_change_last_two.
  - intros df only -> ->. by vm_compute.
  - intros [[e ->]|(df & -> & [-> | ->])]; done.
  - intros symbol_list. eexists. split; [apply filter_stocks_run|].
    unfold final_state. by rewrite fold_processed by apply has_reasons_init.
Qed.

Lemma get_index_data_never_raises_witness :
  benchmark env_A "000300" = (4020 / 4000 - 1) * 100
  ∧ benchmark env_one_row_index "000300" = nan
  ∧ benchmark env_no_index "000300" = 0.
Proof.
  split; [|split].
  - apply (get_index_data_never_raises env_A "000300" st_nil)
      with (df := index_A) (pre := []); reflexivity.
  - apply (get_index_data_never_raises env_one_row_index "000300" st_nil)
      with (df := {| idx_close := Some [4000] |}) (only := 4000); reflexivity.
  - apply (get_index_data_never_raises env_no_index "000300" st_nil).
    left. eexists. reflexivity.
Defined.

(** C9, counterexample.  A provider failure at stage 2 is not counted under
    the catch-all key: the indicator call raises, [get_float_share_and_mv]
    swallows the exception and returns (None, None), and the symbol is
    counted under the valuation key. *)
Lemma valuation_failure_is_not_counted_as_error :
  stock_a_indicator_lg env_no_indicator "600000"
  = inl (ProviderError "timeout")
  ∧ outcome env_no_indicator ["600000"]
    = (Val [], [(NoValuationData, 1%nat)], 1%nat)
  ∧ rejected (filter_stocks env_no_indicator ["600000"] st_nil).2
      !! EvaluationError = Some 0%nat.
Proof. repeat split; by vm_compute. Qed.

(** C9, amended.  No failure leaves the iteration of its symbol.  The loop
    body never ends by an exception.  A failure of the daily call, or of
    the minute call once stages 1 to 8 have passed, is counted under the
    catch-all key; a failure of either valuation call, for a symbol with
    enough history, is counted under the valuation key.  In each case the
    symbol is not selected, and the run processes every symbol of the
    list. *)
Theorem failures_stay_with_their_symbol akshare index_pct symbol st :
  has_reasons (rejected st) →
  (∀ e, (loop_body akshare index_pct symbol st).1 ≠ Raise e)
  ∧ (∀ e, stock_zh_a_hist akshare symbol = inl e →
       loop_body akshare index_pct symbol st
       = (Continue,
          bump_state EvaluationError
            (add_calls [Call_stock_zh_a_hist symbol] (count_state st))))
  ∧ (∀ e, stock_zh_a_minute akshare symbol = inl e →
       (∀ j, (stage_index j < stage_index IntradayStrength)%nat →
             check akshare index_pct symbol j = Pass) →
       loop_body akshare index_pct symbol st
       = (Continue,
          bump_state EvaluationError
            (add_calls (calls_through akshare symbol IntradayStrength)
               (count_state st))))
  ∧ ((∃ e, stock_a_indicator_lg akshare symbol = inl e)
     ∨ (∃ df e, stock_a_indicator_lg akshare symbol = inr df
                ∧ ind_empty df = false
                ∧ stock_zh_a_spot_em akshare = inl e) →
     check akshare index_pct symbol MinimumHistory = Pass →
     loop_body akshare index_pct symbol st
     = (Continue,
        bump_state NoValuationData
          (add_calls (calls_through akshare symbol ValuationAvailability)
             (count_state st))))
  ∧ (∀ symbol_list st0,
       ∃ st', filter_stocks akshare symbol_list st0 = (Val (selected st'), st')
              ∧ processed_count st' = length symbol_list).
Proof.
  intros Hst. split; [|split; [|split; [|split]]].
  - intros e. by apply loop_body_no_raise.
  - intros e He.
    apply (loop_body_error akshare index_pct symbol MinimumHistory); [done| |].
    + intros j Hj. destruct j; simpl in Hj; lia.
    + cbn [check]. by rewrite He.
  - intros e He Hpass.
    apply (loop_body_error akshare index_pct symbol IntradayStrength);
      [done..|].
    pose proof (Hpass DailyPriceMove ltac:(simpl; lia)) as H3.
    unfold check, on_bars, intraday in H3 |- *.
    destruct (stock_zh_a_hist akshare symbol) as [|daily_df]; [done|].
    destruct (iloc_neg 1 daily_df) as [|today]; [done|].
    destruct (iloc_neg 2 daily_df) as [|prev_day]; [done|].
    by rewrite He.
  - intros Hfail H1.
    apply (loop_body_fail akshare index_pct symbol ValuationAvailability);
      [done| |].
    + intros j Hj. destruct j; simpl in Hj; try lia; done.
    + cbn [check]. by rewrite (valuation_provider_failure _ _ Hfail).
  - intros symbol_list st0. eexists. split; [apply filter_stocks_run|].
    unfold final_state. by rewrite fold_processed by apply has_reasons_init.
Qed.

Lemma failures_stay_with_their_symbol_witness :
  loop_body env_no_daily (benchmark env_no_daily "000300") "600000"
    (entry_state env_no_daily st_nil)
  = (Continue,
     bump_state EvaluationError
       (add_calls [Call_stock_zh_a_hist "600000"]
          (count_state (entry_state env_no_daily st_nil))))
  ∧ loop_body env_no_minute (benchmark env_no_minute "000300") "600000"
      (entry_state env_no_minute st_nil)
    = (Continue,
       bump_state EvaluationError
         (add_calls (calls_through env_no_minute "600000" IntradayStrength)
            (count_state (entry_state env_no_minute st_nil))))
  ∧ loop_body env_no_indicator (benchmark env_no_indicator "000300") "600000"
      (entry_state env_no_indicator st_nil)
    = (Continue,
       bump_state NoValuationData
         (add_calls
            (calls_through env_no_indicator "600000" ValuationAvailability)
            (count_state (entry_state env_no_indicator st_nil)))).
Proof.
  split; [|split].
  - apply (failures_stay_with_their_symbol env_no_daily
             (benchmark env_no_daily "000300") "600000"
             (entry_state env_no_daily st_nil) has_reasons_init)
      with (e := ProviderError "timeout").
    reflexivity.
  - apply (failures_stay_with_their_symbol env_no_minute
             (benchmark env_no_minute "000300") "600000"
             (entry_state env_no_minute st_nil) has_reasons_init)
      with (e := ProviderError "timeout").
    + reflexivity.
    + intros j Hj. destruct j; simpl in Hj; try lia; by vm_compute.
  - apply (failures_stay_with_their_symbol env_no_indicator
             (benchmark env_no_indicator "000300") "600000"
             (entry_state env_no_indicator st_nil) has_reasons_init).
    + left. eexists. reflexivity.
    + by vm_compute.
Defined.

(** C10.  The return of stage 9 divides by the first retained price with
    no guard.  For a symbol that reaches stage 9 with a first retained
    price equal to zero: when the price column has dtype object, the
    division of line 185 raises [ZeroDivisionError], the handler of the
    loop absorbs it, and the symbol is counted under the catch-all key
    while the intraday counter is left alone; when the column is float64,
    numpy divides as IEEE-754 does, the return is an infinity or a NaN
    and not the 0 a guard would give, and the catch-all counter is left
    alone. *)
Theorem zero_first_tick_is_unguarded
    akshare index_pct symbol st intraday_df first rest :
  has_reasons (rejected st) →
  (∀ j, (stage_index j < stage_index IntradayStrength)%nat →
        check akshare index_pct symbol j = Pass) →
  intraday akshare symbol = inr intraday_df →
  ticks intraday_df = first :: rest →
  (price first =? 0) = true →
  (price_column intraday_df = Some object →
     stock_pct intraday_df = inl ZeroDivisionError
     ∧ loop_body akshare index_pct symbol st
       = (Continue,
          bump_state EvaluationError
            (add_calls (calls_through akshare symbol IntradayStrength)
               (count_state st)))
     ∧ count_of EvaluationError (loop_body akshare index_pct symbol st).2
       = S (count_of EvaluationError st)
     ∧ count_of WeakIntraday (loop_body akshare index_pct symbol st).2
       = count_of WeakIntraday st)
  ∧ (price_column intraday_df = Some float64 →
     ∃ session_return,
       stock_pct intraday_df = inr session_return
       ∧ is_finite session_return = false
       ∧ count_of EvaluationError (loop_body akshare index_pct symbol st).2
         = count_of EvaluationError st).
Proof.
  intros Hst Hpass Hi Hticks Hz.
  pose proof (loop_body_stage_9 akshare index_pct symbol st Hst Hpass)
    as Hrun.
  pose proof (Hpass DailyPriceMove ltac:(simpl; lia)) as H3.
  assert (∃ daily_df today, stock_zh_a_hist akshare symbol = inr daily_df
                            ∧ iloc_neg 1 daily_df = inr today)
    as (daily_df & today & Hd & Ht).
  { unfold check, on_bars in H3.
    destruct (stock_zh_a_hist akshare symbol) as [|daily_df]; [done|].
    destruct (iloc_neg 1 daily_df) as [|today] eqn:Ht; [done|].
    by exists daily_df, today. }
  pose proof (stage_9_check akshare index_pct symbol daily_df today
                Hd Ht Hpass) as H9.
  rewrite Hi in H9.
  rewrite bool_decide_eq_false_2 in H9 by by rewrite Hticks.
  destruct (iloc_neg_inr 1 (map price (first :: rest))) as [last Hl];
    [simpl; lia|].
  split.
  - intros Hprice.
    assert (stock_pct intraday_df = inl ZeroDivisionError) as Hs.
    { unfold stock_pct, price_series. rewrite Hprice, Hticks, Hl.
      cbn [map iloc_0 truediv]. by rewrite Hz. }
    split; [done|].
    assert (check akshare index_pct symbol IntradayStrength = Error) as He.
    { rewrite H9, Hs. by destruct (vwap intraday_df). }
    rewrite He in Hrun. rewrite Hrun. split; [done|]. cbn [snd].
    pose proof (has_reasons_elem (rejected st) EvaluationError Hst
                  EvaluationError_in) as [n Hn].
    unfold count_of, bump_state. cbn [rejected add_calls count_state].
    rewrite Hn. cbn [rejected]. rewrite lookup_insert.
    rewrite lookup_insert_ne by done. split; [|done].
    by rewrite decide_True.
  - intros Hprice.
    assert (stock_pct intraday_df
            = inr ((last - price first) / price first * 100)) as Hs.
    { unfold stock_pct, price_series. rewrite Hprice, Hticks, Hl.
      by cbn [map iloc_0 truediv]. }
    eexists. split; [done|]. split; [by apply div_zero_times_100|].
    assert (∃ b, check akshare index_pct symbol IntradayStrength = fail_if b)
      as [b Hb].
    { rewrite H9, Hs. unfold vwap, price_series. rewrite Hprice. eauto. }
    rewrite Hb in Hrun. rewrite Hrun. destruct b; cbn [fail_if snd].
    + pose proof (has_reasons_elem (rejected st) WeakIntraday Hst
                    (reason_in IntradayStrength)) as [n Hn].
      unfold count_of, bump_state. cbn [rejected add_calls count_state].
      rewrite Hn. cbn [rejected]. by rewrite lookup_insert_ne.
    + done.
Qed.

Lemma zero_first_tick_is_unguarded_witness :
  stock_pct {| time_column := true; price_column := Some object;
               ticks := [tick 52200 0; tick 54000 104] |}
  = inl ZeroDivisionError
  ∧ loop_body env_zero_tick_object (benchmark env_zero_tick_object "000300")
      "600000" (entry_state env_zero_tick_object st_nil)
    = (Continue,
       bump_state EvaluationError
         (add_calls
            (calls_through env_zero_tick_object "600000" IntradayStrength)
            (count_state (entry_state env_zero_tick_object st_nil))))
  ∧ count_of EvaluationError
      (loop_body env_zero_tick_object
         (benchmark env_zero_tick_object "000300") "600000"
         (entry_state env_zero_tick_object st_nil)).2
    = 1%nat
  ∧ count_of WeakIntraday
      (loop_body env_zero_tick_object
         (benchmark env_zero_tick_object "000300") "600000"
         (entry_state env_zero_tick_object st_nil)).2
    = 0%nat
  ∧ ∃ session_return,
      stock_pct (minute_frame [tick 52200 0; tick 54000 104])
      = inr session_return
      ∧ is_finite session_return = false
      ∧ count_of EvaluationError
          (loop_body env_zero_tick (benchmark env_zero_tick "000300")
             "600000" (entry_state env_zero_tick st_nil)).2
        = count_of EvaluationError (entry_state env_zero_tick st_nil).
Proof.
  destruct (zero_first_tick_is_unguarded env_zero_tick_object
              (benchmark env_zero_tick_object "000300") "600000"
              (entry_state env_zero_tick_object st_nil)
              {| time_column := true; price_column := Some object;
                 ticks := [tick 52200 0; tick 54000 104] |}
              (tick 52200 0) [tick 54000 104]
              has_reasons_init ltac:(earlier_stages_pass)
              ltac:(by vm_compute) eq_refl ltac:(by vm_compute))
    as [Hobject _].
  destruct (zero_first_tick_is_unguarded env_zero_tick
              (benchmark env_zero_tick "000300") "600000"
              (entry_state env_zero_tick st_nil)
              (minute_frame [tick 52200 0; tick 54000 104])
              (tick 52200 0) [tick 54000 104]
              has_reasons_init ltac:(earlier_stages_pass)
              ltac:(by vm_compute) eq_refl ltac:(by vm_compute))
    as [_ Hfloat].
  destruct (Hobject eq_refl) as (H1 & H2 & H3 & H4).
  split; [exact H1|]. split; [exact H2|]. split; [exact H3|].
  split; [exact H4|]. exact (Hfloat eq_refl).
Defined.

(** * Further properties of the program *)

(** ** More on binary64 numbers *)

(** The sign of a rounded product or quotient is the sign asked for,
    unless the result is a NaN. *)
Lemma binary_round_aux_sign sx mx ex lx :
  let r := binary_round_aux prec emax sx mx ex lx in
  r = S754_nan ∨ r = S754_zero sx ∨ r = S754_infinity sx
  ∨ ∃ m e, r = S754_finite sx m e.
Proof.
  unfold binary_round_aux.
  destruct (shr_fexp prec emax mx ex lx) as [mrs' e'].
  destruct (shr_fexp prec emax _ e' loc_Exact) as [mrs'' e''].
  destruct (shr_m mrs''); [by auto| |by auto].
  destruct (_ <=? _)%Z; eauto 6.
Qed.

Lemma SFcompare_refl p : p ≠ S754_nan → SFcompare p p = Some Eq.
Proof.
  destruct p as [[]|[]| |[] m e]; simpl; try done;
    by rewrite Z.compare_refl, Pos.compare_cont_refl.
Qed.

(** A NaN is the number that is not equal to itself. *)
Lemma is_nan_inv (x : float) : is_nan x = true → Prim2SF x = S754_nan.
Proof.
  unfold is_nan. rewrite FloatAxioms.eqb_spec. unfold SFeqb.
  destruct (Prim2SF x) as [s|s| |s m e] eqn:E; [| |done|];
    by rewrite SFcompare_refl.
Qed.

(** Nothing is below a NaN, and a NaN plus a number is a NaN. *)
Lemma ltb_nan_r (x y : float) : is_nan y = true → (x <? y) = false.
Proof.
  intros Hy%is_nan_inv. rewrite ltb_spec, Hy. unfold SFltb.
  by destruct (Prim2SF x).
Qed.

Lemma add_nan_l (x y : float) : is_nan x = true → is_nan (x + y) = true.
Proof.
  intros Hx%is_nan_inv. unfold is_nan.
  rewrite FloatAxioms.eqb_spec, add_spec, Hx. done.
Qed.

(** A market value whose 70 % lies between 50e8 and 200e8 is a positive
    finite number. *)
Lemma float_mv_in_range_positive (total_mv : float) :
  (50e8 <=? est_float_mv total_mv) && (est_float_mv total_mv <=? 200e8) = true →
  (0 <? total_mv) = true ∧ is_finite total_mv = true.
Proof.
  unfold est_float_mv. rewrite !leb_spec, ltb_spec, mul_spec.
  unfold is_finite, is_nan, is_infinity.
  rewrite !FloatAxioms.eqb_spec, abs_spec.
  change (Prim2SF 0) with (S754_zero false).
  change (Prim2SF infinity) with (S754_infinity false).
  set (c := Prim2SF 0.7). set (lo := Prim2SF 50e8). set (hi := Prim2SF 200e8).
  vm_compute in c, lo, hi. subst c lo hi.
  unfold SF64mul.
  destruct (Prim2SF total_mv) as [[]|[]| |[] m e] eqn:E; simpl; try done.
  - pose proof (binary_round_aux_sign true (Z.pos (m * 6305039478318694)) (e + -53) loc_Exact) as H.
    cbv zeta in H. fold prec in H.
    destruct H as [-> | [-> | [-> | (m' & e' & ->)]]]; done.
  - intros _. split; [done|].
    unfold SFeqb. by rewrite SFcompare_refl.
Qed.

Lemma ltb_nan_l (x y : float) : is_nan x = true → (x <? y) = false.
Proof.
  intros Hx%is_nan_inv. by rewrite ltb_spec, Hx.
Qed.

Lemma leb_nan_l (x y : float) : is_nan x = true → (x <=? y) = false.
Proof.
  intros Hx%is_nan_inv. by rewrite leb_spec, Hx.
Qed.

Lemma div_nan_r (x y : float) : is_nan y = true → is_nan (x / y) = true.
Proof.
  intros Hy%is_nan_inv. unfold is_nan.
  rewrite FloatAxioms.eqb_spec, div_spec, Hy. unfold SF64div.
  by destruct (Prim2SF x).
Qed.

(** ** What [get_float_share_and_mv] computes *)

Lemma valuation_eq akshare symbol :
  valuation akshare symbol
  = match stock_a_indicator_lg akshare symbol with
    | inl _ => (None, None)
    | inr df =>
        if ind_empty df then (None, None) else
        match stock_zh_a_spot_em akshare with
        | inl _ => (None, None)
        | inr rows =>
            match ind_total_mv df with
            | None | Some [] => (None, None)
            | Some (x :: _) =>
                (match filter (fun r => code r = symbol) rows with
                 | r :: _ =>
                     if negb (x * 1e8 =? 0) && negb (latest_price r =? 0)
                        && (0 <? latest_price r)
                     then Some (x * 1e8 / latest_price r * 0.7)
                     else None
                 | [] => None
                 end,
                 Some (x * 1e8))
            end
        end
    end.
Proof.
  unfold valuation, get_float_share_and_mv.
  cbv [mbind M_bind m_bind mret M_ret m_ret try_except ak lift raise].
  simpl.
  destruct (stock_a_indicator_lg akshare symbol) as [e|df]; simpl; [done|].
  destruct (ind_empty df); simpl; [done|].
  destruct (stock_zh_a_spot_em akshare) as [e|rows]; simpl; [done|].
  destruct (ind_total_mv df) as [[|x col]|]; simpl; try done.
  by destruct (filter _ rows).
Qed.

(** X1.  [get_float_share_and_mv] never raises: it always returns a pair and
    logs its calls.  The pair is (None, None) when the indicator call
    raises or its frame is empty, and the spot table is then not fetched;
    it is (None, None) as well, after both calls, when the spot call
    raises or the indicator frame has no [total_mv] column or an empty
    one. *)
Theorem get_float_share_and_mv_absorbs_failures akshare symbol st :
  (∃ v, get_float_share_and_mv akshare symbol st
        = (Val v, add_calls (valuation_calls akshare symbol) st))
  ∧ (∀ e, stock_a_indicator_lg akshare symbol = inl e →
       get_float_share_and_mv akshare symbol st
       = (Val (None, None), add_calls [Call_stock_a_indicator_lg symbol] st))
  ∧ (∀ df, stock_a_indicator_lg akshare symbol = inr df →
       ind_empty df = true →
       get_float_share_and_mv akshare symbol st
       = (Val (None, None), add_calls [Call_stock_a_indicator_lg symbol] st))
  ∧ (∀ df, stock_a_indicator_lg akshare symbol = inr df →
       ind_empty df = false →
       (∃ e, stock_zh_a_spot_em akshare = inl e)
       ∨ ind_total_mv df = None ∨ ind_total_mv df = Some [] →
       get_float_share_and_mv akshare symbol st
       = (Val (None, None),
          add_calls [Call_stock_a_indicator_lg symbol; Call_stock_zh_a_spot_em]
            st)).
Proof.
  split; [eexists; apply get_float_share_and_mv_run|].
  unfold get_float_share_and_mv, add_calls.
  cbv [mbind M_bind m_bind mret M_ret m_ret try_except ak lift raise].
  split; [|split].
  - by intros e ->.
  - by intros df -> ->.
  - intros df -> -> H. simpl.
    destruct (stock_zh_a_spot_em akshare) as [e|rows]; simpl;
      [by rewrite <- app_assoc|].
    destruct H as [[e He]|[-> | ->]]; [done|..]; simpl;
      by rewrite <- app_assoc.
Qed.

Lemma get_float_share_and_mv_absorbs_failures_witness :
  get_float_share_and_mv env_no_indicator "600000" st_nil
  = (Val (None, None), add_calls [Call_stock_a_indicator_lg "600000"] st_nil)
  ∧ get_float_share_and_mv env_no_spot "600000" st_nil
    = (Val (None, None),
       add_calls [Call_stock_a_indicator_lg "600000"; Call_stock_zh_a_spot_em]
         st_nil)
  ∧ get_float_share_and_mv env_C "600000" st_nil
    = (Val (None, None),
       add_calls [Call_stock_a_indicator_lg "600000"; Call_stock_zh_a_spot_em]
         st_nil).
Proof.
  split; [|split].
  - apply (get_float_share_and_mv_absorbs_failures env_no_indicator "600000"
             st_nil) with (e := ProviderError "timeout").
    reflexivity.
  - apply (get_float_share_and_mv_absorbs_failures env_no_spot "600000"
             st_nil) with (df := indicator 200); [reflexivity..|].
    left. eexists. reflexivity.
  - apply (get_float_share_and_mv_absorbs_failures env_C "600000" st_nil)
      with (df := {| ind_empty := false; ind_total_mv := None |});
      [reflexivity..|].
    right. by left.
Defined.

(** X2.  A float share is only computed from a market value and a positive
    spot price.  When [get_float_share_and_mv] returns no market value it
    returns no float share; and a float share it returns is
    total_mv / price * 0.7 for the first spot row of the symbol, where the
    price is above 0 and the market value is not zero. *)
Theorem float_share_needs_a_positive_price akshare symbol st float_share total_mv :
  (get_float_share_and_mv akshare symbol st).1 = Val (float_share, total_mv) →
  (total_mv = None → float_share = None)
  ∧ (∀ fs, float_share = Some fs →
       ∃ mv rows r rest,
         total_mv = Some mv
         ∧ stock_zh_a_spot_em akshare = inr rows
         ∧ filter (fun r => code r = symbol) rows = r :: rest
         ∧ (0 <? latest_price r) = true
         ∧ (mv =? 0) = false
         ∧ fs = mv / latest_price r * 0.7).
Proof.
  rewrite get_float_share_and_mv_run. cbn [fst]. rewrite valuation_eq.
  intros H.
  destruct (stock_a_indicator_lg akshare symbol) as [e|df];
    [by injection H as <- <-|].
  destruct (ind_empty df); [by injection H as <- <-|].
  destruct (stock_zh_a_spot_em akshare) as [e|rows];
    [by injection H as <- <-|].
  destruct (ind_total_mv df) as [[|x col]|]; try by injection H as <- <-.
  injection H as <- <-. split; [done|].
  intros fs Hfs.
  destruct (filter _ rows) as [|r rest] eqn:Hr; [done|].
  destruct (x * 1e8 =? 0) eqn:Hmv; [done|].
  destruct (latest_price r =? 0); [done|].
  destruct (0 <? latest_price r) eqn:Hp; [|done].
  simpl in Hfs. injection Hfs as <-.
  by exists (x * 1e8), rows, r, rest.
Qed.

Lemma float_share_needs_a_positive_price_witness :
  ∃ mv rows r rest,
    Some (200 * 1e8) = Some mv
    ∧ stock_zh_a_spot_em env_A = inr rows
    ∧ filter (fun r => code r = "600000") rows = r :: rest
    ∧ (0 <? latest_price r) = true
    ∧ (mv =? 0) = false
    ∧ 200 * 1e8 / 104 * 0.7 = mv / latest_price r * 0.7.
Proof.
  apply (float_share_needs_a_positive_price env_A "600000" st_nil
           (Some (200 * 1e8 / 104 * 0.7)) (Some (200 * 1e8)));
    by vm_compute.
Defined.

(** X3.  A symbol without a usable spot price is rejected at stage 2.  When
    the daily frame has 20 rows or more and the spot table has no row for
    the symbol with a price above 0 (no row at all, a price of 0, a
    negative or a missing price), the iteration ends under the valuation
    key, whatever the indicator frame holds. *)
Theorem no_usable_price_no_valuation akshare index_pct symbol st daily_df rows :
  has_reasons (rejected st) →
  stock_zh_a_hist akshare symbol = inr daily_df →
  (20 ≤ length daily_df)%nat →
  stock_zh_a_spot_em akshare = inr rows →
  (∀ r, r ∈ rows → code r = symbol → (0 <? latest_price r) = false) →
  loop_body akshare index_pct symbol st
  = (Continue,
     bump_state NoValuationData
       (add_calls (calls_through akshare symbol ValuationAvailability)
          (count_state st))).
Proof.
  intros Hst Hd Hlen Hrows Hprice.
  assert (check akshare index_pct symbol MinimumHistory = Pass) as H1.
  { cbn [check]. rewrite Hd.
    by rewrite (proj2 (Nat.ltb_ge (length daily_df) 20)). }
  apply (loop_body_fail akshare index_pct symbol ValuationAvailability);
    [done| |].
  - intros j Hj. destruct j; simpl in Hj; try lia; done.
  - cbn [check]. rewrite valuation_eq, Hrows.
    destruct (stock_a_indicator_lg akshare symbol) as [e|df]; [done|].
    destruct (ind_empty df); [done|].
    destruct (ind_total_mv df) as [[|x col]|]; try done.
    destruct (filter _ rows) as [|r rest] eqn:Hr; [done|].
    assert (r ∈ filter (fun r => code r = symbol) rows) as Hin
      by (rewrite Hr; apply list_elem_of_here).
    apply list_elem_of_filter in Hin as [Hc Hin].
    rewrite (Hprice r Hin Hc). by rewrite andb_false_r.
Qed.

Lemma no_usable_price_no_valuation_witness :
  loop_body env_A (benchmark env_A "000300") "300750"
    (entry_state env_A st_nil)
  = (Continue,
     bump_state NoValuationData
       (add_calls (calls_through env_A "300750" ValuationAvailability)
          (count_state (entry_state env_A st_nil))))
  ∧ loop_body env_zero_price (benchmark env_zero_price "000300") "600000"
      (entry_state env_zero_price st_nil)
    = (Continue,
       bump_state NoValuationData
         (add_calls (calls_through env_zero_price "600000" ValuationAvailability)
            (count_state (entry_state env_zero_price st_nil)))).
Proof.
  split.
  - apply (no_usable_price_no_valuation env_A _ "300750" _ (bars 104 1.2e7)
             [ {| code := "000001"; latest_price := 12 |};
               {| code := "600000"; latest_price := 104 |} ]).
    + apply has_reasons_init.
    + reflexivity.
    + vm_compute. lia.
    + reflexivity.
    + intros r Hr Hc.
      repeat (apply elem_of_cons in Hr as [->|Hr]);
        [by simpl in Hc..|by apply elem_of_nil in Hr].
  - apply (no_usable_price_no_valuation env_zero_price _ "600000" _
             (bars 104 1.2e7) [ {| code := "600000"; latest_price := 0 |} ]).
    + apply has_reasons_init.
    + reflexivity.
    + vm_compute. lia.
    + reflexivity.
    + intros r Hr Hc.
      apply elem_of_cons in Hr as [->|Hr]; [by vm_compute|].
      by apply elem_of_nil in Hr.
Defined.

(** X4.  The second index source is tried only after a failed call.  When
    the first index call returns a frame it is the only index call, also
    when that frame has no '收盘' column or no row, and the result is then
    the fallback 0; when the first call raises, the second one is made,
    on the symbol prefixed with sh. *)
Theorem index_fallback_only_on_a_failed_call akshare index_symbol st :
  (∀ df, index_zh_a_hist akshare index_symbol = inr df →
     (get_index_data akshare index_symbol st).2
     = add_calls [Call_index_zh_a_hist index_symbol] st)
  ∧ (∀ e, index_zh_a_hist akshare index_symbol = inl e →
       (get_index_data akshare index_symbol st).2
       = add_calls [Call_index_zh_a_hist index_symbol;
                    Call_stock_zh_index_daily ("sh" +:+ index_symbol)] st)
  ∧ (∀ df, index_zh_a_hist akshare index_symbol = inr df →
       idx_close df = None ∨ idx_close df = Some [] →
       get_index_data akshare index_symbol st
       = (Val 0, add_calls [Call_index_zh_a_hist index_symbol] st)).
Proof.
  unfold get_index_data, add_calls.
  cbv [mbind M_bind m_bind mret M_ret m_ret try_except ak lift raise].
  split; [|split].
  - intros df ->. simpl. destruct (idx_close df) as [col|]; [|done].
    by destruct (pct_change_last col).
  - intros e ->. simpl.
    destruct (stock_zh_index_daily akshare _) as [e'|df]; simpl;
      [by rewrite <- app_assoc|].
    destruct (idx_close df) as [col|]; simpl; [|by rewrite <- app_assoc].
    destruct (pct_change_last col); simpl; by rewrite <- app_assoc.
  - intros df -> [-> | ->]; done.
Qed.

Lemma index_fallback_only_on_a_failed_call_witness :
  (get_index_data env_A "000300" st_nil).2
  = add_calls [Call_index_zh_a_hist "000300"] st_nil
  ∧ (get_index_data env_index_fallback "000300" st_nil).2
    = add_calls [Call_index_zh_a_hist "000300";
                 Call_stock_zh_index_daily ("sh" +:+ "000300")] st_nil
  ∧ get_index_data env_index_no_column "000300" st_nil
    = (Val 0, add_calls [Call_index_zh_a_hist "000300"] st_nil).
Proof.
  split; [|split].
  - by apply (index_fallback_only_on_a_failed_call env_A "000300" st_nil)
      with (df := index_A).
  - by apply (index_fallback_only_on_a_failed_call env_index_fallback "000300"
                st_nil) with (e := ProviderError "timeout").
  - apply (index_fallback_only_on_a_failed_call env_index_no_column "000300"
             st_nil) with (df := {| idx_close := None |}); [done|by left].
Defined.

(** X5.  A NaN index return switches the comparison with the index off.  For
    a symbol that passes stages 1 to 8 and whose mean price and return are
    computed, an index return that is NaN (what [get_index_data] gives on
    a one-row frame) leaves the close and the mean price to decide alone:
    the symbol is selected unless its close is below the mean price,
    whatever its return of the last half hour. *)
Theorem nan_benchmark_switches_the_comparison_off
    akshare index_pct symbol st daily_df today intraday_df
    mean_price session_return :
  has_reasons (rejected st) →
  is_nan index_pct = true →
  stock_zh_a_hist akshare symbol = inr daily_df →
  iloc_neg 1 daily_df = inr today →
  intraday akshare symbol = inr intraday_df →
  ticks intraday_df ≠ [] →
  vwap intraday_df = inr mean_price →
  stock_pct intraday_df = inr session_return →
  (∀ j, (stage_index j < stage_index IntradayStrength)%nat →
        check akshare index_pct symbol j = Pass) →
  loop_body akshare index_pct symbol st
  = if close today <? mean_price
    then (Continue,
          bump_state WeakIntraday
            (add_calls (calls_through akshare symbol IntradayStrength)
               (count_state st)))
    else (Val tt,
          select_state symbol
            (add_calls (calls_through akshare symbol IntradayStrength)
               (count_state st))).
Proof.
  intros Hst Hnan Hd Ht Hi Hne Hw Hs Hpass.
  rewrite (loop_body_stage_9 akshare index_pct symbol st Hst Hpass).
  rewrite (stage_9_check akshare index_pct symbol daily_df today Hd Ht Hpass).
  rewrite Hi, bool_decide_eq_false_2, Hw, Hs by done.
  rewrite (ltb_nan_r _ (index_pct + 1)) by by apply add_nan_l.
  rewrite orb_false_r. by destruct (close today <? mean_price).
Qed.

Lemma nan_benchmark_switches_the_comparison_off_witness :
  loop_body env_nan_index_falling (benchmark env_nan_index_falling "000300")
    "600000" (entry_state env_nan_index_falling st_nil)
  = (Val tt,
     select_state "600000"
       (add_calls (calls_through env_nan_index_falling "600000" IntradayStrength)
          (count_state (entry_state env_nan_index_falling st_nil)))).
Proof.
  apply (nan_benchmark_switches_the_comparison_off env_nan_index_falling
           (benchmark env_nan_index_falling "000300") "600000"
           (entry_state env_nan_index_falling st_nil)
           (bars 104 1.2e7) (bar 24 104 1.2e7) (minute_frame ticks_falling)
           102 (-3.8461538461538463)).
  - apply has_reasons_init.
  - by vm_compute.
  - reflexivity.
  - by vm_compute.
  - by vm_compute.
  - done.
  - by vm_compute.
  - by vm_compute.
  - earlier_stages_pass.
Defined.

(** ** What a pass means, and what an error means *)

Section Verdicts.

Context (akshare : Provider) (index_pct : float) (symbol : string).

(** A symbol is let through only with every condition met. *)
Lemma all_pass_inv :
  (∀ j, check akshare index_pct symbol j = Pass) →
  ∃ daily_df today prev_day float_share total_mv intraday_df
    mean_price session_return,
    meets_every_test akshare index_pct symbol daily_df today prev_day
      float_share total_mv intraday_df mean_price session_return.
Proof.
  intros Hpass.
  pose proof (Hpass MinimumHistory) as H1.
  pose proof (Hpass ValuationAvailability) as H2.
  pose proof (Hpass DailyPriceMove) as H3.
  pose proof (Hpass VolumeSurge) as H4.
  pose proof (Hpass Turnover) as H5.
  pose proof (Hpass FloatMarketValue) as H6.
  pose proof (Hpass VolumeStability) as H7.
  pose proof (Hpass BandHeadroom) as H8.
  pose proof (Hpass IntradayStrength) as H9.
  unfold check, on_bars, on_total_mv in *.
  destruct (stock_zh_a_hist akshare symbol) as [|daily_df] eqn:Hd; [done|].
  destruct (length daily_df <? 20)%nat eqn:Hlen; [done|].
  apply Nat.ltb_ge in Hlen.
  destruct (iloc_neg 1 daily_df) as [|today] eqn:Ht; [done|].
  destruct (iloc_neg 2 daily_df) as [|prev_day] eqn:Hp; [done|].
  destruct (valuation akshare symbol) as [[fs|] [mv|]] eqn:Hv;
    cbn [fst snd truthy negb number] in *;
    rewrite ?orb_true_r in H2; try done.
  destruct (fs =? 0) eqn:Hfs; [done|].
  destruct (mv =? 0) eqn:Hmv; [done|].
  destruct (intraday akshare symbol) as [|intraday_df] eqn:Hi; [done|].
  destruct (bool_decide (ticks intraday_df = [])) eqn:Hne; [done|].
  apply bool_decide_eq_false in Hne.
  destruct (vwap intraday_df) as [|mean_price] eqn:Hw; [done|].
  destruct (stock_pct intraday_df) as [|session_return] eqn:Hs; [done|].
  exists daily_df, today, prev_day, fs, mv, intraday_df, mean_price,
    session_return.
  unfold meets_every_test.
  destruct (3 <=? _); [|done]. destruct (_ <=? 5); [|done].
  destruct (_ <? 1); [done|].
  destruct (5 <=? _); [|done]. destruct (_ <=? 10); [|done].
  destruct (50e8 <=? _); [|done]. destruct (_ <=? 200e8); [|done].
  destruct (0.5 <? _); [done|]. destruct (_ <? 3); [done|].
  destruct (close today <? mean_price); [done|].
  destruct (session_return <? index_pct + 1); [done|].
  repeat (split; [done|]). done.
Qed.

Lemma evaluate_passed_inv :
  evaluate akshare index_pct symbol = Passed →
  ∀ j, check akshare index_pct symbol j = Pass.
Proof.
  unfold evaluate, stages. cbn [first_stop].
  intros H j.
  destruct (check akshare index_pct symbol MinimumHistory) eqn:H1; try done.
  destruct (check akshare index_pct symbol ValuationAvailability) eqn:H2;
    try done.
  destruct (check akshare index_pct symbol DailyPriceMove) eqn:H3; try done.
  destruct (check akshare index_pct symbol VolumeSurge) eqn:H4; try done.
  destruct (check akshare index_pct symbol Turnover) eqn:H5; try done.
  destruct (check akshare index_pct symbol FloatMarketValue) eqn:H6;
    try done.
  destruct (check akshare index_pct symbol VolumeStability) eqn:H7; try done.
  destruct (check akshare index_pct symbol BandHeadroom) eqn:H8; try done.
  destruct (check akshare index_pct symbol IntradayStrength) eqn:H9;
    try done.
  by destruct j.
Qed.

(** The tests before the one the chain stops at have passed. *)
Lemma first_stop_earlier k c :
  first_stop (check akshare index_pct symbol) stages = Some (k, c) →
  ∀ j, (stage_index j < stage_index k)%nat →
       check akshare index_pct symbol j = Pass.
Proof.
  unfold stages. cbn [first_stop]. intros Hs j Hj. revert Hs.
  destruct (check akshare index_pct symbol MinimumHistory) eqn:H1;
    [|intros [= <- <-]; destruct j; simpl in Hj; lia..].
  destruct (check akshare index_pct symbol ValuationAvailability) eqn:H2;
    [|intros [= <- <-]; destruct j; simpl in Hj; try lia; done..].
  destruct (check akshare index_pct symbol DailyPriceMove) eqn:H3;
    [|intros [= <- <-]; destruct j; simpl in Hj; try lia; done..].
  destruct (check akshare index_pct symbol VolumeSurge) eqn:H4;
    [|intros [= <- <-]; destruct j; simpl in Hj; try lia; done..].
  destruct (check akshare index_pct symbol Turnover) eqn:H5;
    [|intros [= <- <-]; destruct j; simpl in Hj; try lia; done..].
  destruct (check akshare index_pct symbol FloatMarketValue) eqn:H6;
    [|intros [= <- <-]; destruct j; simpl in Hj; try lia; done..].
  destruct (check akshare index_pct symbol VolumeStability) eqn:H7;
    [|intros [= <- <-]; destruct j; simpl in Hj; try lia; done..].
  destruct (check akshare index_pct symbol BandHeadroom) eqn:H8;
    [|intros [= <- <-]; destruct j; simpl in Hj; try lia; done..].
  destruct (check akshare index_pct symbol IntradayStrength) eqn:H9;
    [done|intros [= <- <-]; destruct j; simpl in Hj; try lia; done..].
Qed.

(** The verdict is the reason of a stage exactly when that stage fails
    after the stages before it have passed. *)
Lemma evaluate_reason_iff k :
  evaluate akshare index_pct symbol = Rejected (reason k)
  ↔ check akshare index_pct symbol k = Fail
    ∧ ∀ j, (stage_index j < stage_index k)%nat →
           check akshare index_pct symbol j = Pass.
Proof.
  split.
  - intros Hv. unfold evaluate in Hv.
    destruct (first_stop _ _) as [[k' c]|] eqn:Hs; [|done].
    pose proof (first_stop_sound _ _ _ _ Hs) as (Hk & Hc & _).
    pose proof (first_stop_earlier _ _ Hs) as He.
    destruct c; [done| |].
    + injection Hv as Hv%reason_inj. by subst k'.
    + injection Hv as Hv. symmetry in Hv.
      by apply reason_not_catch_all in Hv.
  - intros [Hk Hpass].
    by destruct (evaluate_fail akshare index_pct symbol k Hpass Hk).
Qed.

(** Only the first and the last test can raise once the tests before
    them have passed. *)
Lemma first_stop_error_inv k :
  first_stop (check akshare index_pct symbol) stages = Some (k, Error) →
  (k = MinimumHistory ∧ ∃ e, stock_zh_a_hist akshare symbol = inl e)
  ∨ k = IntradayStrength.
Proof.
  unfold stages. cbn [first_stop].
  unfold check, on_bars, on_total_mv.
  destruct (stock_zh_a_hist akshare symbol) as [e|daily_df].
  { intros [= <-]. left. eauto. }
  destruct (length daily_df <? 20)%nat eqn:Hlen; [done|].
  apply Nat.ltb_ge in Hlen.
  destruct (iloc_neg_inr 1 daily_df) as [today ->]; [lia|].
  destruct (iloc_neg_inr 2 daily_df) as [prev_day ->]; [lia|].
  destruct (valuation akshare symbol) as [fs mv]. cbn [fst snd fail_if].
  destruct (negb (truthy fs) || negb (truthy mv)) eqn:H2; [done|].
  destruct mv as [mv|];
    [|by cbn [truthy negb] in H2; rewrite orb_true_r in H2].
  cbn [number]. clear H2.
  destruct (negb (_ && _)); [done|]. cbn [fail_if].
  destruct (_ <? 1); [done|]. cbn [fail_if].
  destruct (negb (_ && _)); [done|]. cbn [fail_if].
  destruct (negb (_ && _)); [done|]. cbn [fail_if].
  destruct (0.5 <? _); [done|]. cbn [fail_if].
  destruct (_ <? 3); [done|]. cbn [fail_if].
  match goal with
  | |- match ?c with _ => _ end = _ → _ => destruct c
  end; [done|done|].
  intros [= <-]. by right.
Qed.

(** Eight passes leave a daily frame with a last row. *)
Lemma passes_give_bars :
  (∀ j, (stage_index j < stage_index IntradayStrength)%nat →
        check akshare index_pct symbol j = Pass) →
  ∃ daily_df today,
    stock_zh_a_hist akshare symbol = inr daily_df
    ∧ iloc_neg 1 daily_df = inr today.
Proof.
  intros Hpass.
  pose proof (Hpass DailyPriceMove ltac:(simpl; lia)) as H3.
  unfold check, on_bars in H3.
  destruct (stock_zh_a_hist akshare symbol) as [|daily_df]; [done|].
  destruct (iloc_neg 1 daily_df) as [|today] eqn:Ht; [done|].
  by exists daily_df, today.
Qed.

(** What makes the ninth test raise, in terms of the answer to the minute
    call. *)
Lemma stage_9_error_iff :
  (∀ j, (stage_index j < stage_index IntradayStrength)%nat →
        check akshare index_pct symbol j = Pass) →
  check akshare index_pct symbol IntradayStrength = Error
  ↔ (∃ e, stock_zh_a_minute akshare symbol = inl e)
    ∨ (∃ df, stock_zh_a_minute akshare symbol = inr df
             ∧ (time_column df = false
                ∨ ∃ first rest,
                    time_column df = true
                    ∧ filter (fun t => (52200 ≤ time t)%Z) (ticks df)
                      = first :: rest
                    ∧ (price_column df = None
                       ∨ (price_column df = Some object
                          ∧ (price first =? 0) = true)))).
Proof.
  intros Hpass.
  destruct (passes_give_bars Hpass) as (daily_df & today & Hd & Ht).
  rewrite (stage_9_check akshare index_pct symbol daily_df today Hd Ht Hpass).
  unfold intraday.
  destruct (stock_zh_a_minute akshare symbol) as [e|df].
  { split; [eauto|done]. }
  unfold last_half_hour.
  destruct (time_column df) eqn:Hcol.
  2: { split; [|done]. intros _. right. exists df. auto. }
  cbn [ticks].
  destruct (filter (fun t => (52200 ≤ time t)%Z) (ticks df))
    as [|first rest] eqn:Hkept.
  { rewrite bool_decide_eq_true_2 by done. split; [done|].
    intros [[e [=]]|(df' & [= <-] & [?|(f & r & _ & ? & _)])]; congruence. }
  rewrite bool_decide_eq_false_2 by done.
  unfold vwap, stock_pct, price_series. cbn [price_column ticks].
  destruct (iloc_neg_inr 1 (map price (first :: rest))) as [last Hl];
    [simpl; lia|].
  destruct (price_column df) as [[]|] eqn:Hprice;
    rewrite ?Hl; cbn [map iloc_0 truediv].
  - split; [by destruct (_ || _)|].
    intros [[e [=]]|(df' & [= <-] & [?|(f & r & _ & Hk & Hcase)])];
      [congruence|].
    rewrite Hkept in Hk. injection Hk as <- <-.
    destruct Hcase as [?|[? ?]]; congruence.
  - destruct (price first =? 0) eqn:Hz.
    + split; [|done]. intros _. right. exists df. split; [done|]. right.
      exists first, rest. auto.
    + split; [by destruct (_ || _)|].
      intros [[e [=]]|(df' & [= <-] & [?|(f & r & _ & Hk & Hcase)])];
        [congruence|].
      rewrite Hkept in Hk. injection Hk as <- <-.
      destruct Hcase as [?|[? ?]]; congruence.
  - split; [|done]. intros _. right. exists df. split; [done|]. right.
    exists first, rest. auto.
Qed.

Lemma count_of_record_same key v st :
  is_Some (rejected st !! key) →
  count_of key (record symbol v st)
  = if decide (v = Rejected key) then S (count_of key st)
    else count_of key st.
Proof.
  intros [n Hn]. destruct (decide (v = Rejected key)) as [->|Hne].
  - unfold record, bump_state, count_of. rewrite Hn. simpl.
    by rewrite lookup_insert_eq.
  - by apply count_of_record_other.
Qed.

(** The verdict is the catch-all key exactly when the daily call raises,
    or the ninth test raises after eight passes. *)
Lemma evaluate_catch_all_iff :
  evaluate akshare index_pct symbol = Rejected EvaluationError
  ↔ (∃ e, stock_zh_a_hist akshare symbol = inl e)
    ∨ ((∀ j, (stage_index j < stage_index IntradayStrength)%nat →
             check akshare index_pct symbol j = Pass)
       ∧ check akshare index_pct symbol IntradayStrength = Error).
Proof.
  split.
  - intros Hv. unfold evaluate in Hv.
    destruct (first_stop _ _) as [[k c]|] eqn:Hs; [|done].
    pose proof (first_stop_sound _ _ _ _ Hs) as (Hk & Hc & _).
    pose proof (first_stop_earlier _ _ Hs) as He.
    destruct c; [done|by injection Hv as Hv%reason_not_catch_all|].
    apply first_stop_error_inv in Hs as [[-> Hd]| ->]; [by left|by right].
  - intros [[e He]|[Hpass H9]].
    + apply (evaluate_error akshare index_pct symbol MinimumHistory).
      * intros j Hj. destruct j; simpl in Hj; lia.
      * cbn [check]. by rewrite He.
    + by apply (evaluate_error akshare index_pct symbol IntradayStrength).
Qed.

End Verdicts.

(** X6.  What is counted as an error.  With daily, indicator and spot
    frames that have their columns, one iteration adds one to the
    catch-all counter or leaves it alone, and it adds one exactly when the
    daily call raises, or when stages 1 to 8 pass and then the minute call
    raises, or its frame has no '时间' column, or ticks from 14:30 on are
    retained and the frame has no '成交' column or has one of dtype object
    whose first retained price is zero. *)
Theorem what_counts_as_an_error akshare index_pct symbol st :
  has_reasons (rejected st) →
  (count_of EvaluationError (loop_body akshare index_pct symbol st).2
   = S (count_of EvaluationError st)
   ↔ (∃ e, stock_zh_a_hist akshare symbol = inl e)
     ∨ ((∀ j, (stage_index j < stage_index IntradayStrength)%nat →
              check akshare index_pct symbol j = Pass)
        ∧ ((∃ e, stock_zh_a_minute akshare symbol = inl e)
           ∨ (∃ df, stock_zh_a_minute akshare symbol = inr df
                    ∧ (time_column df = false
                       ∨ ∃ first rest,
                           time_column df = true
                           ∧ filter (fun t => (52200 ≤ time t)%Z) (ticks df)
                             = first :: rest
                           ∧ (price_column df = None
                              ∨ (price_column df = Some object
                                 ∧ (price first =? 0) = true)))))))
  ∧ (count_of EvaluationError (loop_body akshare index_pct symbol st).2
     = count_of EvaluationError st
     ∨ count_of EvaluationError (loop_body akshare index_pct symbol st).2
       = S (count_of EvaluationError st)).
Proof.
  intros Hst. rewrite loop_body_evaluate by done. cbn [snd]. unfold step.
  rewrite count_of_record_same
    by (apply has_reasons_elem; [done|apply EvaluationError_in]).
  change (count_of EvaluationError (add_calls _ (count_state st)))
    with (count_of EvaluationError st).
  assert (evaluate akshare index_pct symbol = Rejected EvaluationError
          ↔ (∃ e, stock_zh_a_hist akshare symbol = inl e)
            ∨ ((∀ j, (stage_index j < stage_index IntradayStrength)%nat →
                     check akshare index_pct symbol j = Pass)
               ∧ ((∃ e, stock_zh_a_minute akshare symbol = inl e)
                  ∨ (∃ df, stock_zh_a_minute akshare symbol = inr df
                      ∧ (time_column df = false
                         ∨ ∃ first rest,
                             time_column df = true
                             ∧ filter (fun t => (52200 ≤ time t)%Z) (ticks df)
                               = first :: rest
                             ∧ (price_column df = None
                                ∨ (price_column df = Some object
                                   ∧ (price first =? 0) = true)))))))
    as Hiff.
  { rewrite evaluate_catch_all_iff. split.
    - intros [?|[Hpass H9]]; [by left|right]. split; [done|].
      by apply (proj1 (stage_9_error_iff akshare index_pct symbol Hpass)).
    - intros [?|[Hpass H9]]; [by left|right]. split; [done|].
      by apply (proj2 (stage_9_error_iff akshare index_pct symbol Hpass)). }
  rewrite <- Hiff.
  destruct (decide _) as [Hv|Hv]; (split; [split|]); auto; try lia.
  by intros ?.
Qed.

Lemma what_counts_as_an_error_witness :
  count_of EvaluationError
    (loop_body env_no_minute (benchmark env_no_minute "000300") "600000"
       (entry_state env_no_minute st_nil)).2
  = S (count_of EvaluationError (entry_state env_no_minute st_nil))
  ∧ count_of EvaluationError
      (loop_body env_no_price_column
         (benchmark env_no_price_column "000300") "600000"
         (entry_state env_no_price_column st_nil)).2
    = S (count_of EvaluationError (entry_state env_no_price_column st_nil)).
Proof.
  split.
  - apply (what_counts_as_an_error env_no_minute
             (benchmark env_no_minute "000300") "600000"
             (entry_state env_no_minute st_nil) has_reasons_init).
    right. split; [earlier_stages_pass|]. left. eexists. reflexivity.
  - apply (what_counts_as_an_error env_no_price_column
             (benchmark env_no_price_column "000300") "600000"
             (entry_state env_no_price_column st_nil) has_reasons_init).
    right. split; [earlier_stages_pass|]. right. eexists.
    split; [reflexivity|]. right.
    exists (tick 52200 100), [tick 53100 102; tick 54000 104].
    split; [done|]. split; [by vm_compute|]. by left.
Defined.

(** X7.  A count names the stage that failed.  One iteration adds one to the
    counter of a stage's reason exactly when the test of that stage fails
    and the tests of all the stages before it pass. *)
Theorem a_count_names_the_stage_that_failed akshare index_pct symbol st k :
  has_reasons (rejected st) →
  count_of (reason k) (loop_body akshare index_pct symbol st).2
  = S (count_of (reason k) st)
  ↔ check akshare index_pct symbol k = Fail
    ∧ ∀ j, (stage_index j < stage_index k)%nat →
           check akshare index_pct symbol j = Pass.
Proof.
  intros Hst. rewrite loop_body_evaluate by done. cbn [snd]. unfold step.
  rewrite count_of_record_same
    by (apply has_reasons_elem; [done|apply reason_in]).
  change (count_of (reason k) (add_calls _ (count_state st)))
    with (count_of (reason k) st).
  rewrite <- evaluate_reason_iff.
  destruct (decide _) as [Hv|Hv]; split; auto; try lia. by intros ?.
Qed.

Lemma a_count_names_the_stage_that_failed_witness :
  check env_B (benchmark env_B "000300") "600000" DailyPriceMove = Fail
  ∧ ∀ j, (stage_index j < stage_index DailyPriceMove)%nat →
         check env_B (benchmark env_B "000300") "600000" j = Pass.
Proof.
  apply (a_count_names_the_stage_that_failed env_B
           (benchmark env_B "000300") "600000" (entry_state env_B st_nil)
           DailyPriceMove has_reasons_init).
  by vm_compute.
Defined.

(** A returned symbol is a symbol of the list whose verdict is a pass. *)
Lemma returned_inv akshare symbol_list st sel symbol :
  (filter_stocks akshare symbol_list st).1 = Val sel →
  symbol ∈ sel →
  symbol ∈ symbol_list
  ∧ evaluate akshare (benchmark akshare "000300") symbol = Passed.
Proof.
  rewrite filter_stocks_run. cbn [fst]. intros [= <-]. unfold final_state.
  rewrite fold_selected by apply has_reasons_init. simpl.
  intros [? ?]%list_elem_of_filter. done.
Qed.

(** X8.  A returned symbol meets every test.  Each symbol of the returned
    list is a symbol of the input list for which every condition of the
    nine stages holds on the frames the provider returns for it. *)
Theorem returned_symbols_meet_every_test akshare symbol_list st sel symbol :
  (filter_stocks akshare symbol_list st).1 = Val sel →
  symbol ∈ sel →
  symbol ∈ symbol_list
  ∧ ∃ daily_df today prev_day float_share total_mv intraday_df
      mean_price session_return,
      meets_every_test akshare (benchmark akshare "000300") symbol
        daily_df today prev_day float_share total_mv intraday_df
        mean_price session_return.
Proof.
  intros Hrun Hin.
  destruct (returned_inv _ _ _ _ _ Hrun Hin) as [Hl Hv].
  split; [done|]. by apply all_pass_inv, evaluate_passed_inv.
Qed.

Lemma returned_symbols_meet_every_test_witness :
  "600000" ∈ ["600000"; "300750"]
  ∧ ∃ daily_df today prev_day float_share total_mv intraday_df
      mean_price session_return,
      meets_every_test env_A (benchmark env_A "000300") "600000"
        daily_df today prev_day float_share total_mv intraday_df
        mean_price session_return.
Proof.
  apply (returned_symbols_meet_every_test env_A ["600000"; "300750"] st_nil
           ["600000"]).
  - by vm_compute.
  - apply list_elem_of_here.
Defined.

(** X9.  A returned symbol has a positive, finite market value.  The truth
    test of stage 2 lets a NaN or a negative market value through; the
    range test of stage 6 does not, so for every returned symbol
    [get_float_share_and_mv] returns two numbers, and the market value is
    a finite number above 0. *)
Theorem returned_symbols_have_a_positive_market_value
    akshare symbol_list st sel symbol :
  (filter_stocks akshare symbol_list st).1 = Val sel →
  symbol ∈ sel →
  ∃ float_share total_mv,
    (get_float_share_and_mv akshare symbol st).1
    = Val (Some float_share, Some total_mv)
    ∧ (0 <? total_mv) = true
    ∧ is_finite total_mv = true.
Proof.
  intros Hrun Hin.
  destruct (returned_inv _ _ _ _ _ Hrun Hin) as [_ Hv].
  destruct (all_pass_inv _ _ _ (evaluate_passed_inv _ _ _ Hv))
    as (daily_df & today & prev_day & fs & mv & intraday_df & mean_price
        & session_return & H).
  destruct H as (_ & _ & _ & _ & Hval & _ & _ & _ & _ & _ & _ & _
                 & Hlo & Hhi & _).
  exists fs, mv. rewrite get_float_share_and_mv_run. cbn [fst].
  split; [by rewrite Hval|].
  apply float_mv_in_range_positive. by rewrite Hlo, Hhi.
Qed.

Lemma returned_symbols_have_a_positive_market_value_witness :
  ∃ float_share total_mv,
    (get_float_share_and_mv env_A "600000" st_nil).1
    = Val (Some float_share, Some total_mv)
    ∧ (0 <? total_mv) = true
    ∧ is_finite total_mv = true.
Proof.
  apply (returned_symbols_have_a_positive_market_value env_A
           ["600000"; "300750"] st_nil ["600000"]).
  - by vm_compute.
  - apply list_elem_of_here.
Defined.

(** X10.  A list can be screened in parts.  With a provider that answers the
    same way each time, the returned list of l1 ++ l2 is the returned
    list of l1 followed by that of l2, and the number processed and the
    count under every key are the sums of those of the two runs. *)
Theorem filter_stocks_of_a_concatenation akshare l1 l2 st :
  let run l := (filter_stocks akshare l st).2 in
  (filter_stocks akshare (l1 ++ l2) st).1
  = Val (selected (run l1) ++ selected (run l2))
  ∧ processed_count (run (l1 ++ l2))
    = (processed_count (run l1) + processed_count (run l2))%nat
  ∧ ∀ key, count_of key (run (l1 ++ l2))
           = (count_of key (run l1) + count_of key (run l2))%nat.
Proof.
  intros run. unfold run. rewrite !filter_stocks_run. cbn [fst snd].
  unfold final_state.
  assert (has_reasons (rejected (entry_state akshare st))) as H
    by apply has_reasons_init.
  rewrite !fold_selected, !fold_processed by done.
  split; [|split].
  - simpl. by rewrite filter_app.
  - rewrite length_app. simpl. lia.
  - intros key. unfold count_of. rewrite !fold_count by done.
    rewrite filter_app, length_app. simpl.
    destruct (decide (key ∈ reasons)) as [Hk|Hk].
    + rewrite (rejected_init_in key Hk). simpl. lia.
    + by rewrite (rejected_init_out key Hk).
Qed.

(** X11.  The counts do not depend on the order of the list.  With a provider
    that answers the same way each time, two runs on lists that are
    permutations of each other process the same number of symbols, end
    with the same count under every key, and select the same symbols, up
    to their order. *)
Theorem counts_do_not_depend_on_the_order akshare l1 l2 st :
  l1 ≡ₚ l2 →
  selected (filter_stocks akshare l1 st).2
  ≡ₚ selected (filter_stocks akshare l2 st).2
  ∧ processed_count (filter_stocks akshare l1 st).2
    = processed_count (filter_stocks akshare l2 st).2
  ∧ ∀ key, count_of key (filter_stocks akshare l1 st).2
           = count_of key (filter_stocks akshare l2 st).2.
Proof.
  intros Hperm. rewrite !filter_stocks_run. cbn [snd]. unfold final_state.
  assert (has_reasons (rejected (entry_state akshare st))) as H
    by apply has_reasons_init.
  rewrite !fold_selected, !fold_processed by done.
  split; [|split].
  - simpl. by rewrite Hperm.
  - by rewrite (Permutation_length Hperm).
  - intros key. unfold count_of. rewrite !fold_count by done.
    assert (filter (fun s => evaluate akshare (benchmark akshare "000300") s
                             = Rejected key) l1
            ≡ₚ filter (fun s => evaluate akshare (benchmark akshare "000300") s
                                = Rejected key) l2) as Hf
      by by rewrite Hperm.
    by rewrite (Permutation_length Hf).
Qed.

Lemma counts_do_not_depend_on_the_order_witness :
  selected (filter_stocks env_A ["600000"; "300750"] st_nil).2
  ≡ₚ selected (filter_stocks env_A ["300750"; "600000"] st_nil).2
  ∧ processed_count (filter_stocks env_A ["600000"; "300750"] st_nil).2
    = processed_count (filter_stocks env_A ["300750"; "600000"] st_nil).2
  ∧ ∀ key, count_of key (filter_stocks env_A ["600000"; "300750"] st_nil).2
           = count_of key (filter_stocks env_A ["300750"; "600000"] st_nil).2.
Proof.
  apply (counts_do_not_depend_on_the_order env_A). apply Permutation_swap.
Defined.

(** The calls of one evaluation: the daily call first, at most four in
    all, and none of them an index call. *)
Lemma fetches_shape akshare index_pct symbol :
  ∃ rest,
    fetches akshare index_pct symbol = Call_stock_zh_a_hist symbol :: rest
    ∧ (length rest ≤ 3)%nat
    ∧ ∀ c, c ∈ rest →
        c = Call_stock_a_indicator_lg symbol ∨ c = Call_stock_zh_a_spot_em
        ∨ c = Call_stock_zh_a_minute symbol.
Proof.
  unfold fetches.
  assert (∀ k, ∃ rest,
            calls_through akshare symbol k = Call_stock_zh_a_hist symbol :: rest
            ∧ (length rest ≤ 3)%nat
            ∧ ∀ c, c ∈ rest →
                c = Call_stock_a_indicator_lg symbol
                ∨ c = Call_stock_zh_a_spot_em
                ∨ c = Call_stock_zh_a_minute symbol) as H.
  { intros k.
    destruct (valuation_calls_cases akshare symbol) as [E|E];
      destruct k; simpl; rewrite ?E; eexists; (split; [reflexivity|]);
      (split; [simpl; lia|]); intros c Hc; simpl in Hc;
      repeat (apply elem_of_cons in Hc as [->|Hc]); auto;
      by apply elem_of_nil in Hc. }
  destruct (first_stop _ _) as [[k c]|]; apply H.
Qed.

(** X12.  The index is fetched once, before the loop.  The calls of a run are
    the calls made before it, then the one or two index calls, then the
    calls of the loop: at least one and at most four per symbol, each of
    them a daily, indicator, spot or minute call for a symbol of the list,
    and none of them an index call. *)
Theorem index_is_fetched_once_before_the_loop akshare symbol_list st :
  ∃ rest,
    calls (filter_stocks akshare symbol_list st).2
    = calls st ++ index_calls akshare "000300" ++ rest
    ∧ (index_calls akshare "000300" = [Call_index_zh_a_hist "000300"]
       ∨ index_calls akshare "000300"
         = [Call_index_zh_a_hist "000300";
            Call_stock_zh_index_daily ("sh" +:+ "000300")])
    ∧ (length symbol_list ≤ length rest ≤ 4 * length symbol_list)%nat
    ∧ ∀ c, c ∈ rest →
        ∃ symbol, symbol ∈ symbol_list
          ∧ (c = Call_stock_zh_a_hist symbol
             ∨ c = Call_stock_a_indicator_lg symbol
             ∨ c = Call_stock_zh_a_spot_em
             ∨ c = Call_stock_zh_a_minute symbol).
Proof.
  exists (concat (map (fetches akshare (benchmark akshare "000300"))
                    symbol_list)).
  rewrite filter_stocks_run. cbn [snd]. unfold final_state.
  rewrite fold_calls by apply has_reasons_init.
  split; [by simpl; rewrite <- app_assoc|]. split.
  { unfold index_calls, get_index_data.
    cbv [mbind M_bind m_bind mret M_ret m_ret try_except ak lift raise].
    simpl.
    destruct (index_zh_a_hist akshare "000300") as [e|df]; simpl.
    - right. destruct (stock_zh_index_daily akshare _) as [e'|df]; simpl;
        [done|].
      destruct (idx_close df) as [col|]; simpl; [|done].
      by destruct (pct_change_last col).
    - left. destruct (idx_close df) as [col|]; simpl; [|done].
      by destruct (pct_change_last col). }
  induction symbol_list as [|s l IH]; simpl.
  { split; [lia|]. intros c Hc. by apply elem_of_nil in Hc. }
  destruct IH as [Hlen Hin].
  destruct (fetches_shape akshare (benchmark akshare "000300") s)
    as (rest & -> & Hr & Hc).
  split.
  - rewrite length_app. simpl. lia.
  - intros c [Hh|Ht]%elem_of_app.
    + exists s. split; [apply list_elem_of_here|].
      apply elem_of_cons in Hh as [->|Hh]; [by left|].
      right. by apply Hc.
    + destruct (Hin c Ht) as (s' & Hs' & Hcase).
      exists s'. split; [by apply list_elem_of_further|done].
Qed.

(** X13.  The two volume windows.  On a daily frame that ends with six
    sessions, the average volume of stage 4 is the mean over the five
    sessions before the last one, and does not change with the last
    session; the volumes of stage 7 are those of the last five sessions,
    the last one included. *)
Theorem volume_windows pre b1 b2 b3 b4 b5 today :
  let daily_df := pre ++ [b1; b2; b3; b4; b5; today] in
  avg_volume_5d daily_df
  = series_mean [volume b1; volume b2; volume b3; volume b4; volume b5]
  ∧ volumes daily_df
    = [volume b2; volume b3; volume b4; volume b5; volume today]
  ∧ ∀ other,
      avg_volume_5d (pre ++ [b1; b2; b3; b4; b5; other])
      = avg_volume_5d daily_df.
Proof.
  assert (∀ x, iloc_slice_neg 6 1
                 (map volume (pre ++ [b1; b2; b3; b4; b5; x]))
               = [volume b1; volume b2; volume b3; volume b4; volume b5])
    as Hslice.
  { intros x. unfold iloc_slice_neg.
    rewrite map_app, length_app, length_map. simpl.
    replace (length pre + 6 - 1)%nat with (length (map volume pre) + 5)%nat
      by (rewrite length_map; lia).
    rewrite take_app_add'; [|done]. simpl.
    replace (length pre + 6 - 6)%nat with (length (map volume pre) + 0)%nat
      by (rewrite length_map; lia).
    by rewrite drop_app_add'. }
  intros daily_df. unfold daily_df, avg_volume_5d. rewrite !Hslice.
  split; [done|]. split; [|by intros other; rewrite Hslice].
  unfold volumes, iloc_tail.
  rewrite map_app, length_app, length_map. simpl.
  replace (length pre + 6 - 5)%nat with (length (map volume pre) + 1)%nat
    by (rewrite length_map; lia).
  by rewrite drop_app_add'.
Qed.

Lemma filter_keeps_all {A} (P : A → Prop) `{∀ x, Decision (P x)} (l : list A) :
  Forall P l → filter P l = l.
Proof.
  induction 1 as [|x l Hx Hl IH]; [done|].
  rewrite filter_cons_True by done. by rewrite IH.
Qed.

(** X14.  [get_intraday_data] makes one provider call.  An exception of the
    call is passed on, and a frame without a '时间' column raises a
    [KeyError].  Otherwise the frame returned has the price column of the
    answer, and its rows are the rows of the answer from 14:30:00 on, in
    their order: no other row is dropped, and an answer that has only such
    rows is returned whole. *)
Theorem get_intraday_data_keeps_the_last_half_hour akshare symbol st :
  (∀ e, stock_zh_a_minute akshare symbol = inl e →
     get_intraday_data akshare symbol st
     = (Raise e, add_calls [Call_stock_zh_a_minute symbol] st))
  ∧ (∀ df, stock_zh_a_minute akshare symbol = inr df →
       time_column df = false →
       get_intraday_data akshare symbol st
       = (Raise (KeyError "time"),
          add_calls [Call_stock_zh_a_minute symbol] st))
  ∧ (∀ df, stock_zh_a_minute akshare symbol = inr df →
       time_column df = true →
       ∃ intraday_df,
         get_intraday_data akshare symbol st
         = (Val intraday_df, add_calls [Call_stock_zh_a_minute symbol] st)
         ∧ price_column intraday_df = price_column df
         ∧ ticks intraday_df `sublist_of` ticks df
         ∧ (∀ t, t ∈ ticks intraday_df
                 ↔ t ∈ ticks df ∧ (52200 ≤ time t)%Z)
         ∧ (Forall (fun t => (52200 ≤ time t)%Z) (ticks df) →
            ticks intraday_df = ticks df)).
Proof.
  unfold get_intraday_data. split; [|split].
  - intros e He. by rewrite (bind_ak_inl _ _ e).
  - intros df Hdf Hcol. rewrite (bind_ak_inr _ _ df) by done.
    unfold last_half_hour. by rewrite Hcol.
  - intros df Hdf Hcol. eexists. rewrite (bind_ak_inr _ _ df) by done.
    unfold last_half_hour. rewrite Hcol.
    split; [reflexivity|]. split; [done|]. cbn [ticks].
    split; [apply sublist_filter|]. split.
    + intros t. rewrite list_elem_of_filter. tauto.
    + apply filter_keeps_all.
Qed.

Lemma get_intraday_data_keeps_the_last_half_hour_witness :
  get_intraday_data env_no_minute "600000" st_nil
  = (Raise (ProviderError "timeout"),
     add_calls [Call_stock_zh_a_minute "600000"] st_nil)
  ∧ get_intraday_data env_no_columns "600000" st_nil
    = (Raise (KeyError "time"),
       add_calls [Call_stock_zh_a_minute "600000"] st_nil)
  ∧ ∃ intraday_df,
      get_intraday_data env_A "600000" st_nil
      = (Val intraday_df, add_calls [Call_stock_zh_a_minute "600000"] st_nil)
      ∧ price_column intraday_df = Some float64
      ∧ ticks intraday_df `sublist_of` ticks_A
      ∧ (∀ t, t ∈ ticks intraday_df ↔ t ∈ ticks_A ∧ (52200 ≤ time t)%Z)
      ∧ (Forall (fun t => (52200 ≤ time t)%Z) ticks_A →
         ticks intraday_df = ticks_A).
Proof.
  destruct (get_intraday_data_keeps_the_last_half_hour env_no_minute
              "600000" st_nil) as (H1 & _ & _).
  destruct (get_intraday_data_keeps_the_last_half_hour env_no_columns
              "600000" st_nil) as (_ & H2 & _).
  destruct (get_intraday_data_keeps_the_last_half_hour env_A
              "600000" st_nil) as (_ & _ & H3).
  split; [by apply H1|]. split; [by eapply H2|].
  by apply (H3 (minute_frame ticks_A)).
Defined.

(** X15.  The entry point screens the code column of the spot table.  When the
    spot call raises, the exception is not caught and nothing is screened.
    Otherwise the run is [filter_stocks] on the codes of the table, in the
    order of its rows: it processes as many symbols as the table has rows,
    and every symbol it returns is the code of a row. *)
Theorem main_screens_the_spot_table akshare st :
  (∀ e, stock_zh_a_spot_em akshare = inl e →
     main akshare st = (Raise e, add_calls [Call_stock_zh_a_spot_em] st))
  ∧ (∀ rows, stock_zh_a_spot_em akshare = inr rows →
       ∃ st',
         main akshare st = (Val (selected st'), st')
         ∧ main akshare st
           = filter_stocks akshare (map code rows)
               (add_calls [Call_stock_zh_a_spot_em] st)
         ∧ processed_count st' = length rows
         ∧ ∀ symbol, symbol ∈ selected st' →
             ∃ r, r ∈ rows ∧ code r = symbol).
Proof.
  unfold main. split.
  - intros e He. by rewrite (bind_ak_inl _ _ e).
  - intros rows Hrows. rewrite (bind_ak_inr _ _ rows) by done.
    eexists. split; [apply filter_stocks_run|]. split; [done|].
    unfold final_state.
    rewrite fold_processed, fold_selected by apply has_reasons_init.
    split; [by simpl; rewrite length_map|].
    simpl. intros symbol [_ Hin]%list_elem_of_filter.
    apply list_elem_of_fmap in Hin as (r & -> & Hr). eauto.
Qed.

Lemma main_screens_the_spot_table_witness :
  main env_no_spot st_nil
  = (Raise (ProviderError "timeout"),
     add_calls [Call_stock_zh_a_spot_em] st_nil)
  ∧ ∃ st',
      main env_A st_nil = (Val (selected st'), st')
      ∧ main env_A st_nil
        = filter_stocks env_A
            (map code [ {| code := "000001"; latest_price := 12 |};
                        {| code := "600000"; latest_price := 104 |} ])
            (add_calls [Call_stock_zh_a_spot_em] st_nil)
      ∧ processed_count st' = 2%nat
      ∧ ∀ symbol, symbol ∈ selected st' →
          ∃ r, r ∈ [ {| code := "000001"; latest_price := 12 |};
                     {| code := "600000"; latest_price := 104 |} ]
               ∧ code r = symbol.
Proof.
  split.
  - by apply (main_screens_the_spot_table env_no_spot st_nil).
  - by apply (main_screens_the_spot_table env_A st_nil).
Defined.

Lemma eqb_nan_l (x y : float) : is_nan x = true → (x =? y) = false.
Proof.
  intros Hx%is_nan_inv. by rewrite FloatAxioms.eqb_spec, Hx.
Qed.

(** X16.  The one-sided tests let a NaN through.  When the five earlier
    volumes are all missing, the average volume and the volume ratio are
    NaN and the volume-ratio counter is left alone; likewise a NaN
    dispersion leaves the stability counter alone and a NaN band distance
    the band counter.  The two-sided test of stage 3 does not: a NaN price
    move is rejected under the price-move key. *)
Theorem one_sided_tests_let_nan_through
    akshare index_pct symbol st daily_df today prev_day :
  has_reasons (rejected st) →
  stock_zh_a_hist akshare symbol = inr daily_df →
  iloc_neg 1 daily_df = inr today →
  iloc_neg 2 daily_df = inr prev_day →
  (is_nan (avg_volume_5d daily_df) = true →
     is_nan (volume_ratio today daily_df) = true
     ∧ count_of VolumeRatioTooLow (loop_body akshare index_pct symbol st).2
       = count_of VolumeRatioTooLow st)
  ∧ (is_nan (cv daily_df) = true →
       count_of VolumeUnstable (loop_body akshare index_pct symbol st).2
       = count_of VolumeUnstable st)
  ∧ (is_nan (resistance_distance akshare today daily_df) = true →
       count_of BandResistance (loop_body akshare index_pct symbol st).2
       = count_of BandResistance st)
  ∧ (is_nan (pct_change today prev_day) = true →
     check akshare index_pct symbol MinimumHistory = Pass →
     check akshare index_pct symbol ValuationAvailability = Pass →
     loop_body akshare index_pct symbol st
     = (Continue,
        bump_state PriceMoveOutOfRange
          (add_calls (calls_through akshare symbol DailyPriceMove)
             (count_state st)))).
Proof.
  intros Hst Hd Ht Hp.
  assert (Hratio : is_nan (avg_volume_5d daily_df) = true →
                   is_nan (volume_ratio today daily_df) = true).
  { intros Hn. unfold volume_ratio. rewrite (eqb_nan_l _ _ Hn). simpl.
    by apply div_nan_r. }
  split; [|split; [|split]].
  - intros Hn. split; [by apply Hratio|].
    apply (passed_stage_count akshare index_pct symbol VolumeSurge); [done|].
    unfold check, on_bars. rewrite Hd, Ht, Hp.
    by rewrite (ltb_nan_l _ _ (Hratio Hn)).
  - intros Hn.
    apply (passed_stage_count akshare index_pct symbol VolumeStability);
      [done|].
    unfold check, on_bars. rewrite Hd, Ht, Hp.
    by rewrite (ltb_nan_r _ _ Hn).
  - intros Hn.
    apply (passed_stage_count akshare index_pct symbol BandHeadroom); [done|].
    unfold check, on_bars. rewrite Hd, Ht, Hp.
    by rewrite (ltb_nan_l _ _ Hn).
  - intros Hn H1 H2.
    apply (loop_body_fail akshare index_pct symbol DailyPriceMove); [done| |].
    + intros j Hj. destruct j; simpl in Hj; try lia; done.
    + unfold check, on_bars. rewrite Hd, Ht, Hp.
      by rewrite (leb_nan_l _ _ Hn), andb_false_r.
Qed.

Lemma one_sided_tests_let_nan_through_witness :
  (is_nan (volume_ratio (bar 24 104 1.2e7) bars_nan_volume) = true
   ∧ count_of VolumeRatioTooLow
       (loop_body env_nan_volume (benchmark env_nan_volume "000300") "600000"
          (entry_state env_nan_volume st_nil)).2
     = count_of VolumeRatioTooLow (entry_state env_nan_volume st_nil))
  ∧ count_of VolumeUnstable
      (loop_body env_nan_volume (benchmark env_nan_volume "000300") "600000"
         (entry_state env_nan_volume st_nil)).2
    = count_of VolumeUnstable (entry_state env_nan_volume st_nil)
  ∧ count_of BandResistance
      (loop_body env_nan_band (benchmark env_nan_band "000300") "600000"
         (entry_state env_nan_band st_nil)).2
    = count_of BandResistance (entry_state env_nan_band st_nil)
  ∧ loop_body env_nan_close (benchmark env_nan_close "000300") "600000"
      (entry_state env_nan_close st_nil)
    = (Continue,
       bump_state PriceMoveOutOfRange
         (add_calls (calls_through env_nan_close "600000" DailyPriceMove)
            (count_state (entry_state env_nan_close st_nil)))).
Proof.
  destruct (one_sided_tests_let_nan_through env_nan_volume
              (benchmark env_nan_volume "000300") "600000"
              (entry_state env_nan_volume st_nil) bars_nan_volume
              (bar 24 104 1.2e7) (bar 23 100 nan) has_reasons_init
              ltac:(by vm_compute) ltac:(by vm_compute) ltac:(by vm_compute))
    as (Hratio & Hcv & _ & _).
  destruct (one_sided_tests_let_nan_through env_nan_band
              (benchmark env_nan_band "000300") "600000"
              (entry_state env_nan_band st_nil) bars_nan_band
              (bar 24 104 1.2e7) (bar 23 100 1e7) has_reasons_init
              ltac:(by vm_compute) ltac:(by vm_compute) ltac:(by vm_compute))
    as (_ & _ & Hband & _).
  destruct (one_sided_tests_let_nan_through env_nan_close
              (benchmark env_nan_close "000300") "600000"
              (entry_state env_nan_close st_nil) (bars nan 1.2e7)
              (bar 24 nan 1.2e7) (bar 23 100 1e7) has_reasons_init
              ltac:(by vm_compute) ltac:(by vm_compute) ltac:(by vm_compute))
    as (_ & _ & _ & Hpct).
  split; [|split; [|split]].
  - apply Hratio. by vm_compute.
  - apply Hcv. by vm_compute.
  - apply Hband. by vm_compute.
  - apply Hpct; by vm_compute.
Defined.

Example nan_volume_symbol_is_selected :
  outcome env_nan_volume ["600000"] = (Val ["600000"], [], 1%nat)
  ∧ outcome env_nan_band ["600000"] = (Val ["600000"], [], 1%nat).
Proof. split; by vm_compute. Qed.

(** X17.  Twenty sessions are enough, and needed.  A symbol whose daily frame
    has fewer than 20 rows, or none, is rejected under the history key
    after the daily call alone, with no index error and no further call;
    with 20 rows or more the history counter is left alone. *)
Theorem twenty_sessions_are_enough akshare index_pct symbol st daily_df :
  has_reasons (rejected st) →
  stock_zh_a_hist akshare symbol = inr daily_df →
  ((length daily_df < 20)%nat →
     loop_body akshare index_pct symbol st
     = (Continue,
        bump_state InsufficientHistory
          (add_calls [Call_stock_zh_a_hist symbol] (count_state st))))
  ∧ ((20 ≤ length daily_df)%nat →
       count_of InsufficientHistory (loop_body akshare index_pct symbol st).2
       = count_of InsufficientHistory st).
Proof.
  intros Hst Hd. split.
  - intros Hlen.
    apply (loop_body_fail akshare index_pct symbol MinimumHistory); [done| |].
    + intros j Hj. destruct j; simpl in Hj; lia.
    + cbn [check]. rewrite Hd.
      by rewrite (proj2 (Nat.ltb_lt (length daily_df) 20)).
  - intros Hlen.
    apply (passed_stage_count akshare index_pct symbol MinimumHistory);
      [done|].
    cbn [check]. rewrite Hd.
    by rewrite (proj2 (Nat.ltb_ge (length daily_df) 20)).
Qed.

Lemma twenty_sessions_are_enough_witness :
  loop_body env_19_sessions (benchmark env_19_sessions "000300") "600000"
    (entry_state env_19_sessions st_nil)
  = (Continue,
     bump_state InsufficientHistory
       (add_calls [Call_stock_zh_a_hist "600000"]
          (count_state (entry_state env_19_sessions st_nil))))
  ∧ loop_body env_no_session (benchmark env_no_session "000300") "600000"
      (entry_state env_no_session st_nil)
    = (Continue,
       bump_state InsufficientHistory
         (add_calls [Call_stock_zh_a_hist "600000"]
            (count_state (entry_state env_no_session st_nil))))
  ∧ count_of InsufficientHistory
      (loop_body env_20_sessions (benchmark env_20_sessions "000300")
         "600000" (entry_state env_20_sessions st_nil)).2
    = count_of InsufficientHistory (entry_state env_20_sessions st_nil).
Proof.
  destruct (twenty_sessions_are_enough env_19_sessions
              (benchmark env_19_sessions "000300") "600000"
              (entry_state env_19_sessions st_nil) (drop 6 (bars 104 1.2e7))
              has_reasons_init eq_refl) as [H19 _].
  destruct (twenty_sessions_are_enough env_no_session
              (benchmark env_no_session "000300") "600000"
              (entry_state env_no_session st_nil) []
              has_reasons_init eq_refl) as [H0 _].
  destruct (twenty_sessions_are_enough env_20_sessions
              (benchmark env_20_sessions "000300") "600000"
              (entry_state env_20_sessions st_nil) (drop 5 (bars 104 1.2e7))
              has_reasons_init eq_refl) as [_ H20].
  split; [|split].
  - apply H19. vm_compute. lia.
  - apply H0. simpl. lia.
  - apply H20. vm_compute. lia.
Defined.

(** X18.  The thresholds of stages 4 to 8 are inclusive.  A volume ratio of
    exactly 1, a turnover of exactly 5 or 10, a float market value of
    exactly 50e8 or 200e8, a dispersion of exactly 0.5 and a band distance
    of exactly 3 each leave the counter of their stage alone. *)
Theorem thresholds_are_inclusive
    akshare index_pct symbol st daily_df today prev_day float_share total_mv :
  has_reasons (rejected st) →
  stock_zh_a_hist akshare symbol = inr daily_df →
  iloc_neg 1 daily_df = inr today →
  iloc_neg 2 daily_df = inr prev_day →
  valuation akshare symbol = (float_share, Some total_mv) →
  (volume_ratio today daily_df = 1 →
     count_of VolumeRatioTooLow (loop_body akshare index_pct symbol st).2
     = count_of VolumeRatioTooLow st)
  ∧ (est_turnover_rate today total_mv = 5
     ∨ est_turnover_rate today total_mv = 10 →
     count_of TurnoverOutOfRange (loop_body akshare index_pct symbol st).2
     = count_of TurnoverOutOfRange st)
  ∧ (est_float_mv total_mv = 50e8 ∨ est_float_mv total_mv = 200e8 →
     count_of MarketValueOutOfRange (loop_body akshare index_pct symbol st).2
     = count_of MarketValueOutOfRange st)
  ∧ (cv daily_df = 0.5 →
     count_of VolumeUnstable (loop_body akshare index_pct symbol st).2
     = count_of VolumeUnstable st)
  ∧ (resistance_distance akshare today daily_df = 3 →
     count_of BandResistance (loop_body akshare index_pct symbol st).2
     = count_of BandResistance st).
Proof.
  intros Hst Hd Ht Hp Hv.
  split; [|split; [|split; [|split]]].
  - intros E.
    apply (passed_stage_count akshare index_pct symbol VolumeSurge); [done|].
    unfold check, on_bars. by rewrite Hd, Ht, Hp, E.
  - intros E.
    apply (passed_stage_count akshare index_pct symbol Turnover); [done|].
    unfold check, on_bars, on_total_mv. rewrite Hd, Ht, Hp, Hv. cbn [snd number].
    by destruct E as [-> | ->].
  - intros E.
    apply (passed_stage_count akshare index_pct symbol FloatMarketValue);
      [done|].
    unfold check, on_total_mv. rewrite Hv. cbn [snd number].
    by destruct E as [-> | ->].
  - intros E.
    apply (passed_stage_count akshare index_pct symbol VolumeStability);
      [done|].
    unfold check, on_bars. by rewrite Hd, Ht, Hp, E.
  - intros E.
    apply (passed_stage_count akshare index_pct symbol BandHeadroom); [done|].
    unfold check, on_bars. by rewrite Hd, Ht, Hp, E.
Qed.

Lemma thresholds_are_inclusive_witness :
  let unchanged env key :=
    count_of key
      (loop_body env (benchmark env "000300") "600000"
         (entry_state env st_nil)).2
    = count_of key (entry_state env st_nil) in
  unchanged env_ratio_1 VolumeRatioTooLow
  ∧ unchanged env_turnover_5 TurnoverOutOfRange
  ∧ unchanged env_turnover_10 TurnoverOutOfRange
  ∧ unchanged env_float_mv_50e8 MarketValueOutOfRange
  ∧ unchanged env_float_mv_200e8 MarketValueOutOfRange
  ∧ unchanged env_cv_edge VolumeUnstable
  ∧ unchanged env_band_edge BandResistance.
Proof.
  intros unchanged. unfold unchanged.
  split; [|split; [|split; [|split; [|split; [|split]]]]].
  - destruct (thresholds_are_inclusive env_ratio_1
                (benchmark env_ratio_1 "000300") "600000"
                (entry_state env_ratio_1 st_nil)
                (bars 104 1e7) (bar 24 104 1e7) (bar 23 100 1e7)
                (valuation env_ratio_1 "600000").1 (200 * 1e8)
                has_reasons_init ltac:(by vm_compute) ltac:(by vm_compute)
                ltac:(by vm_compute) ltac:(by vm_compute))
      as (H & _).
    apply H. by vm_compute.
  - destruct (thresholds_are_inclusive env_turnover_5
                (benchmark env_turnover_5 "000300") "600000"
                (entry_state env_turnover_5 st_nil)
                (bars 104 1.2e7) (bar 24 104 1.2e7) (bar 23 100 1e7)
                (valuation env_turnover_5 "600000").1 (249.6 * 1e8)
                has_reasons_init ltac:(by vm_compute) ltac:(by vm_compute)
                ltac:(by vm_compute) ltac:(by vm_compute))
      as (_ & H & _).
    apply H. left. by vm_compute.
  - destruct (thresholds_are_inclusive env_turnover_10
                (benchmark env_turnover_10 "000300") "600000"
                (entry_state env_turnover_10 st_nil)
                (bars 104 1.2e7) (bar 24 104 1.2e7) (bar 23 100 1e7)
                (valuation env_turnover_10 "600000").1 (124.8 * 1e8)
                has_reasons_init ltac:(by vm_compute) ltac:(by vm_compute)
                ltac:(by vm_compute) ltac:(by vm_compute))
      as (_ & H & _).
    apply H. right. by vm_compute.
  - destruct (thresholds_are_inclusive env_float_mv_50e8
                (benchmark env_float_mv_50e8 "000300") "600000"
                (entry_state env_float_mv_50e8 st_nil)
                (history 4e6 ++ [bar 24 104 5e6]) (bar 24 104 5e6) (bar 23 100 4e6)
                (valuation env_float_mv_50e8 "600000").1 (71.428571428571431 * 1e8)
                has_reasons_init ltac:(by vm_compute) ltac:(by vm_compute)
                ltac:(by vm_compute) ltac:(by vm_compute))
      as (_ & _ & H & _).
    apply H. left. by vm_compute.
  - destruct (thresholds_are_inclusive env_float_mv_200e8
                (benchmark env_float_mv_200e8 "000300") "600000"
                (entry_state env_float_mv_200e8 st_nil)
                (bars 104 2e7) (bar 24 104 2e7) (bar 23 100 1e7)
                (valuation env_float_mv_200e8 "600000").1 (285.71428571428572 * 1e8)
                has_reasons_init ltac:(by vm_compute) ltac:(by vm_compute)
                ltac:(by vm_compute) ltac:(by vm_compute))
      as (_ & _ & H & _).
    apply H. right. by vm_compute.
  - destruct (thresholds_are_inclusive env_cv_edge
                (benchmark env_cv_edge "000300") "600000"
                (entry_state env_cv_edge st_nil)
                bars_cv_edge (bar 24 104 8e6) (bar 23 100 3e6)
                (valuation env_cv_edge "600000").1 (100 * 1e8)
                has_reasons_init ltac:(by vm_compute) ltac:(by vm_compute)
                ltac:(by vm_compute) ltac:(by vm_compute))
      as (_ & _ & _ & H & _).
    apply H. by vm_compute.
  - destruct (thresholds_are_inclusive env_band_edge
                (benchmark env_band_edge "000300") "600000"
                (entry_state env_band_edge st_nil)
                bars_band_edge (bar 24 100 1.2e7) (bar 23 96 1e7)
                (valuation env_band_edge "600000").1 (200 * 1e8)
                has_reasons_init ltac:(by vm_compute) ltac:(by vm_compute)
                ltac:(by vm_compute) ltac:(by vm_compute))
      as (_ & _ & _ & _ & H).
    apply H. by vm_compute.
Defined.

Example threshold_symbols_are_selected :
  Forall (fun env => outcome env ["600000"] = (Val ["600000"], [], 1%nat))
    [env_ratio_1; env_turnover_5; env_turnover_10; env_float_mv_50e8;
     env_float_mv_200e8; env_cv_edge; env_band_edge; env_20_sessions].
Proof. repeat constructor; by vm_compute. Qed.
